(* ===== verification/_CoqProject ===== *)
-Q . S2P
Prelude.v
Float32.v
Http.v
Tensor.v
Pillow.v
Forms.v
Imaging.v
Preprocess.v
Decode.v
ClassIndex.v
Threads.v
OsPath.v
Views.v
Urls.v
Server.v
