(* ===== verification/Prelude.v ===== *)
(** * A verification library for the photoidentify Django application

    The repository (kadai_06/appenv_vgg16app/photoidentify) is a small web
    front-end that classifies an uploaded photograph with a pretrained
    VGG16 network.  Its code is three Python files:

    - [prediction/forms.py]: the form class [ImageUploadForm], a Django
      form with a single required [forms.ImageField] named ["image"];
    - [prediction/views.py]: the view [predict(request)], which on [GET]
      renders an empty form, on [POST] binds the form to the request,
      validates it, and when the upload is a valid image reads its bytes,
      loads them with Keras' [load_img] at 224x224, converts them with
      [img_to_array], reshapes to (1,224,224,3), applies VGG16's
      [preprocess_input], loads the model file
      [BASE_DIR/prediction/models/vgg16.h5] with [load_model], runs
      [model.predict], decodes the top 5 labels with
      [decode_predictions(result, top=5)[0]] and renders them together with
      the echoed hidden field [img_data]; an invalid form is replaced by a
      fresh empty form; any other HTTP method falls off the end of the
      function, which returns [None];
    - [photoidentify/urls.py]: the URL table routing [""] to [predict]
      (named ["predict"]) and ["admin/"] to Django's admin site.

    The view calls into three libraries: Django (request data as
    [QueryDict]/[MultiValueDict], form validation, [render], URL
    resolution), Pillow, and Keras/numpy (arrays, [load_img],
    [img_to_array], [reshape], [preprocess_input], [decode_predictions]).
    The library functions the view calls are translated from their own
    code, each to the extent the view exercises it, and mapped to the line
    of the view (or of forms.py, urls.py) that calls it.  Image decoding and
    the network's arithmetic are interfaces (type classes) whose laws are
    the hypotheses of the theorems; each interface has a small executable
    instance so that every theorem with hypotheses is applied to a
    concrete input.

    The program is not stateless: [decode_predictions] keeps the ImageNet
    class index in the module global [CLASS_INDEX] of Keras, filled on the
    first decoding call of a process from a file that [get_file] caches in
    [~/.keras/models] (downloading it when absent or corrupt).  The view
    and the handler therefore run in a state-and-exception monad [pyst]
    over that state ([KerasState]), and a worker process is a sequence of
    handled requests.

    ** Files and what they model

    - [Prelude] (this file): Python exceptions as the sum type [PyExc] and
      the exception monad [py] with its notation [x <- m ;; k]; the
      state-and-exception monad [pyst S] (stdpp's [MRet], [MBind] and
      [MThrow] instances, so [x ← m; k]) with [lift], [st_get], [st_put]
      and the tactics [st_run]/[st_unfold]; Python's
      slice [l[-n:]] ([py_slice_last]), [py_mapM] (a loop that can raise),
      chunking a flat list into rows ([rows]), a stable insertion sort
      ([isort]); the hint databases [photo] and [photo_rw].
    - [Http]: Django's [MultiValueDict] (Module [MultiValueDict]) as a
      [gmap] from keys to the list of submitted values, [get] returning the
      last one; [UploadedFile], [HttpRequest] with its [method], [POST] and
      [FILES]; [render] and the rendered [HttpResponse].
    - [Float32]: IEEE 754 rounding to nearest, ties to even, in binary32
      and binary64 ([fl32], [fl64]), by Stdlib's [SpecFloat]: a float
      operation of the code is its exact result rounded.
    - [Tensor]: numpy arrays as a shape and a row-major list of rationals
      (which hold the float32 values exactly),
      [reshape] with numpy's size check, multi-index addressing ([offset],
      [item]), maps over the rows of the last axis ([map_rows]) and
      element-wise equivalence [arr_equiv] with its setoid instance.
    - [Pillow]: image modes and images, the [Pillow] interface ([open],
      [verify], [convert], [resize]) and its laws [PillowLaws] (shapes,
      modes, 8-bit band values); Module [Fixture] is a toy codec
      discharging them.
    - [Forms]: [forms.py]'s [ImageUploadForm] and Django's cleaning of an
      [ImageField] (Section [Cleaning]: [FileField.to_python],
      [ImageField.to_python] with Pillow's [verify], [Field.validate], the
      extension validator, [full_clean], [is_valid], [cleaned_data]).
    - [Imaging]: Keras' [load_img] (mode conversion, the (height, width)
      to (width, height) swap, resizing) and [img_to_array].
    - [Preprocess]: VGG16's [preprocess_input] in "caffe" mode: the four
      numpy statements (RGB to BGR, one float32 subtraction per channel
      of a Python-float mean cast to float32).
    - [Decode]: numpy's [argsort] (an interface [argsort_contract] with the
      stable [np_argsort] as instance), the slice [[-top:][::-1]], Python's
      stable descending [sort] and Keras' [decode_predictions]; an abstract
      top-k specification [topk_spec] it refines; the shape guard
      [preds_shape_ok] and the row loop [decode_rows].
    - [ClassIndex]: the Keras state [KerasState] ([CLASS_INDEX] and the
      cached file), [get_file] (existence and md5 check, [download] with
      removal of a failed fetch and validation after it), the loading of
      [CLASS_INDEX] and [decode_predictions_global], the whole
      [decode_predictions]; md5 and [json.load] are the interface
      [ClassIndexCodec], with the laws [ClassIndexCodecLaws] (a file whose
      md5 matches parses, always to the same index).
    - [Threads]: runserver answers each request in a thread of one
      process, and these threads share [KerasState].  The loading of
      [CLASS_INDEX] is cut into the phases between which a thread switch
      can happen ([Phase]: the test of [CLASS_INDEX], get_file's first
      check, [urlretrieve], [validate_file] after it, [open] and
      [json.load], the assignment); [thread_step] is one phase of one
      [Thread], [pool_step] lets any thread of a pool take its step, and
      [run_schedule] runs an interleaving given as a list of thread
      indices.
    - [OsPath]: [posixpath.join] and the model path of the view.
    - [Views]: the Keras model interface ([Class Keras]), the environment
      [Env] (settings.BASE_DIR, the files on disk, what the network
      answers for the class index) and the view [predict] of views.py
      lines 25-89, one definition per branch ([predict_get_response],
      [predict_post], [predict_valid], [prepare_image], [classify]), a
      [pyst KerasState] computation returning an exception, [Some]
      response or [None].
    - [Urls]: the URL table of urls.py built as the file builds it, by
      Django's [path] from the imported [predict] and [admin.site.urls];
      Django's [resolve] and [reverse],
      and the request handler [handle] that turns a [None] view result
      into a [ValueError] (a server error).
    - [Server]: a worker process as [serve] (the requests handled in
      order, each in the world it meets) and as the step relation [step]
      with its [reachable] states; the structure lemmas [predict_cases],
      [classify_cases] and [handle_cases] (the state is touched only by
      the loading of the class index); [eventually], a property holding
      after some prefix of a run.

    ** What the theorems show

    - The view (Views, Urls): the response to GET; a POST with an accepted
      upload renders the top-5 predictions of the network's output, the
      bound form and the echoed [img_data]; a rejected upload gets the GET
      response; a missing model file or an image Pillow cannot load raises
      out of the view, leaving the state as it was; so does a failed
      download of the class index on the first decoding request; any
      other method makes the view return [None], which the handler turns
      into a server error.  Every page the view renders is typed: status
      200, [home.html], and a context with each key once, the form always
      there, each value of its key's kind ([ctx_well_typed]).
    - The process (Server, ClassIndex): in every reachable state a filled
      [CLASS_INDEX] is the parse of the cached file whose md5 matches
      (an invariant by induction on [reachable]); once filled, the state
      never changes and the network no longer matters to any run of
      requests; a request answered with a page and repeated gets the
      same page; [decode_predictions] checks the shape before loading
      and computes the stateless decoding of the loaded index; a failed
      fetch removes the file, a corrupt one is kept and rejected.
      Liveness: a run containing a request the view decodes, in a world
      where the index can be fetched, eventually fills [CLASS_INDEX].
    - Threads: with downloads that fail or return the published
      file, every interleaving keeps [CLASS_INDEX] the parse of a
      validated file and all threads that return an index return that
      one (an invariant of [pool_step], by induction on [rtc]); but with
      one thread receiving other valid JSON ([{}], as a proxy may send),
      an explicit interleaving installs [{}] as [CLASS_INDEX] although it
      never passed the md5 check, because [validate_file] and [open] read
      the file at different times; every later decoding then raises
      [KeyError]; and one thread's failed download removes the file
      between another thread's md5 check and its [open], so that thread
      raises [FileNotFoundError] although alone it would load the index.
      (As a check of the stepped model, a thread running alone computes
      exactly the sequential [load_class_index], [thread_solo_refines].)
    - The form (Forms): [is_valid] of the bound form holds exactly when
      the last uploaded file has a name, content, passes [verify] and has
      a registered extension.
    - The array pipeline (Imaging, Tensor, Preprocess): [load_img] then
      [img_to_array] give an (h, w, 3) array, so the [reshape] to
      (1, 224, 224, 3) never raises, whereas at the 256x256 the comment
      of line 54 states it would; [preprocess_input] keeps the shape,
      computes each element by an explicit float32 formula, and raises
      [IndexError] on fewer than 3 channels; on 8-bit input each channel
      is within [2^-16] of the exact decimal computation and lies in its
      float32 range, overall from [-123.68000030517578125] to
      [151.061004638671875].
    - Decoding (Decode): the loop body refines the top-k specification
      (distinct classes, descending scores, no omitted class scoring
      higher); [decode_predictions] does so row by row, and it raises
      [ValueError] unless the array is (n, 1000).
    - Routing (Urls): the URL table routes exactly
      ["/"] to the view and ["/admin/..."] to the admin site, and
      [reverse('predict')] resolves back to the view.

    ** Numbers, fuel and bounds

    Array elements are rationals [Q] that hold float32 values exactly.
    Where the code computes in float32 ([preprocess_input]) each result
    is rounded by [fl32], the means being Python doubles ([fl64]) cast to
    float32; the network's arithmetic is an interface, and the decoding
    only compares and selects its outputs.  Pixel values are [Z] with
    their 8-bit range a law of the Pillow interface; the float32 bounds
    of [preprocess_input] are closed by evaluating the 3 x 256 cases.  The one function with fuel is [rows], which cuts
    a flat list into rows of length [c]; [decode_predictions] calls it
    with the list's length as fuel, which is enough for any [c > 0]: any
    larger fuel gives the same rows ([rows_fuel], [decode_rows_rows]).
    A thread of [Threads] runs alone with fuel [run_solo]: six steps are
    enough (test, check, download, validate, open, assign).  Every other loop
    of the code is a structural recursion over a list, a run of the
    process is a list of requests and an interleaving a list of thread
    indices.

    ** Not modelled

    Django's admin site, templates (only the template name and the
    context are modelled), middleware and CSRF checks (with Django's
    default middleware a POST or PUT without a CSRF token gets a 403
    before the view runs); separate worker processes (each has its own
    [KerasState], although the cached file is shared by the whole host); of the threads of one
    process only the loading of the class index is interleaved (the rest
    of the view touches no shared state), at the granularity of the file
    operations: [urlretrieve] is one step that returns (the real call has
    no timeout and can block forever), and a partial file left by an
    interrupted [urlretrieve] and switches inside a bytecode are not
    modelled; [get_file]'s archive extraction,
    progress bar and fallback to [/tmp/.keras] when the home directory is
    not writable; real image codecs, md5, JSON parsing and the network's
    arithmetic (interfaces with laws); numpy's unstable default [argsort]
    on ties (the development states the result for any argsort meeting
    [argsort_contract]); float32 rounding outside [preprocess_input]
    (the network's own arithmetic).
*)

From stdpp Require Export base list strings sorting.
From Stdlib Require Strings.Byte.


(** ** Python exceptions *)

(** The exception classes the modelled code can raise or let propagate. *)
Inductive PyExc :=
| ValueError (msg : string)
| OSError (msg : string)
| KeyError (key : string)
| IndexError (msg : string)
| UnidentifiedImageError (msg : string)
| ValidationError (code : string)
| AttributeError (msg : string)
| Exception (msg : string).

(** A Python computation that returns an [A] or raises. *)
Definition py (A : Type) : Type := (PyExc + A)%type.

Definition py_ret {A} (a : A) : py A := inr a.
Definition py_raise {A} (e : PyExc) : py A := inl e.

Definition py_bind {A B} (m : py A) (k : A -> py B) : py B :=
  match m with
  | inl e => inl e
  | inr a => k a
  end.

Declare Scope py_scope.
Delimit Scope py_scope with py.
Notation "x <- m ;; k" := (py_bind m (fun x => k))
  (at level 100, m at next level, right associativity) : py_scope.
Open Scope py_scope.

(** Bytes compare by [Byte.byte_eq_dec], so that [decide] and
    [bool_decide] work on byte strings. *)
#[export] Instance byte_eq_dec : EqDecision Init.Byte.byte := Strings.Byte.byte_eq_dec.

(** ** Python computations with state

    [pyst S A] reads and updates a state [S] (the module globals and the
    files a library keeps from one call to the next) and returns an [A] or
    raises.  The state reached before an exception is kept, as Python
    keeps the assignments made before a [raise].  It is a monad through
    stdpp's classes, so [x ← m; k] sequences two computations. *)
Definition pyst (S A : Type) : Type := S -> S * py A.

#[export] Instance pyst_ret {S} : MRet (pyst S) := fun A a s => (s, inr a).
#[export] Instance pyst_bind {S} : MBind (pyst S) := fun A B k m s =>
  match m s with
  | (s', inl e) => (s', inl e)
  | (s', inr a) => k a s'
  end.
#[export] Instance pyst_throw {S} : MThrow PyExc (pyst S) := fun A e s => (s, inl e).

(** A computation that does not touch the state. *)
Definition lift {S A} (m : py A) : pyst S A := fun s => (s, m).
Definition st_get {S} : pyst S S := fun s => (s, inr s).
Definition st_put {S} (s : S) : pyst S unit := fun _ => (s, inr tt).

(** ** Python list idioms *)

(** [l[-n:]]: the last [n] elements.  In Python [-0] is [0], so [l[-0:]]
    is the whole list. *)
Definition py_slice_last {A} (n : nat) (l : list A) : list A :=
  match n with
  | O => l
  | S _ => drop (length l - n) l
  end.

(** [l[-1]] on a non-empty list (the value [MultiValueDict] returns). *)
Definition py_last {A} (l : list A) : option A := last l.

(** ** Automation *)

Create HintDb photo.
Create Rewrite HintDb photo_rw.

(** ** Generic lemmas *)

Lemma py_bind_inr {A B} (a : A) (k : A -> py B) : py_bind (inr a) k = k a.
Proof. reflexivity. Qed.

Lemma py_bind_inl {A B} (e : PyExc) (k : A -> py B) : py_bind (inl e) k = inl e.
Proof. reflexivity. Qed.

#[export] Hint Rewrite @py_bind_inr @py_bind_inl : photo_rw.

Lemma py_bind_ok_inv {A B} (m : py A) (k : A -> py B) (b : B) :
  py_bind m k = inr b -> exists a, m = inr a /\ k a = inr b.
Proof. destruct m; simpl; [discriminate | eauto]. Qed.

Lemma py_bind_err_inv {A B} (m : py A) (k : A -> py B) (e : PyExc) :
  py_bind m k = inl e -> m = inl e \/ exists a, m = inr a /\ k a = inl e.
Proof. destruct m; simpl; [intros [= ->]; auto | eauto]. Qed.

Lemma pyst_bind_run {S A B} (m : pyst S A) (k : A -> pyst S B) s :
  (m ≫= k) s = match m s with (s', inl e) => (s', inl e) | (s', inr a) => k a s' end.
Proof. reflexivity. Qed.

Lemma pyst_bind_ok {S A B} (m : pyst S A) (k : A -> pyst S B) s s' a :
  m s = (s', inr a) -> (m ≫= k) s = k a s'.
Proof. intros H. by rewrite pyst_bind_run, H. Qed.

Lemma pyst_bind_err {S A B} (m : pyst S A) (k : A -> pyst S B) s s' e :
  m s = (s', inl e) -> (m ≫= k) s = (s', inl e).
Proof. intros H. by rewrite pyst_bind_run, H. Qed.

Lemma lift_bind {S A B} (m : py A) (k : A -> pyst S B) s :
  (lift m ≫= k) s = match m with inl e => (s, inl e) | inr a => k a s end.
Proof. by destruct m. Qed.

Lemma mret_run {S A} (a : A) (s : S) : (mret a : pyst S A) s = (s, inr a).
Proof. reflexivity. Qed.

Lemma lift_run {S A} (m : py A) (s : S) : lift m s = (s, m).
Proof. reflexivity. Qed.

#[export] Hint Rewrite @lift_bind @mret_run @lift_run : photo_rw.

Lemma length_py_slice_last {A} (n : nat) (l : list A) :
  n <> 0 -> length (py_slice_last n l) = Nat.min n (length l).
Proof. destruct n; [done|]. intros _. unfold py_slice_last. rewrite length_drop. lia. Qed.

Lemma py_slice_last_sublist {A} (n : nat) (l : list A) :
  exists pre, l = pre ++ py_slice_last n l.
Proof.
  destruct n; simpl; [by exists []|].
  exists (take (length l - S n) l). by rewrite take_drop.
Qed.

Ltac py_simpl := repeat (autorewrite with photo_rw in *; simpl in *).

(** Case analysis on every [py_bind] that blocks the goal's computation. *)
Ltac py_cases :=
  repeat match goal with
  | |- context [py_bind ?m _] =>
      let E := fresh "E" in destruct m eqn:E; simpl
  end.

(** Run a [pyst] computation: unfold the monad's operations, and
    simplify ([st_unfold]) or only reduce the unfolded redexes, leaving
    the program's own definitions folded ([st_run]). *)
Ltac st_run :=
  unfold mbind, pyst_bind, mret, pyst_ret, mthrow, pyst_throw, lift, st_get, st_put in *;
  cbv beta iota zeta in *.
Ltac st_unfold := st_run; simpl in *.

Lemma length_concat_uniform {A} (n : nat) (l : list (list A)) :
  Forall (fun p => length p = n) l -> length (concat l) = length l * n.
Proof. induction 1 as [|p l Hp _ IH]; simpl; [done|]. rewrite length_app, IH. lia. Qed.

(** ** Rows of a flat buffer

    [rows c fuel l] cuts [l] into consecutive pieces of length [c] (the
    last one shorter when [c] does not divide [length l]); [length l] is
    enough fuel when [c > 0] ([rows_concat]). *)
Fixpoint rows {A} (c fuel : nat) (l : list A) : list (list A) :=
  match fuel with
  | O => []
  | S fuel =>
      match l with
      | [] => []
      | _ => take c l :: rows c fuel (drop c l)
      end
  end.

Lemma rows_S {A} (c fuel : nat) (l : list A) :
  l <> [] -> rows c (S fuel) l = take c l :: rows c fuel (drop c l).
Proof. by destruct l. Qed.

Lemma rows_concat {A} (c : nat) (l : list A) fuel :
  0 < c -> length l <= fuel -> concat (rows c fuel l) = l.
Proof.
  revert l. induction fuel as [|fuel IH]; intros l Hc Hl; simpl.
  - destruct l; simpl in *; [done|lia].
  - destruct l as [|x l']; [done|]. simpl.
    rewrite IH; [by rewrite take_drop|done|].
    rewrite length_drop. simpl in *. lia.
Qed.

Lemma rows_uniform {A} (c m : nat) (l : list A) fuel :
  length l = c * m -> Forall (fun p => length p = c) (rows c fuel l).
Proof.
  revert l m. induction fuel as [|fuel IH]; intros l m Hl; simpl; [done|].
  destruct l as [|x l']; [done|].
  destruct m as [|m]; [simpl in *; lia|].
  constructor.
  - rewrite length_take. simpl in *. nia.
  - apply (IH _ m). rewrite length_drop. simpl in *. nia.
Qed.

Lemma length_rows {A} (c m : nat) (l : list A) fuel :
  0 < c -> length l <= fuel -> length l = c * m -> length (rows c fuel l) = m.
Proof.
  intros Hc Hf Hl. apply (Nat.mul_cancel_l _ _ c); [lia|].
  rewrite <- Hl. rewrite <- (rows_concat c l fuel) at 2 by done.
  rewrite (length_concat_uniform c); [lia|]. by eapply rows_uniform.
Qed.

(** Any fuel of at least [length l] gives the same rows: [length l] is
    enough, and more does not change the result. *)
Lemma rows_fuel {A} (c : nat) (l : list A) f1 f2 :
  0 < c -> length l <= f1 -> length l <= f2 -> rows c f1 l = rows c f2 l.
Proof.
  revert l f2. induction f1 as [|f1 IH]; intros l f2 Hc H1 H2.
  - destruct l; simpl in *; [by destruct f2|lia].
  - destruct l as [|x l']; [by destruct f2|].
    destruct f2 as [|f2]; [simpl in *; lia|]. simpl.
    f_equal. apply IH; [done| |]; rewrite length_drop; simpl in *; lia.
Qed.

Lemma lookup_concat_uniform {A} (c : nat) (L : list (list A)) o k :
  Forall (fun p => length p = c) L -> k < c ->
  concat L !! (o * c + k) = L !! o ≫= (fun p => p !! k).
Proof.
  intros HL Hk. revert o. induction HL as [|p L Hp _ IH]; intros o; simpl.
  - done.
  - destruct o as [|o]; simpl.
    + rewrite lookup_app_l by lia. done.
    + rewrite lookup_app_r by lia. rewrite <- IH. f_equal. lia.
Qed.

Lemma lookup_rows_take_drop {A} (c fuel : nat) (l : list A) (o : nat) :
  0 < c -> (o + 1) * c <= length l -> length l <= fuel ->
  rows c fuel l !! o = Some (take c (drop (o * c) l)).
Proof.
  revert fuel l. induction o as [|o IH]; intros fuel l Hc Hol Hf;
    (destruct fuel as [|fuel]; [lia|]); (destruct l as [|x l']; [simpl in *; lia|]).
  - done.
  - simpl rows. rewrite lookup_cons.
    rewrite IH by (try done; rewrite length_drop; simpl in *; lia).
    rewrite drop_drop. do 3 f_equal; lia.
Qed.

(** [[f(x) for x in l]] where [f] may raise: the first exception wins. *)
Fixpoint py_mapM {A B} (f : A -> py B) (l : list A) : py (list B) :=
  match l with
  | [] => inr []
  | x :: l' => y <- f x ;; ys <- py_mapM f l' ;; inr (y :: ys)
  end.

Lemma py_mapM_ok {A B} (f : A -> py B) (l : list A) ys :
  py_mapM f l = inr ys -> Forall2 (fun x y => f x = inr y) l ys.
Proof.
  revert ys. induction l as [|x l IH]; intros ys; simpl; [intros [= <-]; constructor|].
  destruct (f x) as [e|y] eqn:Ef; simpl; [done|].
  destruct (py_mapM f l) as [e|ys'] eqn:El; simpl; [done|].
  intros [= <-]. constructor; auto.
Qed.

Lemma py_mapM_total {A B} (f : A -> py B) (l : list A) :
  (forall x, x ∈ l -> exists y, f x = inr y) -> exists ys, py_mapM f l = inr ys.
Proof.
  induction l as [|x l IH]; intros Hf; simpl; [eauto|].
  destruct (Hf x) as [y ->]; [by constructor|]. simpl.
  destruct IH as [ys ->]; [intros; apply Hf; by constructor|]. simpl. eauto.
Qed.

(** ** Insertion sort by a boolean comparison

    [insert_by leb x l] puts [x] before the first [y] with [leb x y]; when
    [leb] is a total preorder, [isort leb] sorts and is stable (an element
    is inserted before the equal elements that came after it). *)
Fixpoint insert_by {A} (leb : A -> A -> bool) (x : A) (l : list A) : list A :=
  match l with
  | [] => [x]
  | y :: r => if leb x y then x :: y :: r else y :: insert_by leb x r
  end.

Definition isort {A} (leb : A -> A -> bool) (l : list A) : list A := foldr (insert_by leb) [] l.

Lemma insert_by_perm {A} (leb : A -> A -> bool) x l : insert_by leb x l ≡ₚ x :: l.
Proof.
  induction l as [|y r IH]; simpl; [done|].
  destruct (leb x y); [done|]. rewrite IH. apply perm_swap.
Qed.

Lemma isort_perm {A} (leb : A -> A -> bool) l : isort leb l ≡ₚ l.
Proof. induction l as [|x l IH]; simpl; [done|]. by rewrite insert_by_perm, IH. Qed.

Section Isort.
Context {A} (leb : A -> A -> bool).
Hypothesis leb_total : forall x y, leb x y = false -> leb y x = true.

Lemma insert_by_sorted x l :
  Sorted (fun a b => leb a b = true) l -> Sorted (fun a b => leb a b = true) (insert_by leb x l).
Proof.
  induction 1 as [|y r Hr IH Hhd]; simpl; [by repeat constructor|].
  destruct (leb x y) eqn:E; [by repeat constructor|].
  constructor; [done|]. destruct r as [|y' r']; simpl; [constructor; auto|].
  inversion Hhd; subst. simpl in IH.
  destruct (leb x y'); constructor; auto.
Qed.

Lemma isort_sorted l : Sorted (fun a b => leb a b = true) (isort leb l).
Proof. induction l as [|x l IH]; simpl; [constructor|]. by apply insert_by_sorted. Qed.
End Isort.

Lemma Sorted_map_inv {A B} (R : relation A) (R' : relation B) (f : A -> B) (P : A -> Prop) l :
  Forall P l -> (forall x y, P x -> P y -> R x y -> R' (f x) (f y)) ->
  Sorted R l -> Sorted R' (map f l).
Proof.
  intros HP HR Hs. induction Hs as [|x l Hs IH Hhd]; simpl; [constructor|].
  inversion HP; subst. constructor; [auto|].
  destruct l as [|y l]; simpl; constructor. inversion Hhd; subst.
  inversion HP as [|? ? ? HPl]; subst. inversion HPl; subst. auto.
Qed.

Lemma StronglySorted_app_inv {A} (R : relation A) l1 l2 x y :
  StronglySorted R (l1 ++ l2) -> x ∈ l1 -> y ∈ l2 -> R x y.
Proof.
  induction l1 as [|z l1 IH]; simpl; intros Hs Hx Hy; [by apply not_elem_of_nil in Hx|].
  inversion Hs as [|? ? Hs' Hz]; subst. apply elem_of_cons in Hx as [->|Hx].
  - eapply Forall_forall; [exact Hz|]. apply elem_of_app. by right.
  - by apply IH.
Qed.

(** Close a decidable goal by evaluating its decision procedure. *)
Ltac decide_by_compute :=
  match goal with
  | |- ~ ?P => apply (bool_decide_eq_false_1 P); vm_compute; reflexivity
  | |- ?P => apply (bool_decide_eq_true_1 P); vm_compute; reflexivity
  end.
