(* ===== verification/Float32.v ===== *)
(** * IEEE 754 rounding for the array arithmetic

    The arrays the view builds are numpy [float32] arrays ([img_to_array]
    uses [dtype=float32]), and the means [preprocess_input] subtracts are
    Python floats (binary64).  Array elements are rationals [Q]; a float
    operation of the code is modelled as its exact result rounded to the
    nearest value of the format, ties to even, which is what IEEE 754
    prescribes for [+], [-], [*], [/] and for conversions.  The rounding
    is Stdlib's [SpecFloat] (the specification of Rocq's primitive floats,
    taken from Flocq), generic in the precision and the exponent range:
    [round_Q] divides the numerator by the denominator in the format, so
    it is the correctly rounded value of the rational.

    A result beyond the largest finite value of the format (an infinity)
    has no rational; [fl] then keeps the exact value.  The values of this
    development (8-bit pixels minus means below 124) are far from it. *)

From S2P Require Import Prelude.
From Stdlib Require Import QArith Floats.SpecFloat.

(** binary32: 24 bits of mantissa, infinities at exponent 128;
    binary64: 53 bits, 1024. *)
Definition prec32 : Z := 24.
Definition emax32 : Z := 128.
Definition prec64 : Z := 53.
Definition emax64 : Z := 1024.

(** The correctly rounded (to nearest, ties to even) float of [q]. *)
Definition round_Q (prec emax : Z) (q : Q) : spec_float :=
  match Qnum q with
  | Z0 => S754_zero false
  | Zpos n => SFdiv prec emax (S754_finite false n 0) (S754_finite false (Qden q) 0)
  | Zneg n => SFdiv prec emax (S754_finite true n 0) (S754_finite false (Qden q) 0)
  end.

(** The value of a finite float, in lowest terms. *)
Definition Q_of_float (x : spec_float) : option Q :=
  match x with
  | S754_zero _ => Some 0%Q
  | S754_finite s m e => Some (Qred (Qmake (if s then Zneg m else Zpos m) 1 * Qpower (2 # 1) e))
  | S754_infinity _ | S754_nan => None
  end.

(** [q] rounded to the format. *)
Definition fl (prec emax : Z) (q : Q) : Q := default q (Q_of_float (round_Q prec emax q)).

(** A float32 operation, and a Python float (a decimal literal parsed to
    the nearest double, as CPython does). *)
Definition fl32 : Q -> Q := fl prec32 emax32.
Definition fl64 : Q -> Q := fl prec64 emax64.

(** ** Sanity of the rounding on known values *)

(** The double nearest to [0.1] is [3602879701896397 / 2^55]. *)
Lemma fl64_tenth : fl64 (1 # 10) = (3602879701896397 # 36028797018963968)%Q.
Proof. vm_compute. reflexivity. Qed.

(** [numpy.float32(0.1)] is [13421773 / 2^27]. *)
Lemma fl32_tenth : fl32 (fl64 (1 # 10)) = (13421773 # 134217728)%Q.
Proof. vm_compute. reflexivity. Qed.

(** The 8-bit values are float32 values. *)
Lemma fl32_byte z : (0 <= z <= 255)%Z -> fl32 (inject_Z z) == inject_Z z.
Proof.
  intros Hz.
  assert (Hall : forallb (fun n => Qeq_bool (fl32 (inject_Z (Z.of_nat n))) (inject_Z (Z.of_nat n)))
                   (seq 0 256) = true) by (vm_compute; reflexivity).
  rewrite forallb_forall in Hall.
  assert (Hin : In (Z.to_nat z) (seq 0 256)) by (apply in_seq; lia).
  specialize (Hall _ Hin). apply Qeq_bool_iff in Hall. by rewrite Z2Nat.id in Hall by lia.
Qed.
