(* ===== verification/Http.v ===== *)
(** * Django's request and response objects

    The view reads [request.method], [request.POST] and [request.FILES] and
    returns the result of [render].  Django keeps submitted form data in a
    [MultiValueDict]: every key maps to the list of values submitted under
    it, in submission order, and [get(key)] returns the last of them, or
    [None] when the key is absent or its list is empty.  This file models
    that dictionary on stdpp's [gmap], the request record, uploaded files
    and the response that [render] builds. *)

From S2P Require Import Prelude.
From stdpp Require Import gmap.
From Stdlib Require Import Init.Byte.

(** ** [django.utils.datastructures.MultiValueDict] *)

Module MultiValueDict.

(** A dictionary from keys to the list of values submitted for each. *)
Abbreviation t V := (gmap string (list V)).

Definition empty {V} : t V := ∅.

(** [getlist(key)]: the values of [key], [[]] when absent. *)
Definition getlist {V} (m : t V) (k : string) : list V :=
  default [] (m !! k).

(** [appendlist(key, value)]: how a parsed body adds one field. *)
Definition appendlist {V} (m : t V) (k : string) (v : V) : t V :=
  <[k := getlist m k ++ [v]]> m.

(** [get(key)]: [self[key]] is [list_[-1]], and an empty list or a
    missing key gives the default [None]. *)
Definition get {V} (m : t V) (k : string) : option V :=
  m !! k ≫= last.

(** A dictionary built from the submitted [(key, value)] pairs, in order. *)
Definition of_pairs {V} (kvs : list (string * V)) : t V :=
  foldl (fun m kv => appendlist m kv.1 kv.2) empty kvs.

Lemma get_appendlist_eq {V} (m : t V) k v : get (appendlist m k v) k = Some v.
Proof. unfold get, appendlist. rewrite lookup_insert_eq. simpl. by rewrite last_snoc. Qed.

Lemma get_appendlist_ne {V} (m : t V) k k' v :
  k <> k' -> get (appendlist m k v) k' = get m k'.
Proof. intros Hne. unfold get, appendlist. by rewrite lookup_insert_ne. Qed.

Lemma get_empty {V} k : get (@empty V) k = None.
Proof. reflexivity. Qed.

Lemma getlist_appendlist {V} (m : t V) k k' v :
  getlist (appendlist m k v) k' = if bool_decide (k = k') then getlist m k ++ [v] else getlist m k'.
Proof.
  unfold getlist, appendlist. case_bool_decide as Hk.
  - subst. by rewrite lookup_insert_eq.
  - by rewrite lookup_insert_ne.
Qed.

Lemma getlist_of_pairs {V} (kvs : list (string * V)) k :
  getlist (of_pairs kvs) k = map snd (filter (fun kv => kv.1 = k) kvs).
Proof.
  unfold of_pairs. rewrite <- (reverse_involutive kvs).
  induction (reverse kvs) as [|[k' v] r IH]; [done|].
  rewrite reverse_cons, foldl_app. simpl. rewrite getlist_appendlist.
  rewrite filter_app, map_app, filter_cons, filter_nil. case_bool_decide as Hk.
  - subst k'. rewrite IH, decide_True by done. done.
  - rewrite IH, decide_False by done. simpl. by rewrite app_nil_r.
Qed.

Lemma get_of_pairs_eq {V} (kvs : list (string * V)) k :
  get (of_pairs kvs) k = last (map snd (filter (fun kv => kv.1 = k) kvs)).
Proof.
  rewrite <- getlist_of_pairs. unfold get, getlist.
  by destruct (of_pairs kvs !! k).
Qed.

(** [request.POST.get(key)] is the value of the last
    [key=value] pair of the submitted body with that key, or [None]
    when there is none; the hidden field [img_data] the view echoes is
    the last one submitted. *)
Theorem get_of_pairs {V} (kvs : list (string * V)) k :
  get (of_pairs kvs) k = last (map snd (filter (fun kv => kv.1 = k) kvs)).
Proof. apply get_of_pairs_eq. Qed.

(** The invariant of a dictionary filled by [appendlist]: every key it
    holds has at least one value. *)
Definition all_nonempty {V} (m : t V) : Prop := map_Forall (fun _ l => l <> []) m.

Lemma appendlist_nonempty {V} (m : t V) k v :
  all_nonempty m -> all_nonempty (appendlist m k v).
Proof.
  intros Hm. apply map_Forall_insert_2; [|done].
  intros Hnil. apply app_eq_nil in Hnil as [_ Hnil]. discriminate.
Qed.

(** A dictionary Django fills from a submitted body holds no key
    with an empty list, so [get(key)] is [None] exactly when no pair of
    the body has that key (never because of an empty list). *)
Theorem of_pairs_nonempty {V} (kvs : list (string * V)) :
  all_nonempty (of_pairs kvs) /\
  forall k, get (of_pairs kvs) k = None <-> k ∉ kvs.*1.
Proof.
  split.
  - unfold of_pairs. cut (forall m, all_nonempty m ->
      all_nonempty (foldl (fun m kv => appendlist m kv.1 kv.2) m kvs)).
    { intros Hc. apply Hc, map_Forall_empty. }
    induction kvs as [|kv kvs IH]; intros m Hm; [done|]. simpl.
    by apply IH, appendlist_nonempty.
  - intros k. rewrite get_of_pairs_eq. induction kvs as [|[k' v] kvs IH]; simpl.
    + split; [intros _; apply not_elem_of_nil|done].
    + rewrite filter_cons. simpl. rewrite not_elem_of_cons. case_decide as Hk.
      * subst k'. simpl. rewrite last_cons. split; [by destruct (last _)|tauto].
      * rewrite IH. split; [done|tauto].
Qed.

End MultiValueDict.

#[export] Hint Rewrite @MultiValueDict.get_appendlist_eq : photo_rw.

(** ** Uploaded files and requests *)

(** [django.core.files.uploadedfile.UploadedFile]: a name and the bytes;
    [.size] is the number of bytes and [.read()] returns them all (the form
    validation rewinds the file with [seek(0)] after inspecting it). *)
Record UploadedFile := {
  uf_name : string;
  uf_content : list byte;
}.

Definition uf_size (f : UploadedFile) : nat := length (uf_content f).
Definition uf_read (f : UploadedFile) : list byte := uf_content f.

(** [django.http.HttpRequest]: the fields the application reads. *)
Record HttpRequest := {
  req_method : string;
  req_path : string;
  req_POST : MultiValueDict.t string;
  req_FILES : MultiValueDict.t UploadedFile;
}.

(** ** Responses *)

(** [render(request, template_name, context)] returns an [HttpResponse]
    whose body is the template rendered with the context; the model keeps
    the template's name and the context dictionary (a Python dict literal,
    so an association list with distinct keys, in the literal's order).
    Context processors (the CSRF token) are not modelled. *)
Record HttpResponse (C : Type) := {
  resp_status : nat;
  resp_template : string;
  resp_context : list (string * C);
}.
Arguments resp_status {C}.
Arguments resp_template {C}.
Arguments resp_context {C}.

Definition render {C} (request : HttpRequest) (template_name : string)
    (context : list (string * C)) : HttpResponse C :=
  {| resp_status := 200; resp_template := template_name; resp_context := context |}.

(** [context[key]] of a rendered response. *)
Definition context_lookup {C} (r : HttpResponse C) (k : string) : option C :=
  (list_to_map (resp_context r) : gmap string C) !! k.
