(* ===== verification/Tensor.v ===== *)
(** * numpy arrays

    A numpy [ndarray] is a shape and a buffer read in row-major (C) order.
    The view builds one with [img_to_array], reshapes it with
    [img_array.reshape((1, 224, 224, 3))], and receives one from
    [model.predict].  Elements are float32 in the program and rationals
    here.  [reshape] keeps the buffer and changes the shape, and raises
    [ValueError] when the element counts differ. *)

From S2P Require Import Prelude.
From Stdlib Require Import QArith.
Local Open Scope nat_scope.

Record ndarray := {
  shape : list nat;
  data : list Q;
}.

(** [np.prod(shape)]: the number of elements of an array of that shape. *)
Definition size (sh : list nat) : nat := foldr Nat.mul 1 sh.

(** Well-formed: the buffer holds exactly [prod(shape)] elements. *)
Definition wf (a : ndarray) : Prop := length (data a) = size (shape a).

#[export] Instance wf_dec a : Decision (wf a) := _.

(** An element holding an 8-bit value, as [np.asarray] of a Pillow
    image of mode [L] or [RGB] gives. *)
Definition is_byte (q : Q) : Prop := exists z : Z, (0 <= z <= 255)%Z /\ q = inject_Z z.

(** [a.reshape(newshape)] (numpy [_multiarray_umath] / [PyArray_Newshape]
    with explicit dimensions): same buffer, new shape, or [ValueError]. *)
Definition reshape (a : ndarray) (newshape : list nat) : py ndarray :=
  if decide (size newshape = length (data a))
  then inr {| shape := newshape; data := data a |}
  else inl (ValueError "cannot reshape array into the requested shape").

(** Row-major offset of a multi-index, [None] when an index is out of
    bounds or the index has the wrong number of axes. *)
Fixpoint offset (sh idx : list nat) : option nat :=
  match sh, idx with
  | [], [] => Some 0
  | d :: sh', i :: idx' =>
      if decide (i < d) then
        o ← offset sh' idx'; Some (i * size sh' + o)
      else None
  | _, _ => None
  end.

(** [a[i0, i1, ...]] for a full multi-index. *)
Definition item (a : ndarray) (idx : list nat) : option Q :=
  o ← offset (shape a) idx; data a !! o.

(** ** Lemmas *)

Lemma size_cons d sh : size (d :: sh) = d * size sh.
Proof. reflexivity. Qed.

Lemma size_app sh1 sh2 : size (sh1 ++ sh2) = size sh1 * size sh2.
Proof. induction sh1 as [|d sh1 IH]; simpl; [lia|]. rewrite IH. lia. Qed.

Lemma offset_bound sh idx o : offset sh idx = Some o -> o < size sh.
Proof.
  revert idx o. induction sh as [|d sh IH]; intros [|i idx] o; cbn [offset];
    try congruence.
  - intros [= <-]. simpl. lia.
  - case_decide; [|done]. destruct (offset sh idx) as [o'|] eqn:E; [|done].
    cbn. intros [= <-]. specialize (IH _ _ E). unfold size in *. simpl. nia.
Qed.

Lemma reshape_ok a newshape :
  size newshape = length (data a) ->
  reshape a newshape = inr {| shape := newshape; data := data a |}.
Proof. intros H. unfold reshape. by rewrite decide_True. Qed.

Lemma reshape_err a newshape :
  size newshape <> length (data a) ->
  reshape a newshape = inl (ValueError "cannot reshape array into the requested shape").
Proof. intros H. unfold reshape. by rewrite decide_False. Qed.

Lemma reshape_inv a newshape b :
  reshape a newshape = inr b ->
  b = {| shape := newshape; data := data a |} /\ size newshape = length (data a).
Proof. unfold reshape. case_decide; [by intros [= <-]|done]. Qed.

(** [reshape] to a shape of the same size never
    raises, keeps the buffer, and reshaping back gives the original array. *)
Theorem reshape_roundtrip a newshape :
  wf a -> size newshape = size (shape a) ->
  exists b, reshape a newshape = inr b /\ shape b = newshape /\ data b = data a /\ wf b /\
    reshape b (shape a) = inr a.
Proof.
  intros Hwf Hs. exists {| shape := newshape; data := data a |}.
  rewrite reshape_ok by (by rewrite Hs). split_and!; try done.
  - unfold wf. simpl. by rewrite Hwf.
  - rewrite reshape_ok by (simpl; by rewrite Hwf). by destruct a.
Qed.

#[export] Hint Resolve offset_bound : photo.

(** ** Equality of contents

    Two arrays are equivalent when they have the same shape and equal
    elements as rationals ([Qeq]), the equality numpy compares floats by. *)
Definition arr_equiv (a b : ndarray) : Prop :=
  shape a = shape b /\ Forall2 Qeq (data a) (data b).

#[export] Instance arr_equiv_equivalence : Equivalence arr_equiv.
Proof.
  split.
  - intros a. split; reflexivity.
  - intros a b [Hs Hd]. split; by symmetry.
  - intros a b c [Hs1 Hd1] [Hs2 Hd2]. split; etransitivity; eauto.
Qed.

Lemma Forall2_concat_map {A} (R : relation A) (h : list A -> list A) (L : list (list A)) :
  Forall (fun p => Forall2 R (h p) p) L -> Forall2 R (concat (map h L)) (concat L).
Proof. induction 1; simpl; [constructor|]. by apply Forall2_app. Qed.

(** ** Operations along the last axis

    [x[..., ::-1]] and [x[..., k] -= m] act on each row of the last axis:
    the buffer cut into pieces of the last dimension's length. *)

Definition last_dim (a : ndarray) : option nat := last (shape a).

Definition map_rows (c : nat) (f : list Q -> list Q) (a : ndarray) : ndarray :=
  {| shape := shape a; data := concat (map f (rows c (length (data a)) (data a))) |}.

(** The row of the multi-index [idx] (all axes but the last). *)
Definition row_at (c o : nat) (a : ndarray) : list Q := take c (drop (o * c) (data a)).

Lemma rows_of_concat {A} (c : nat) (L : list (list A)) fuel :
  0 < c -> Forall (fun p => length p = c) L -> length (concat L) <= fuel ->
  rows c fuel (concat L) = L.
Proof.
  intros Hc HL. revert fuel. induction HL as [|p L Hp _ IH]; intros fuel Hf.
  - by destruct fuel.
  - simpl in Hf. rewrite length_app in Hf.
    destruct fuel as [|fuel]; [lia|]. simpl concat.
    rewrite rows_S by (destruct p; simpl in *; [lia|done]).
    rewrite take_app_length' by done. rewrite drop_app_length' by done.
    rewrite IH; [done|lia].
Qed.

Lemma offset_snoc sh c idx k :
  offset (sh ++ [c]) (idx ++ [k]) =
    o ← offset sh idx; if decide (k < c) then Some (o * c + k) else None.
Proof.
  revert idx. induction sh as [|d sh IH]; intros [|i idx]; simpl.
  - case_decide; [f_equal; lia|done].
  - case_decide; [|done]. destruct idx; reflexivity.
  - destruct sh; simpl; destruct (decide (k < d)); reflexivity.
  - destruct (decide (i < d)); [|reflexivity]. rewrite IH.
    destruct (offset sh idx); simpl; [|done]. destruct (decide (k < c)); [|reflexivity].
    rewrite size_app. simpl. f_equal. lia.
Qed.

Section MapRows.
Variables (sh : list nat) (c : nat) (a : ndarray).
Hypotheses (Hsh : shape a = sh ++ [c]) (Hc : 0 < c) (Hwf : wf a).

Lemma data_length_rows : length (data a) = c * size sh.
Proof. rewrite Hwf, Hsh, size_app. simpl. lia. Qed.

Lemma rows_data_uniform : Forall (fun p => length p = c) (rows c (length (data a)) (data a)).
Proof. eapply rows_uniform, data_length_rows. Qed.

Lemma map_rows_wf f :
  (forall p, length p = c -> length (f p) = c) -> wf (map_rows c f a).
Proof.
  intros Hf. unfold wf, map_rows. simpl. rewrite (length_concat_uniform c).
  - rewrite length_map, (length_rows c (size sh)); [|done|done|apply data_length_rows].
    rewrite Hsh, size_app. simpl. lia.
  - apply Forall_map. eapply Forall_impl; [apply rows_data_uniform|]. auto.
Qed.

Lemma lookup_rows o :
  o < size sh -> rows c (length (data a)) (data a) !! o = Some (row_at c o a).
Proof.
  intros Ho. apply lookup_rows_take_drop; [done| |done].
  rewrite data_length_rows. nia.
Qed.

Lemma item_snoc idx o k :
  offset sh idx = Some o -> k < c -> item a (idx ++ [k]) = row_at c o a !! k.
Proof.
  intros Ho Hk. unfold item, row_at. rewrite Hsh, offset_snoc, Ho. simpl.
  rewrite decide_True by done. simpl.
  rewrite lookup_take, decide_True by done. rewrite lookup_drop. f_equal; lia.
Qed.

Lemma item_map_rows f idx o k :
  (forall p, length p = c -> length (f p) = c) ->
  offset sh idx = Some o -> k < c ->
  item (map_rows c f a) (idx ++ [k]) = f (row_at c o a) !! k.
Proof.
  intros Hf Ho Hk. unfold item, map_rows. simpl. rewrite Hsh, offset_snoc, Ho. simpl.
  rewrite decide_True by done. simpl.
  rewrite lookup_concat_uniform with (c := c); [|by apply Forall_map, (Forall_impl _ _ _ rows_data_uniform)|done].
  rewrite list_lookup_fmap, lookup_rows; [done|eauto using offset_bound].
Qed.

Lemma map_rows_map_rows f g :
  (forall p, length p = c -> length (f p) = c) ->
  map_rows c g (map_rows c f a) = map_rows c (g ∘ f) a.
Proof.
  intros Hf. unfold map_rows. simpl. f_equal.
  rewrite rows_of_concat; [by rewrite map_map|done| |done].
  apply Forall_map, (Forall_impl _ _ _ rows_data_uniform). auto.
Qed.

(** A map taking rows whose values satisfy [P] to rows whose values
    satisfy [R] does so for the whole buffer. *)
Lemma map_rows_Forall (P R : Q -> Prop) f :
  (forall p, length p = c -> Forall P p -> Forall R (f p)) ->
  Forall P (data a) -> Forall R (data (map_rows c f a)).
Proof.
  intros Hf HP. unfold map_rows. simpl. apply Forall_concat, Forall_map.
  rewrite <- (rows_concat c (data a) (length (data a))) in HP by done.
  apply Forall_concat in HP.
  apply Forall_forall. intros p Hp.
  pose proof rows_data_uniform as Hu.
  apply Hf; [by eapply Forall_forall in Hu|by eapply Forall_forall in HP].
Qed.

(** A map that is the identity on every row, up to [Qeq], leaves the
    array equivalent. *)
Lemma map_rows_equiv_id f :
  (forall p, length p = c -> Forall2 Qeq (f p) p) -> arr_equiv (map_rows c f a) a.
Proof.
  intros Hf. split; [done|]. unfold map_rows. simpl.
  pose proof rows_data_uniform as Hu.
  remember (rows c (length (data a)) (data a)) as R eqn:HR.
  replace (data a) with (concat R) by (subst R; by apply rows_concat).
  apply Forall2_concat_map. eapply Forall_impl; [exact Hu|]. done.
Qed.

End MapRows.

Module Witnesses.

Lemma reshape_roundtrip_witness :
  wf {| shape := [2; 3]; data := [1; 2; 3; 4; 5; 6]%Q |} /\ size [3; 2] = size [2; 3] /\
  exists b, reshape {| shape := [2; 3]; data := [1; 2; 3; 4; 5; 6]%Q |} [3; 2] = inr b /\
    shape b = [3; 2] /\ data b = [1; 2; 3; 4; 5; 6]%Q /\ wf b /\
    reshape b [2; 3] = inr {| shape := [2; 3]; data := [1; 2; 3; 4; 5; 6]%Q |}.
Proof.
  split_and!; [reflexivity|reflexivity|].
  exact (reshape_roundtrip {| shape := [2; 3]; data := [1; 2; 3; 4; 5; 6]%Q |} [3; 2]
           eq_refl eq_refl).
Defined.

End Witnesses.
