(* ===== verification/Pillow.v ===== *)
(** * The Pillow interface

    Two callers in the program decode images with Pillow: Django's
    [ImageField.to_python] opens the upload and calls [verify()], and
    Keras' [load_img] opens it, converts it to RGB and resizes it.  Image
    decoding itself is outside the repository; this file states what the
    program relies on as a class [Pillow] of operations and a class
    [PillowLaws] of their laws, and gives a small codec ([Fixture]) that
    satisfies them, so that theorems stated against the interface can be
    applied to concrete bytes. *)

From S2P Require Import Prelude.
From Stdlib Require Import Init.Byte.
Local Open Scope nat_scope.

(** [PIL.Image.Image.mode]. *)
Inductive ImageMode := Mode1 | ModeL | ModeP | ModeLA | ModeRGB | ModeRGBA | ModeCMYK.

#[export] Instance ImageMode_eq_dec : EqDecision ImageMode.
Proof. solve_decision. Defined.

(** Bands per pixel ([len(img.getbands())]). *)
Definition bands (m : ImageMode) : nat :=
  match m with
  | Mode1 | ModeL | ModeP => 1
  | ModeLA => 2
  | ModeRGB => 3
  | ModeRGBA | ModeCMYK => 4
  end.

(** An image: mode, [size = (width, height)], and its pixels in row-major
    order, each the list of its band values. *)
Record Image := {
  im_mode : ImageMode;
  im_width : nat;
  im_height : nat;
  im_pixels : list (list Z);
}.

Definition im_size (im : Image) : nat * nat := (im_width im, im_height im).

Definition im_wf (im : Image) : Prop :=
  length (im_pixels im) = im_width im * im_height im /\
  Forall (fun p => length p = bands (im_mode im)) (im_pixels im).

(** Every band value is an 8-bit integer, as in every mode of
    [ImageMode]. *)
Definition im_8bit (im : Image) : Prop :=
  Forall (Forall (fun v => 0 <= v <= 255)%Z) (im_pixels im).

Class Pillow := {
  (** [Image.open(BytesIO(b))] followed by the lazy load of the pixels;
      [UnidentifiedImageError] when no format recognises the bytes. *)
  pil_open : list byte -> py Image;
  (** [Image.open(f).verify()] completes without raising. *)
  pil_verify : list byte -> bool;
  (** [img.convert(mode)]. *)
  pil_convert : Image -> ImageMode -> Image;
  (** [img.resize((width, height), resample)]. *)
  pil_resize : Image -> nat * nat -> Image;
  (** [Image.EXTENSION], lower case, without the dot. *)
  pil_extensions : list string;
}.

Class PillowLaws `{Pillow} := {
  pil_open_wf : forall b im, pil_open b = inr im -> im_wf im;
  pil_convert_mode : forall im m, im_mode (pil_convert im m) = m;
  pil_convert_size : forall im m, im_size (pil_convert im m) = im_size im;
  pil_convert_wf : forall im m, im_wf im -> im_wf (pil_convert im m);
  pil_resize_size : forall im wh, im_size (pil_resize im wh) = wh;
  pil_resize_mode : forall im wh, im_mode (pil_resize im wh) = im_mode im;
  pil_resize_wf : forall im wh, im_wf im -> im_wf (pil_resize im wh);
  pil_open_8bit : forall b im, pil_open b = inr im -> im_8bit im;
  pil_convert_8bit : forall im m, im_8bit im -> im_8bit (pil_convert im m);
  pil_resize_8bit : forall im wh, im_8bit im -> im_8bit (pil_resize im wh);
}.

(** ** A test codec

    Bytes ["I"; w; h] followed by [w*h*3] RGB values decode to a [w] by [h]
    RGB image; a shorter or longer payload is a truncated file, which
    [verify] (a header check) accepts and loading rejects.  Resizing is
    nearest-neighbour, converting adjusts the number of bands. *)
Module Fixture.

Fixpoint chunks3 (l : list byte) : list (list Z) :=
  match l with
  | r :: g :: b :: rest =>
      [Z.of_nat (Byte.to_nat r); Z.of_nat (Byte.to_nat g); Z.of_nat (Byte.to_nat b)]
        :: chunks3 rest
  | _ => []
  end.

Definition open (b : list byte) : py Image :=
  match b with
  | x49 :: w :: h :: rest =>
      let w := Byte.to_nat w in let h := Byte.to_nat h in
      if decide (length rest = w * h * 3)
      then inr {| im_mode := ModeRGB; im_width := w; im_height := h;
                  im_pixels := chunks3 rest |}
      else inl (OSError "image file is truncated")
  | _ => inl (UnidentifiedImageError "cannot identify image file")
  end.

(** Like Pillow's [verify] for most formats, only the header is checked. *)
Definition verify (b : list byte) : bool :=
  match b with
  | x49 :: _ :: _ :: _ => true
  | _ => false
  end.

Definition fit (n : nat) (p : list Z) : list Z :=
  take n (p ++ replicate n 0%Z).

Definition convert (im : Image) (m : ImageMode) : Image :=
  {| im_mode := m; im_width := im_width im; im_height := im_height im;
     im_pixels := map (fit (bands m)) (im_pixels im) |}.

Definition resize (im : Image) (wh : nat * nat) : Image :=
  let '(w, h) := wh in
  {| im_mode := im_mode im; im_width := w; im_height := h;
     im_pixels :=
       flat_map (fun y => map (fun x =>
         default (replicate (bands (im_mode im)) 0%Z)
           (im_pixels im !! ((y * im_height im / h) * im_width im
                             + x * im_width im / w)))
         (seq 0 w)) (seq 0 h) |}.

#[export] Instance pillow : Pillow := {|
  pil_open := open;
  pil_verify := verify;
  pil_convert := convert;
  pil_resize := resize;
  pil_extensions := ["png"; "jpg"; "jpeg"; "bmp"; "gif"];
|}.

Lemma length_chunks3 n l : length l = n * 3 -> length (chunks3 l) = n.
Proof.
  revert l. induction n as [|n IH]; intros l Hl.
  - by destruct l.
  - destruct l as [|r [|g [|b rest]]]; simpl in *; try lia.
    f_equal. apply IH. lia.
Qed.

Lemma chunks3_bands l : Forall (fun p => length p = 3) (chunks3 l).
Proof.
  induction l as [l IH] using (induction_ltof1 _ (@length byte)).
  destruct l as [|r [|g [|b rest]]]; simpl; try constructor; auto.
  apply IH. unfold ltof; simpl; lia.
Qed.

Lemma length_fit n p : length (fit n p) = n.
Proof. unfold fit. rewrite length_take, length_app, length_replicate. lia. Qed.

Lemma length_flat_map_rows {B} (f : nat -> nat -> B) (xs ys : list nat) :
  length (flat_map (fun y => map (f y) xs) ys) = length ys * length xs.
Proof.
  induction ys as [|y ys IH]; [done|].
  simpl. rewrite length_app, IH, length_map. lia.
Qed.

Lemma resize_pixels_wf im w h :
  Forall (fun p => length p = bands (im_mode im)) (im_pixels im) ->
  length (im_pixels (resize im (w, h))) = w * h /\
  Forall (fun p => length p = bands (im_mode im)) (im_pixels (resize im (w, h))).
Proof.
  intros Hb. simpl. split.
  - rewrite length_flat_map_rows, !length_seq. lia.
  - apply Forall_flat_map, Forall_forall. intros y _.
    apply Forall_map, Forall_forall. intros x _.
    destruct (im_pixels im !! _) as [p|] eqn:E; simpl.
    + exact (Forall_lookup_1 _ _ _ _ Hb E).
    + apply length_replicate.
Qed.

Lemma chunks3_8bit l : Forall (Forall (fun v => 0 <= v <= 255)%Z) (chunks3 l).
Proof.
  induction l as [l IH] using (induction_ltof1 _ (@length byte)).
  destruct l as [|r [|g [|b rest]]]; simpl; try constructor.
  - pose proof (Byte.to_nat_bounded r). pose proof (Byte.to_nat_bounded g).
    pose proof (Byte.to_nat_bounded b). repeat constructor; lia.
  - apply IH. unfold ltof; simpl; lia.
Qed.

#[export] Instance pillow_laws : PillowLaws.
Proof.
  split; simpl.
  - intros b im. unfold open.
    destruct b as [|[] [|w [|h rest]]]; try discriminate.
    case_decide; [|discriminate]. intros [= <-]. split; simpl.
    + apply length_chunks3. lia.
    + apply chunks3_bands.
  - reflexivity.
  - reflexivity.
  - intros im m [Hl Hb]. split; simpl.
    + by rewrite length_map.
    + apply Forall_map, Forall_forall. intros p _. apply length_fit.
  - by intros im [w h].
  - by intros im [w h].
  - intros im [w h] [_ Hb]. exact (resize_pixels_wf im w h Hb).
  - intros b im. unfold open.
    destruct b as [|[] [|w [|h rest]]]; try discriminate.
    case_decide; [|discriminate]. intros [= <-]. apply chunks3_8bit.
  - intros im m H8. apply Forall_map. eapply Forall_impl; [exact H8|].
    intros p Hp. unfold fit. apply Forall_take, Forall_app. split; [done|].
    apply Forall_replicate. lia.
  - intros im [w h] H8. apply Forall_flat_map, Forall_forall. intros y _.
    apply Forall_map, Forall_forall. intros x _.
    destruct (im_pixels im !! _) as [p|] eqn:E; simpl.
    + exact (Forall_lookup_1 _ _ _ _ H8 E).
    + apply Forall_replicate. lia.
Qed.

End Fixture.
