(* ===== verification/Forms.v ===== *)
(** * [prediction/forms.py] and Django's validation of an image upload

    [ImageUploadForm] declares one field, [image = forms.ImageField()].
    The view builds it unbound ([ImageUploadForm()]) or bound to the
    request ([ImageUploadForm(request.POST, request.FILES)]), asks
    [is_valid()] and reads [cleaned_data['image']].  What [is_valid]
    decides is Django's cleaning of an [ImageField] (django/forms/fields.py
    and django/core/validators.py): [FileField.to_python] (name, size),
    [ImageField.to_python] (Pillow's [verify]), [Field.validate] (required)
    and the validator [validate_image_file_extension]; this file models
    them, in that order, on the upload that [FileInput] takes from
    [files.get(name)]. *)

From S2P Require Import Prelude Http Pillow.
From stdpp Require Import gmap.
From Stdlib Require Import Ascii Init.Byte.
Local Open Scope nat_scope.

(** ** String helpers of the extension validator *)

(** [s.rfind(c)], with [None] for Python's [-1]. *)
Fixpoint rfind_from (c : ascii) (s : string) (i : nat) (acc : option nat) : option nat :=
  match s with
  | EmptyString => acc
  | String a s' => rfind_from c s' (S i) (if decide (a = c) then Some i else acc)
  end.

Definition rfind (c : ascii) (s : string) : option nat := rfind_from c s 0 None.

(** [PurePath(name).suffix]: from the last dot, unless the dot starts or
    ends the name.  Uploaded file names have no directory part (Django's
    [UploadedFile] keeps only [os.path.basename]), so the path's final
    component is the name itself. *)
Definition path_suffix (name : string) : string :=
  match rfind "." name with
  | Some i =>
      if decide (0 < i /\ i < String.length name - 1)
      then String.substring i (String.length name - i) name
      else ""
  | None => ""
  end.

(** [str.lower()] on ASCII letters. *)
Definition ascii_lower (a : ascii) : ascii :=
  let n := nat_of_ascii a in
  if decide (65 <= n /\ n <= 90) then ascii_of_nat (n + 32) else a.

Fixpoint str_lower (s : string) : string :=
  match s with
  | EmptyString => EmptyString
  | String a s' => String (ascii_lower a) (str_lower s')
  end.

(** [Path(value.name).suffix[1:].lower()]. *)
Definition file_extension (name : string) : string :=
  let suf := path_suffix name in
  str_lower (String.substring 1 (String.length suf - 1) suf).

(** ** Fields *)

Inductive FieldKind := FileFieldKind | ImageFieldKind.

(** The options a [FileField]/[ImageField] is declared with. *)
Record Field := {
  f_kind : FieldKind;
  f_required : bool;
  f_max_length : option nat;
  f_allow_empty_file : bool;
}.

(** [forms.ImageField()] with its defaults. *)
Definition ImageField : Field :=
  {| f_kind := ImageFieldKind; f_required := true; f_max_length := None;
     f_allow_empty_file := false |}.

(** [class ImageUploadForm(forms.Form): image = forms.ImageField()]. *)
Definition ImageUploadForm_fields : list (string * Field) := [("image", ImageField)].

(** ** Forms *)

Record Form := {
  form_fields : list (string * Field);
  is_bound : bool;
  form_data : MultiValueDict.t string;
  form_files : MultiValueDict.t UploadedFile;
}.

(** [ImageUploadForm(data=None, files=None)]: bound when either is given;
    a missing one becomes an empty [MultiValueDict]. *)
Definition ImageUploadForm (data : option (MultiValueDict.t string))
    (files : option (MultiValueDict.t UploadedFile)) : Form :=
  {| form_fields := ImageUploadForm_fields;
     is_bound := bool_decide (is_Some data) || bool_decide (is_Some files);
     form_data := default MultiValueDict.empty data;
     form_files := default MultiValueDict.empty files |}.

Section Cleaning.
Context `{Pillow}.

(** [FileField.to_python]. *)
Definition file_to_python (fl : Field) (data : option UploadedFile) : py (option UploadedFile) :=
  match data with
  | None => inr None
  | Some f =>
      if (match f_max_length fl with
          | Some n => bool_decide (n < String.length (uf_name f))
          | None => false end)
      then inl (ValidationError "max_length")
      else if bool_decide (uf_name f = "") then inl (ValidationError "invalid")
      else if negb (f_allow_empty_file fl) && bool_decide (uf_size f = 0)
      then inl (ValidationError "empty")
      else inr (Some f)
  end.

(** [ImageField.to_python]: [Image.open(file).verify()], any exception
    becoming [invalid_image]; then [f.seek(0)]. *)
Definition image_to_python (fl : Field) (data : option UploadedFile) : py (option UploadedFile) :=
  v <- file_to_python fl data ;;
  match v with
  | None => inr None
  | Some f => if pil_verify (uf_read f) then inr (Some f)
              else inl (ValidationError "invalid_image")
  end.

Definition to_python (fl : Field) : option UploadedFile -> py (option UploadedFile) :=
  match f_kind fl with
  | FileFieldKind => file_to_python fl
  | ImageFieldKind => image_to_python fl
  end.

(** [Field.validate]: an empty value of a required field. *)
Definition field_validate (fl : Field) (v : option UploadedFile) : py unit :=
  if f_required fl && bool_decide (v = None) then inl (ValidationError "required")
  else inr tt.

(** [validate_image_file_extension = FileExtensionValidator(
    allowed_extensions=get_available_image_extensions())]. *)
Definition validate_image_file_extension (f : UploadedFile) : py unit :=
  if bool_decide (file_extension (uf_name f) ∈ pil_extensions) then inr tt
  else inl (ValidationError "invalid_extension").

(** [Field.run_validators]: skipped for an empty value. *)
Definition run_validators (fl : Field) (v : option UploadedFile) : py unit :=
  match v, f_kind fl with
  | Some f, ImageFieldKind => validate_image_file_extension f
  | _, _ => inr tt
  end.

(** [FileField.clean(data, initial=None)] = [Field.clean]. *)
Definition field_clean (fl : Field) (data : option UploadedFile) : py (option UploadedFile) :=
  v <- to_python fl data ;;
  _ <- field_validate fl v ;;
  _ <- run_validators fl v ;;
  inr v.

Record Cleaned := {
  errors : list (string * string);
  cleaned_data : list (string * option UploadedFile);
}.

(** [BaseForm._clean_fields]: each field's widget value is
    [files.get(name)]; a [ValidationError] is recorded by [add_error],
    any other exception propagates. *)
Fixpoint clean_fields (fields : list (string * Field))
    (files : MultiValueDict.t UploadedFile) (acc : Cleaned) : py Cleaned :=
  match fields with
  | [] => inr acc
  | (name, fl) :: rest =>
      match field_clean fl (MultiValueDict.get files name) with
      | inr v => clean_fields rest files
                   {| errors := errors acc; cleaned_data := cleaned_data acc ++ [(name, v)] |}
      | inl (ValidationError code) => clean_fields rest files
                   {| errors := errors acc ++ [(name, code)]; cleaned_data := cleaned_data acc |}
      | inl e => inl e
      end
  end.

(** [BaseForm.full_clean] on a bound form. *)
Definition full_clean (form : Form) : py Cleaned :=
  clean_fields (form_fields form) (form_files form) {| errors := []; cleaned_data := [] |}.

(** [is_valid() = self.is_bound and not self.errors]. *)
Definition is_valid (form : Form) : py bool :=
  if is_bound form then
    c <- full_clean form ;; inr (bool_decide (errors c = []))
  else inr false.

(** [form.cleaned_data[name]]: [KeyError] when the field did not clean. *)
Definition cleaned_lookup (form : Form) (name : string) : py (option UploadedFile) :=
  c <- full_clean form ;;
  match (list_to_map (cleaned_data c) : gmap string (option UploadedFile)) !! name with
  | Some v => inr v
  | None => inl (KeyError name)
  end.

End Cleaning.

(** ** What an acceptable upload is *)

Section Acceptance.
Context `{Pillow}.

(** The conditions [ImageField] checks, in Django's order. *)
Definition upload_ok (f : UploadedFile) : Prop :=
  uf_name f <> "" /\ uf_size f <> 0 /\ pil_verify (uf_read f) = true /\
  file_extension (uf_name f) ∈ pil_extensions.

#[global] Instance upload_ok_dec f : Decision (upload_ok f) := _.

Lemma field_clean_image_none : field_clean ImageField None = inl (ValidationError "required").
Proof. reflexivity. Qed.

Lemma field_clean_image_some f :
  field_clean ImageField (Some f) =
    if decide (upload_ok f) then inr (Some f)
    else inl (ValidationError
           (if bool_decide (uf_name f = "") then "invalid"
            else if bool_decide (uf_size f = 0) then "empty"
            else if pil_verify (uf_read f) then "invalid_extension"
            else "invalid_image")).
Proof.
  unfold field_clean, to_python, image_to_python, file_to_python; simpl.
  case_decide as Hok.
  - destruct Hok as (Hn & Hs & Hv & He).
    rewrite !bool_decide_false by done. simpl. rewrite Hv. simpl.
    unfold run_validators, validate_image_file_extension; simpl.
    by rewrite bool_decide_true.
  - unfold upload_ok in Hok.
    repeat case_bool_decide; simpl; try done.
    destruct (pil_verify _) eqn:Hv; simpl; [|done].
    unfold run_validators, validate_image_file_extension; simpl.
    case_bool_decide; [|done]. exfalso; tauto.
Qed.

(** Cleaning an [ImageField] only ever raises [ValidationError]. *)
Lemma field_clean_image_raises f e :
  field_clean ImageField f = inl e -> exists code, e = ValidationError code.
Proof.
  destruct f as [f|]; [rewrite field_clean_image_some; case_decide|]; intros [= <-]; eauto.
Qed.

Lemma full_clean_ImageUploadForm d fs :
  full_clean (ImageUploadForm d fs) =
    let files := default MultiValueDict.empty fs in
    match field_clean ImageField (MultiValueDict.get files "image") with
    | inr v => inr {| errors := []; cleaned_data := [("image", v)] |}
    | inl (ValidationError code) => inr {| errors := [("image", code)]; cleaned_data := [] |}
    | inl e => inl e
    end.
Proof.
  unfold full_clean; simpl.
  destruct (field_clean _ _) as [[]|]; reflexivity.
Qed.

End Acceptance.

(** ** Validation of [ImageUploadForm] *)

Section Validation.
Context `{Pillow}.

(** The upload that the form inspects: the last file submitted as ["image"]. *)
Definition image_upload (fs : MultiValueDict.t UploadedFile) : option UploadedFile :=
  MultiValueDict.get fs "image".

#[global] Instance upload_present_ok_dec (o : option UploadedFile) :
  Decision (exists f, o = Some f /\ upload_ok f).
Proof.
  destruct o as [f|].
  - destruct (decide (upload_ok f)) as [Hok|Hok];
      [left; eauto | right; intros (g & [= <-] & ?); done].
  - right. intros (? & ? & _). done.
Defined.

Lemma field_clean_image_ok f v :
  field_clean ImageField f = inr v -> exists g, f = Some g /\ v = Some g /\ upload_ok g.
Proof.
  destruct f as [g|]; [|done]. rewrite field_clean_image_some.
  case_decide; [intros [= <-]; eauto | done].
Qed.

Lemma is_valid_ImageUploadForm_eq d fs :
  is_valid (ImageUploadForm (Some d) (Some fs)) =
    inr (bool_decide (exists f, image_upload fs = Some f /\ upload_ok f)).
Proof.
  unfold is_valid. simpl. rewrite full_clean_ImageUploadForm. simpl.
  unfold image_upload. destruct (MultiValueDict.get fs "image") as [f|].
  - rewrite field_clean_image_some.
    case_decide as Hok; simpl; f_equal; symmetry;
      [apply bool_decide_eq_true | apply bool_decide_eq_false]; naive_solver.
  - done.
Qed.

Lemma cleaned_image_of_valid_eq d fs :
  is_valid (ImageUploadForm (Some d) (Some fs)) = inr true ->
  exists f, image_upload fs = Some f /\ upload_ok f /\
    cleaned_lookup (ImageUploadForm (Some d) (Some fs)) "image" = inr (Some f).
Proof.
  rewrite is_valid_ImageUploadForm_eq. intros [= Hb].
  apply bool_decide_eq_true in Hb as (f & Hf & Hok).
  exists f. split_and!; [done|done|].
  unfold cleaned_lookup. rewrite full_clean_ImageUploadForm. simpl.
  unfold image_upload in Hf. rewrite Hf, field_clean_image_some, decide_True by done.
  reflexivity.
Qed.

(** C19: a bound [ImageUploadForm] never raises from [is_valid], and it is
    valid exactly when a file was submitted as ["image"] whose name is
    non-empty, whose content is non-empty, which Pillow verifies as an
    image, and whose extension Pillow registers. *)
Theorem is_valid_ImageUploadForm d fs :
  is_valid (ImageUploadForm (Some d) (Some fs)) =
    inr (bool_decide (exists f, image_upload fs = Some f /\ upload_ok f)).
Proof. apply is_valid_ImageUploadForm_eq. Qed.

(** An unbound form ([ImageUploadForm()]) is never valid. *)
Lemma is_valid_unbound : is_valid (ImageUploadForm None None) = inr false.
Proof. reflexivity. Qed.

(** after a successful [is_valid], [cleaned_data['image']] is the
    submitted upload itself, which satisfies every check. *)
Theorem cleaned_image_of_valid d fs :
  is_valid (ImageUploadForm (Some d) (Some fs)) = inr true ->
  exists f, image_upload fs = Some f /\ upload_ok f /\
    cleaned_lookup (ImageUploadForm (Some d) (Some fs)) "image" = inr (Some f).
Proof. apply cleaned_image_of_valid_eq. Qed.

End Validation.

Module Witnesses.
Import Pillow.Fixture.

Definition photo : UploadedFile := {| uf_name := "dog.JPG"; uf_content := [x49; x01; x01; xc8; x96; x32] |}.
Definition files : MultiValueDict.t UploadedFile := MultiValueDict.of_pairs [("image", photo)].

Lemma cleaned_image_of_valid_witness :
  is_valid (ImageUploadForm (Some MultiValueDict.empty) (Some files)) = inr true /\
  exists f, image_upload files = Some f /\ upload_ok f /\
    cleaned_lookup (ImageUploadForm (Some MultiValueDict.empty) (Some files)) "image" = inr (Some f).
Proof.
  assert (Hv : is_valid (ImageUploadForm (Some MultiValueDict.empty) (Some files)) = inr true)
    by (vm_compute; reflexivity).
  split; [exact Hv|]. exact (cleaned_image_of_valid _ _ Hv).
Defined.

End Witnesses.
