(* ===== verification/Imaging.v ===== *)
(** * Keras' image loading: [load_img] and [img_to_array]

    The view calls [load_img(img_file, target_size = (224, 224))] on the
    uploaded bytes and [img_to_array(img)] on the result
    (keras/utils/image_utils.py).  [load_img] opens the bytes with Pillow,
    converts the image to the requested colour mode when it is not in it,
    and resizes it to [(target_size[1], target_size[0])], Pillow's
    (width, height) order, when its size differs.  [img_to_array] is
    [np.asarray(img)], of shape (height, width, bands), with a channel axis
    added to a single-band image. *)

From S2P Require Import Prelude Pillow Tensor.
From Stdlib Require Import QArith Init.Byte.
Local Open Scope nat_scope.

(** The [color_mode] argument. *)
Inductive ColorMode := Grayscale | RGB | RGBA.

Section Loading.
Context `{Pillow}.

(** [load_img(BytesIO(bytes), color_mode=..., target_size=...,
    interpolation="nearest", keep_aspect_ratio=False)]. *)
Definition load_img (b : list byte) (color_mode : ColorMode)
    (target_size : option (nat * nat)) : py Image :=
  img <- pil_open b ;;
  let img :=
    match color_mode with
    | Grayscale => if decide (im_mode img = ModeL) then img else pil_convert img ModeL
    | RGB => if decide (im_mode img = ModeRGB) then img else pil_convert img ModeRGB
    | RGBA => if decide (im_mode img = ModeRGBA) then img else pil_convert img ModeRGBA
    end in
  match target_size with
  | None => inr img
  | Some (h, w) =>
      let width_height_tuple := (w, h) in
      if decide (im_size img = width_height_tuple) then inr img
      else inr (pil_resize img width_height_tuple)
  end.

(** [np.asarray(img)]: (height, width) for one band, else
    (height, width, bands); pixel values as floats. *)
Definition asarray (img : Image) : ndarray :=
  {| shape := if decide (bands (im_mode img) = 1)
              then [im_height img; im_width img]
              else [im_height img; im_width img; bands (im_mode img)];
     data := map inject_Z (concat (im_pixels img)) |}.

(** [img_to_array(img)] with the default [channels_last] format. *)
Definition img_to_array (img : Image) : py ndarray :=
  let x := asarray img in
  match shape x with
  | [_; _; _] => inr x
  | [h; w] => inr {| shape := [h; w; 1]; data := data x |}
  | _ => inl (ValueError "Unsupported image shape")
  end.

End Loading.

(** ** The images [load_img] returns *)

Section LoadingLaws.
Context `{PillowLaws}.

(** [load_img] in RGB mode with a target size [(h, w)] opens the bytes
    and returns a well-formed RGB image of width [w] and height [h]. *)
Lemma load_img_rgb b h w im :
  pil_open b = inr im ->
  exists img, load_img b RGB (Some (h, w)) = inr img /\
    im_mode img = ModeRGB /\ im_width img = w /\ im_height img = h /\ im_wf img.
Proof.
  intros Ho. unfold load_img. rewrite Ho. simpl.
  set (c := if decide (im_mode im = ModeRGB) then im else pil_convert im ModeRGB).
  assert (Hc : im_mode c = ModeRGB /\ im_wf c).
  { subst c. case_decide; [split; eauto using pil_open_wf|].
    split; [apply pil_convert_mode | eauto using pil_convert_wf, pil_open_wf]. }
  destruct Hc as [Hm Hw]. case_decide as Hs.
  - exists c. unfold im_size in Hs. injection Hs as -> ->. auto.
  - eexists; split; [reflexivity|].
    pose proof (pil_resize_size c (w, h)) as Hsz. unfold im_size in Hsz.
    injection Hsz as -> ->. rewrite pil_resize_mode.
    auto using pil_resize_wf.
Qed.

Lemma load_img_error b cm ts e :
  pil_open b = inl e -> load_img b cm ts = inl e.
Proof. intros Ho. unfold load_img. by rewrite Ho. Qed.

(** [img_to_array] of a well-formed RGB image of width [w] and height [h]
    is a well-formed (h, w, 3) array. *)
Lemma img_to_array_rgb img :
  im_mode img = ModeRGB -> im_wf img ->
  exists arr, img_to_array img = inr arr /\
    shape arr = [im_height img; im_width img; 3] /\ wf arr.
Proof.
  intros Hm [Hl Hb]. unfold img_to_array, asarray. rewrite Hm. simpl.
  eexists; split; [reflexivity|]. split; [done|].
  unfold wf. simpl. rewrite length_map.
  rewrite Hm in Hb. rewrite (length_concat_uniform 3 _ Hb), Hl.
  unfold size. simpl. lia.
Qed.

(** Conversion and resizing keep pixel values 8-bit. *)
Lemma load_img_8bit b cm ts im out :
  pil_open b = inr im -> load_img b cm ts = inr out -> im_8bit out.
Proof.
  intros Ho Hl. unfold load_img in Hl. rewrite Ho in Hl. cbn zeta in Hl. simpl in Hl.
  pose proof (pil_open_8bit _ _ Ho) as H8.
  assert (Hc : forall m, im_8bit (if decide (im_mode im = m) then im else pil_convert im m))
    by (intros m; destruct (decide (im_mode im = m)); [exact H8|apply pil_convert_8bit, H8]).
  destruct ts as [[h w]|]; [destruct (decide (im_size _ = _)) in Hl|];
    injection Hl as <-; destruct cm; try apply pil_resize_8bit; apply Hc.
Qed.

(** [np.asarray] of an 8-bit image holds 8-bit values. *)
Lemma img_to_array_range img arr :
  im_8bit img -> img_to_array img = inr arr -> Forall is_byte (data arr).
Proof.
  intros H8 Ha. unfold img_to_array, asarray in Ha.
  assert (Hd : Forall is_byte (map inject_Z (concat (im_pixels img)))).
  { apply Forall_map, Forall_concat. eapply Forall_impl; [exact H8|]. intros p Hp.
    eapply Forall_impl; [exact Hp|]. intros v Hv. by exists v. }
  case_decide; simpl in Ha; injection Ha as <-; done.
Qed.

(** [load_img(..., target_size=(h, w))] followed by
    [img_to_array] yields a well-formed (h, w, 3) array: the swap to
    Pillow's (width, height) order in [load_img] and [np.asarray]'s
    (height, width, bands) order cancel out. *)
Theorem load_img_to_array b h w im :
  pil_open b = inr im ->
  exists img arr, load_img b RGB (Some (h, w)) = inr img /\ img_to_array img = inr arr /\
    shape arr = [h; w; 3] /\ wf arr.
Proof.
  intros Ho. destruct (load_img_rgb b h w im Ho) as (img & Hl & Hm & Hw & Hh & Hwf).
  destruct (img_to_array_rgb img Hm Hwf) as (arr & Ha & Hsh & Hawf).
  exists img, arr. rewrite Hsh, Hw, Hh. auto.
Qed.

End LoadingLaws.

Module Witnesses.
Import Pillow.Fixture.

(** A 2x1 image loaded at a 3x4 target (height 3, width 4). *)
Definition bytes : list byte := [x49; x02; x01; x01; x02; x03; x04; x05; x06].

Lemma load_img_to_array_witness :
  pil_open bytes = inr {| im_mode := ModeRGB; im_width := 2; im_height := 1;
                          im_pixels := [[1; 2; 3]; [4; 5; 6]]%Z |} /\
  exists img arr, load_img bytes RGB (Some (3, 4)) = inr img /\ img_to_array img = inr arr /\
    shape arr = [3; 4; 3] /\ wf arr.
Proof.
  assert (Ho : pil_open bytes = inr {| im_mode := ModeRGB; im_width := 2; im_height := 1;
                                       im_pixels := [[1; 2; 3]; [4; 5; 6]]%Z |})
    by (vm_compute; reflexivity).
  split; [exact Ho|]. exact (load_img_to_array bytes 3 4 _ Ho).
Defined.

End Witnesses.
