(* ===== verification/Preprocess.v ===== *)
(** * VGG16's [preprocess_input]

    [tensorflow.keras.applications.vgg16.preprocess_input] is
    [imagenet_utils.preprocess_input(x, mode="caffe")], which on a numpy
    array in [channels_last] format runs [_preprocess_numpy_input]:
<<
        x = x[..., ::-1]                  # 'RGB'->'BGR'
        mean = [103.939, 116.779, 123.68]
        x[..., 0] -= mean[0]
        x[..., 1] -= mean[1]
        x[..., 2] -= mean[2]
>>
    Each statement acts on every row of the last axis; an index past the
    last axis raises [IndexError].  The array is [float32] and the means
    are Python floats: numpy casts each mean to float32 and subtracts in
    float32, rounding to nearest ([isub_f32], with [Float32]'s rounding).
    [preprocess_caffe_spec] shows the four steps compose into one map over
    the pixels, from which the shape, the per-element formula and, on
    8-bit input, the float32 range of each channel and the distance to
    the exact decimal computation follow. *)

From S2P Require Import Prelude Float32 Tensor.
From Stdlib Require Import QArith Qabs.
Local Open Scope nat_scope.

(** [mean = [103.939, 116.779, 123.68]]: the decimals of the source, and
    the Python floats (the nearest doubles) the list holds. *)
Definition caffe_decimal : list Q := [103939 # 1000; 116779 # 1000; 12368 # 100].
Definition caffe_mean0 : Q := fl64 (103939 # 1000).
Definition caffe_mean1 : Q := fl64 (116779 # 1000).
Definition caffe_mean2 : Q := fl64 (12368 # 100).
Definition caffe_mean : list Q := [caffe_mean0; caffe_mean1; caffe_mean2].

(** [x -= m] on a float32 element: [m] cast to float32 (once for the
    whole statement), the difference rounded to float32. *)
Definition isub_f32 (m : Q) : Q -> Q := let m32 := fl32 m in fun x => fl32 (x - m32).

(** [x[..., ::-1]]. *)
Definition flip_last_axis (a : ndarray) : py ndarray :=
  match last_dim a with
  | Some c => inr (map_rows c reverse a)
  | None => inl (IndexError "too many indices for array")
  end.

(** [x[..., k] -= m]. *)
Definition sub_last_axis (k : nat) (m : Q) (a : ndarray) : py ndarray :=
  match last_dim a with
  | Some c =>
      if decide (k < c) then inr (map_rows c (alter (isub_f32 m) k) a)
      else inl (IndexError "index is out of bounds for the last axis")
  | None => inl (IndexError "too many indices for array")
  end.

(** [preprocess_input(x)] for a float array in [channels_last] format. *)
Definition preprocess_input (x : ndarray) : py ndarray :=
  x <- flip_last_axis x ;;
  x <- sub_last_axis 0 caffe_mean0 x ;;
  x <- sub_last_axis 1 caffe_mean1 x ;;
  sub_last_axis 2 caffe_mean2 x.

(** What the four statements do to one pixel. *)
Definition caffe_pixel (p : list Q) : list Q :=
  alter (isub_f32 caffe_mean2) 2
    (alter (isub_f32 caffe_mean1) 1
      (alter (isub_f32 caffe_mean0) 0 (reverse p))).

(** The mean subtracted from channel [k] of the BGR array ([x] unchanged
    past the third channel). *)
Definition sub_mean (k : nat) (x : Q) : Q :=
  match caffe_mean !! k with Some m => isub_f32 m x | None => x end.

(** The float32 range of channel [k] on 8-bit input: [0] and [255] minus
    the mean. *)
Definition caffe_lo (k : nat) : Q := sub_mean k 0.
Definition caffe_hi (k : nat) : Q := sub_mean k 255.

(** ** Lemmas *)

Lemma length_caffe_pixel p : length (caffe_pixel p) = length p.
Proof. unfold caffe_pixel. by rewrite !length_alter, length_reverse. Qed.

Lemma last_dim_snoc a sh c : shape a = sh ++ [c] -> last_dim a = Some c.
Proof. intros H. unfold last_dim. by rewrite H, last_snoc. Qed.

Lemma shape_map_rows c f a : shape (map_rows c f a) = shape a.
Proof. reflexivity. Qed.

Lemma caffe_pixel_lookup p k :
  k < length p -> caffe_pixel p !! k = sub_mean k <$> p !! (length p - 1 - k).
Proof.
  intros Hk.
  assert (Hr : reverse p !! k = p !! (length p - 1 - k))
    by (rewrite reverse_lookup by done; f_equal; lia).
  unfold caffe_pixel. rewrite !list_lookup_alter.
  destruct k as [|[|[|k]]]; simpl; rewrite Hr; unfold sub_mean; simpl;
    by destruct (p !! _).
Qed.

(** Whether channel [k] of an 8-bit value [v] lands in its range and
    within [2^-16] of the exact decimal subtraction. *)
Definition caffe_byte_ok (k : nat) (v : Q) : bool :=
  match caffe_decimal !! k with
  | Some m =>
      Qle_bool (Qabs (sub_mean k v - (v - m))) (1 # 65536) &&
      Qle_bool (caffe_lo k) (sub_mean k v) && Qle_bool (sub_mean k v) (caffe_hi k)
  | None => false
  end.

(** The three channels and the 256 values, checked by evaluation. *)
Lemma caffe_byte_bounds k v :
  k < 3 -> is_byte v ->
  exists m, caffe_decimal !! k = Some m /\
    (Qabs (sub_mean k v - (v - m)) <= 1 # 65536)%Q /\ (caffe_lo k <= sub_mean k v <= caffe_hi k)%Q.
Proof.
  intros Hk (z & Hz & ->).
  assert (Hall : forallb (fun k => forallb (fun n => caffe_byte_ok k (inject_Z (Z.of_nat n)))
                   (seq 0 256)) (seq 0 3) = true) by (vm_compute; reflexivity).
  assert (Hk' : In k (seq 0 3)) by (apply in_seq; lia).
  assert (Hz' : In (Z.to_nat z) (seq 0 256)) by (apply in_seq; lia).
  rewrite forallb_forall in Hall. specialize (Hall k Hk').
  rewrite forallb_forall in Hall. specialize (Hall (Z.to_nat z) Hz').
  rewrite Z2Nat.id in Hall by lia. unfold caffe_byte_ok in Hall.
  destruct (caffe_decimal !! k) as [m|]; [|done]. exists m.
  apply andb_true_iff in Hall as [Hall H3]. apply andb_true_iff in Hall as [H1 H2].
  apply Qle_bool_iff in H1, H2, H3. done.
Qed.

(** The extremes: [-123.68000030517578125] (red 0) and
    [151.061004638671875] (blue 255). *)
Lemma caffe_range_values :
  caffe_lo 2 = (-16210985 # 131072)%Q /\ caffe_hi 0 = (4949967 # 32768)%Q.
Proof. split; vm_compute; reflexivity. Qed.

Section Caffe.
Variables (sh : list nat) (c : nat) (a : ndarray).
Hypotheses (Hsh : shape a = sh ++ [c]) (Hc : 3 <= c) (Hwf : wf a).

Local Lemma Hc0 : 0 < c. Proof. lia. Qed.

Local Lemma sub_map_rows f k m :
  k < c -> (forall p, length p = c -> length (f p) = c) ->
  sub_last_axis k m (map_rows c f a) =
    inr (map_rows c (alter (isub_f32 m) k ∘ f) a).
Proof.
  intros Hk Hf. unfold sub_last_axis.
  rewrite (last_dim_snoc _ sh c) by (by rewrite shape_map_rows).
  rewrite decide_True by done. by rewrite (map_rows_map_rows sh c a Hsh Hc0 Hwf).
Qed.

(** The four statements of [_preprocess_numpy_input] are one map over
    the rows of the last axis. *)
Lemma preprocess_caffe_spec :
  preprocess_input a = inr (map_rows c caffe_pixel a).
Proof.
  pose proof Hc0.
  unfold preprocess_input, flip_last_axis. rewrite (last_dim_snoc _ sh c Hsh). simpl.
  do 3 (rewrite sub_map_rows by (lia || (intros; unfold compose;
    by rewrite ?length_alter, ?length_reverse)); simpl).
  done.
Qed.

Lemma preprocess_caffe_ok :
  exists b, preprocess_input a = inr b /\ shape b = shape a /\ wf b.
Proof.
  exists (map_rows c caffe_pixel a). split_and!.
  - apply preprocess_caffe_spec.
  - done.
  - apply (map_rows_wf sh); [done|apply Hc0|done|]. intros p Hp.
    by rewrite length_caffe_pixel.
Qed.

(** C27: [preprocess_input] succeeds on a well-formed array whose last
    axis has at least three channels, and keeps its shape. *)
Theorem preprocess_input_shape :
  exists b, preprocess_input a = inr b /\ shape b = shape a /\ wf b.
Proof. apply preprocess_caffe_ok. Qed.

Lemma row_at_length idx o : offset sh idx = Some o -> length (row_at c o a) = c.
Proof.
  intros Ho. unfold row_at. rewrite length_take, length_drop.
  pose proof (offset_bound _ _ _ Ho). pose proof (data_length_rows sh c a Hsh Hc0 Hwf). nia.
Qed.

(** Element [k] of a pixel of the result is [sub_mean k] of element
    [c-1-k] of that pixel in the input. *)
Lemma preprocess_item_row idx o k b :
  preprocess_input a = inr b -> offset sh idx = Some o -> k < c ->
  item b (idx ++ [k]) = sub_mean k <$> row_at c o a !! (c - 1 - k).
Proof.
  pose proof Hc0. rewrite preprocess_caffe_spec. intros [= <-] Ho Hk.
  rewrite (item_map_rows sh c a Hsh Hc0 Hwf caffe_pixel idx o k)
    by (done || (intros; by rewrite length_caffe_pixel)).
  rewrite caffe_pixel_lookup, (row_at_length idx o) by (done || by rewrite (row_at_length idx o)).
  done.
Qed.

(** C26: element [k] of the last axis of the result is element [c-1-k]
    of the input (RGB to BGR) minus the [k]-th ImageNet mean, in float32,
    for every multi-index of the other axes. *)
Theorem preprocess_input_item idx o k b :
  preprocess_input a = inr b -> offset sh idx = Some o -> k < c ->
  item b (idx ++ [k]) = sub_mean k <$> item a (idx ++ [c - 1 - k]).
Proof.
  intros Hb Ho Hk. rewrite (preprocess_item_row idx o k b Hb Ho Hk).
  by rewrite (item_snoc sh c a Hsh idx o) by (done || lia).
Qed.

(** C28: on an 8-bit RGB array, as the view gives it, each element [k]
    of every pixel of [preprocess_input]'s float32 result is within
    [2^-16] of the exact value the source describes, element [2-k] of
    the input (RGB to BGR) minus the decimal mean [k], and lies in the
    float32 range of channel [k]; overall from [-123.68000030517578125]
    (red 0) to [151.061004638671875] (blue 255). *)
Theorem preprocess_input_float32 idx o k b :
  c = 3 -> Forall is_byte (data a) -> preprocess_input a = inr b ->
  offset sh idx = Some o -> k < 3 ->
  exists v y m, item a (idx ++ [2 - k]) = Some v /\ item b (idx ++ [k]) = Some y /\
    caffe_decimal !! k = Some m /\
    (Qabs (y - (v - m)) <= 1 # 65536)%Q /\ (caffe_lo k <= y <= caffe_hi k)%Q.
Proof.
  intros Hc3 Hbytes Hb Ho Hk.
  assert (Hlen : length (row_at c o a) = c) by exact (row_at_length idx o Ho).
  destruct (lookup_lt_is_Some_2 (row_at c o a) (c - 1 - k)) as [v Hv]; [lia|].
  assert (Hbyte : is_byte v).
  { unfold row_at in Hv. rewrite lookup_take, decide_True, lookup_drop in Hv by lia.
    exact (proj1 (Forall_lookup _ _) Hbytes _ _ Hv). }
  destruct (caffe_byte_bounds k v Hk Hbyte) as (m & Hm & Herr & Hrange).
  exists v, (sub_mean k v), m. split; [|split; [|split; [exact Hm|split; [exact Herr|exact Hrange]]]].
  - rewrite (item_snoc sh c a Hsh idx o) by (done || lia). by replace (2 - k) with (c - 1 - k) by lia.
  - by rewrite (preprocess_item_row idx o k b Hb Ho), Hv by lia.
Qed.

End Caffe.

(** C29: on an array whose last axis has fewer than three channels (a
    grayscale [(h, w, 1)] array, say) [preprocess_input] raises
    [IndexError]; on a 0-dimensional array too. *)
Theorem preprocess_input_index_error a :
  (match last_dim a with Some c => c < 3 | None => True end) ->
  exists msg, preprocess_input a = inl (IndexError msg).
Proof.
  unfold preprocess_input, flip_last_axis, sub_last_axis. intros Hc.
  destruct (last_dim a) as [c|] eqn:E; simpl; [|eauto].
  unfold last_dim in *. simpl. rewrite E.
  destruct c as [|[|[|c]]]; simpl; try lia; eauto.
  - rewrite E. simpl. eauto.
  - rewrite E. simpl. rewrite E. simpl. eauto.
Qed.

Module Witnesses.

(** One RGB pixel, and one grayscale pixel. *)
Definition pixel : ndarray := {| shape := [1; 1; 3]; data := [10; 20; 30]%Q |}.
Definition gray : ndarray := {| shape := [1; 1; 1]; data := [10]%Q |}.

Definition pixel_bgr : ndarray :=
  Eval vm_compute in match preprocess_input pixel with inr b => b | inl _ => pixel end.

Lemma preprocess_input_shape_witness :
  shape pixel = [1; 1] ++ [3] /\ 3 <= 3 /\ wf pixel /\
  exists b, preprocess_input pixel = inr b /\ shape b = shape pixel /\ wf b.
Proof.
  split_and!; [reflexivity|lia|reflexivity|].
  exact (preprocess_input_shape [1; 1] 3 pixel eq_refl ltac:(lia) eq_refl).
Defined.

Lemma preprocess_input_item_witness :
  preprocess_input pixel = inr pixel_bgr /\ offset [1; 1] [0; 0] = Some 0 /\ 0 < 3 /\
  item pixel_bgr ([0; 0] ++ [0]) = sub_mean 0 <$> item pixel ([0; 0] ++ [3 - 1 - 0]).
Proof.
  assert (Hp : preprocess_input pixel = inr pixel_bgr) by (vm_compute; reflexivity).
  split_and!; [exact Hp|reflexivity|lia|].
  exact (preprocess_input_item [1; 1] 3 pixel eq_refl ltac:(lia) eq_refl [0; 0] 0 0 pixel_bgr
           Hp eq_refl ltac:(lia)).
Defined.

Lemma preprocess_input_index_error_witness :
  (match last_dim gray with Some c => c < 3 | None => True end) /\
  exists msg, preprocess_input gray = inl (IndexError msg).
Proof.
  assert (H : match last_dim gray with Some c => c < 3 | None => True end) by (simpl; lia).
  split; [exact H|]. exact (preprocess_input_index_error gray H).
Defined.

Lemma preprocess_input_float32_witness :
  exists v y m, item pixel ([0; 0] ++ [2 - 0]) = Some v /\ item pixel_bgr ([0; 0] ++ [0]) = Some y /\
    caffe_decimal !! 0 = Some m /\
    (Qabs (y - (v - m)) <= 1 # 65536)%Q /\ (caffe_lo 0 <= y <= caffe_hi 0)%Q.
Proof.
  assert (Hp : preprocess_input pixel = inr pixel_bgr) by (vm_compute; reflexivity).
  assert (Hb : Forall is_byte (data pixel)).
  { repeat constructor; [exists 10%Z|exists 20%Z|exists 30%Z]; split; (lia || reflexivity). }
  exact (preprocess_input_float32 [1; 1] 3 pixel eq_refl ltac:(lia) eq_refl [0; 0] 0 0 pixel_bgr
           eq_refl Hb Hp eq_refl ltac:(lia)).
Defined.

End Witnesses.
