(* ===== verification/Decode.v ===== *)
(** * Keras' [decode_predictions]

    The view decodes the network's output with
    [decode_predictions(result, top = 5)[0]]
    (keras/applications/imagenet_utils.py):
<<
    if len(preds.shape) != 2 or preds.shape[1] != 1000:
        raise ValueError(...)
    ... CLASS_INDEX = json.load(f)        (loaded once, then cached)
    results = []
    for pred in preds:
        top_indices = pred.argsort()[-top:][::-1]
        result = [tuple(CLASS_INDEX[str(i)]) + (pred[i],) for i in top_indices]
        result.sort(key=lambda x: x[2], reverse=True)
        results.append(result)
    return results
>>
    [argsort] is numpy's; its default algorithm is not stable, so the
    decoding is stated for any [argsort] that returns a permutation of the
    indices in ascending order of value ([Section Decoding]), and a stable
    insertion sort ([np_argsort]) is the instance the view is run with.
    Python's [sort] with [reverse=True] is stable: [sort_desc].  The class
    index (the parsed JSON file) is a map from ["0"] .. ["999"] to
    [(wnid, label)]. *)

From S2P Require Import Prelude Tensor.
From stdpp Require Import gmap pretty sorting.
From Stdlib Require Import QArith.
Local Open Scope nat_scope.

(** [pred[i]] for an index [argsort] returned (always in range). *)
Definition val (v : list Q) (i : nat) : Q := default 0%Q (v !! i).

(** One decoded entry: [(wnid, label, score)]. *)
Record Prediction := {
  class_id : string;
  class_name : string;
  score : Q;
}.

(** [CLASS_INDEX]: [{"0": ["n01440764", "tench"], ...}]. *)
Abbreviation ClassIndex := (gmap string (string * string)).

(** ** Python's stable [list.sort(key=score, reverse=True)] *)

Definition sort_desc (l : list Prediction) : list Prediction :=
  isort (fun p q => Qle_bool (score q) (score p)) l.

(** ** numpy's [argsort], as a stable insertion sort on [(index, value)] *)

Definition np_argsort (v : list Q) : list nat :=
  map fst (isort (fun p q => Qle_bool p.2 q.2) (zip (seq 0 (length v)) v)).

(** What [decode_predictions] needs of [argsort]. *)
Definition argsort_contract (argsort : list Q -> list nat) : Prop :=
  forall v, argsort v ≡ₚ seq 0 (length v) /\
            Sorted (fun i j => (val v i <= val v j)%Q) (argsort v).

Section Decoding.
Variable argsort : list Q -> list nat.

(** [tuple(CLASS_INDEX[str(i)]) + (pred[i],)]. *)
Definition decode_entry (ci : ClassIndex) (pred : list Q) (i : nat) : py Prediction :=
  match ci !! pretty i with
  | Some (wnid, label) => inr {| class_id := wnid; class_name := label; score := val pred i |}
  | None => inl (KeyError (pretty i))
  end.

(** [pred.argsort()[-top:][::-1]]. *)
Definition top_indices (top : nat) (pred : list Q) : list nat :=
  reverse (py_slice_last top (argsort pred)).

(** The body of the loop, for one row [pred]. *)
Definition decode_row (ci : ClassIndex) (top : nat) (pred : list Q) : py (list Prediction) :=
  result <- py_mapM (decode_entry ci pred) (top_indices top pred) ;;
  inr (sort_desc result).

Definition decode_shape_error : PyExc :=
  ValueError "`decode_predictions` expects a batch of predictions (i.e. a 2D array of shape (samples, 1000))".

(** [len(preds.shape) == 2 and preds.shape[1] == 1000]: the guard of the
    [raise ValueError]. *)
Definition preds_shape_ok (preds : ndarray) : bool :=
  match shape preds with
  | [_; d] => bool_decide (d = 1000)
  | _ => false
  end.

(** The loop [for pred in preds: ... results.append(result)] over the
    rows of a (samples, 1000) array. *)
Definition decode_rows (ci : ClassIndex) (preds : ndarray) (top : nat)
    : py (list (list Prediction)) :=
  py_mapM (decode_row ci top) (rows 1000 (length (data preds)) (data preds)).

(** [decode_predictions(preds, top)] with [CLASS_INDEX] loaded. *)
Definition decode_predictions (ci : ClassIndex) (preds : ndarray) (top : nat)
    : py (list (list Prediction)) :=
  if preds_shape_ok preds then decode_rows ci preds top else inl decode_shape_error.

End Decoding.

(** ** Sorting lemmas *)

Definition score_ge (p q : Prediction) : Prop := (score q <= score p)%Q.

Lemma Qle_bool_total x y : Qle_bool x y = false -> Qle_bool y x = true.
Proof.
  intros H. apply Qle_bool_iff, Qlt_le_weak, Qnot_le_lt. intros H'.
  apply Qle_bool_iff in H'. congruence.
Qed.

Lemma sort_desc_perm l : sort_desc l ≡ₚ l.
Proof. apply isort_perm. Qed.

Lemma sort_desc_sorted l : Sorted score_ge (sort_desc l).
Proof.
  pose proof (isort_sorted _ (fun p q => Qle_bool_total (score q) (score p)) l) as Hs.
  apply (Sorted_map_inv _ score_ge id (fun _ => True)) in Hs.
  - by rewrite map_id in Hs.
  - by apply Forall_true.
  - intros p q _ _ H. by apply Qle_bool_iff.
Qed.

(** ** [np_argsort] meets the contract *)

Lemma zip_seq_inv (v : list Q) : Forall (fun p => v !! p.1 = Some p.2) (zip (seq 0 (length v)) v).
Proof.
  apply Forall_lookup_2. intros i [j x] H.
  apply lookup_zip_Some in H as [E1 E2]. apply lookup_seq in E1 as [-> _]. done.
Qed.

Lemma map_fst_zip_seq (v : list Q) : map fst (zip (seq 0 (length v)) v) = seq 0 (length v).
Proof. apply fst_zip. by rewrite length_seq. Qed.

(** [np_argsort] returns every index once, in ascending order of value. *)
Lemma np_argsort_contract : argsort_contract np_argsort.
Proof.
  intros v. unfold np_argsort. split.
  - rewrite isort_perm. by rewrite map_fst_zip_seq.
  - apply (Sorted_map_inv (fun p q => Qle_bool p.2 q.2 = true) _ fst
             (fun p => v !! p.1 = Some p.2)).
    + rewrite isort_perm. apply zip_seq_inv.
    + intros [i x] [j y] Hx Hy Hle. unfold val. simpl in *. rewrite Hx, Hy.
      by apply Qle_bool_iff.
    + apply isort_sorted. intros p q. apply Qle_bool_total.
Qed.

(** ** Top-k decoding: specification and refinement *)

(** Entry [p] describes class [i] of the row [pred]: its wnid and label
    from the class index and its score. *)
Definition entry_for (ci : ClassIndex) (pred : list Q) (i : nat) (p : Prediction) : Prop :=
  ci !! pretty i = Some (class_id p, class_name p) /\ pred !! i = Some (score p).

(** The promise of top-k decoding: [result] describes [k] distinct classes
    of [pred], in descending order of score, and every class it leaves out
    scores at most as high as every class it lists. *)
Definition topk_spec (ci : ClassIndex) (k : nat) (pred : list Q) (result : list Prediction) : Prop :=
  exists idxs entries,
    length idxs = k /\ NoDup idxs /\
    Forall2 (entry_for ci pred) idxs entries /\ result ≡ₚ entries /\
    Sorted score_ge result /\
    (forall j x p, pred !! j = Some x -> j ∉ idxs -> p ∈ result -> (x <= score p)%Q).

(** Every class of the row has an entry in the class index. *)
Definition class_index_covers (ci : ClassIndex) (n : nat) : Prop :=
  forall i, i < n -> is_Some (ci !! pretty i).

Section TopK.
Variable argsort : list Q -> list nat.
Hypothesis Hargsort : argsort_contract argsort.

Lemma decode_entry_spec ci pred i p :
  i < length pred -> decode_entry ci pred i = inr p -> entry_for ci pred i p.
Proof.
  intros Hi. unfold decode_entry, entry_for, val.
  destruct (ci !! pretty i) as [[w l]|] eqn:E; [|done]. intros [= <-]. simpl.
  split; [done|]. destruct (lookup_lt_is_Some_2 pred i Hi) as [x ->]. done.
Qed.

Lemma argsort_elem_of pred i : i ∈ argsort pred <-> i < length pred.
Proof.
  destruct (Hargsort pred) as [Hp _]. rewrite Hp, elem_of_seq. lia.
Qed.

Lemma length_top_indices top pred :
  top <> 0 -> length (top_indices argsort top pred) = Nat.min top (length pred).
Proof.
  intros Ht. unfold top_indices. rewrite length_reverse, length_py_slice_last by done.
  destruct (Hargsort pred) as [Hp _]. by rewrite Hp, length_seq.
Qed.

(** Every index left out of [top_indices] has a value at most that of
    every index in it: the ascending order of [argsort] puts it before. *)
Lemma top_indices_dominate top pred j i :
  j < length pred -> j ∉ top_indices argsort top pred -> i ∈ top_indices argsort top pred ->
  (val pred j <= val pred i)%Q.
Proof.
  unfold top_indices. rewrite !elem_of_reverse. intros Hj Hnj Hi.
  destruct (Hargsort pred) as [_ Hs].
  destruct (py_slice_last_sublist top (argsort pred)) as [pre Hpre].
  rewrite Hpre in Hs. apply Sorted_StronglySorted in Hs; [|intros x y z; apply Qle_trans].
  apply argsort_elem_of in Hj. rewrite Hpre in Hj.
  apply elem_of_app in Hj as [Hj|Hj]; [|contradiction].
  exact (StronglySorted_app_inv (fun a b => (val pred a <= val pred b)%Q) pre _ j i Hs Hj Hi).
Qed.

Lemma NoDup_top_indices top pred : NoDup (top_indices argsort top pred).
Proof.
  unfold top_indices. rewrite reverse_Permutation.
  destruct (py_slice_last_sublist top (argsort pred)) as [pre Hpre].
  destruct (Hargsort pred) as [Hp _].
  assert (Hnd : NoDup (argsort pred)) by (rewrite Hp; apply NoDup_seq).
  rewrite Hpre in Hnd. by apply NoDup_app in Hnd as (_ & _ & ?).
Qed.

Lemma decode_row_topk ci top pred :
  class_index_covers ci (length pred) -> top <> 0 ->
  exists result, decode_row argsort ci top pred = inr result /\
    topk_spec ci (Nat.min top (length pred)) pred result.
Proof.
  intros Hci Htop. unfold decode_row.
  set (idxs := top_indices argsort top pred).
  assert (Hin : forall i, i ∈ idxs -> i < length pred).
  { intros i Hi. apply argsort_elem_of. subst idxs. unfold top_indices in Hi.
    rewrite elem_of_reverse in Hi. destruct (py_slice_last_sublist top (argsort pred)) as [pre Hpre].
    rewrite Hpre. apply elem_of_app. by right. }
  destruct (py_mapM_total (decode_entry ci pred) idxs) as [entries He].
  { intros i Hi. unfold decode_entry. destruct (Hci i (Hin i Hi)) as [[w l] ->]. eauto. }
  rewrite He. simpl. eexists; split; [reflexivity|].
  apply py_mapM_ok in He.
  assert (Hf2 : Forall2 (entry_for ci pred) idxs entries).
  { clearbody idxs. clear -He Hin. induction He as [|i p l1 l2 Hip _ IH]; constructor.
    - apply decode_entry_spec; [apply Hin; by constructor|done].
    - apply IH. intros k Hk. apply Hin. by constructor. }
  exists idxs, entries. split_and!.
  - by apply length_top_indices.
  - apply NoDup_top_indices.
  - done.
  - apply sort_desc_perm.
  - apply sort_desc_sorted.
  - intros j x p Hj Hnj Hp. rewrite sort_desc_perm in Hp.
    apply list_elem_of_lookup in Hp as [n Hn].
    destruct (Forall2_lookup_r _ _ _ _ _ Hf2 Hn) as (i & Hi & _ & Hsc).
    assert (Hx : x = val pred j) by (unfold val; by rewrite Hj).
    assert (Hp' : score p = val pred i) by (unfold val; by rewrite Hsc).
    rewrite Hx, Hp'. apply (top_indices_dominate top); [|done|].
    + by apply lookup_lt_Some in Hj.
    + by apply list_elem_of_lookup_2 in Hi.
Qed.

(** C20: with a complete class index, decoding one row
    with [top > 0] never raises, and its result meets the top-k
    specification for [k = min(top, len(pred))]: distinct classes with
    their labels and scores, in descending order of score, none left out
    scoring higher. *)
Theorem decode_row_refines ci top pred :
  class_index_covers ci (length pred) -> top <> 0 ->
  exists result, decode_row argsort ci top pred = inr result /\
    topk_spec ci (Nat.min top (length pred)) pred result.
Proof. apply decode_row_topk. Qed.

End TopK.

(** ** [decode_predictions] on a batch *)

Section Batch.
Variable argsort : list Q -> list nat.
Hypothesis Hargsort : argsort_contract argsort.

(** C22: an array that is not of shape
    (samples, 1000) is rejected with [ValueError]. *)
Theorem decode_predictions_shape_error ci preds top :
  (forall n, shape preds <> [n; 1000]) ->
  exists msg, decode_predictions argsort ci preds top = inl (ValueError msg).
Proof.
  intros Hsh. unfold decode_predictions, preds_shape_ok.
  destruct (shape preds) as [|n [|d [|]]] eqn:E; eauto.
  case_bool_decide; [subst; by destruct (Hsh n)|eauto].
Qed.

Lemma decode_predictions_topk ci preds top n :
  shape preds = [n; 1000] -> wf preds -> class_index_covers ci 1000 -> top <> 0 ->
  exists results, decode_predictions argsort ci preds top = inr results /\
    length results = n /\
    forall b res, results !! b = Some res ->
      topk_spec ci (Nat.min top 1000) (row_at 1000 b preds) res.
Proof.
  intros Hsh Hwf Hci Htop. unfold decode_predictions, preds_shape_ok, decode_rows.
  rewrite Hsh, bool_decide_true by done.
  assert (Hsh' : shape preds = [n] ++ [1000]) by done.
  pose proof (rows_data_uniform [n] 1000 preds Hsh' ltac:(lia) Hwf) as Hu.
  assert (Hdl : length (data preds) = 1000 * n).
  { rewrite (data_length_rows [n] 1000 preds Hsh' ltac:(lia) Hwf). simpl. lia. }
  assert (Hnr : length (rows 1000 (length (data preds)) (data preds)) = n)
    by (apply length_rows; [lia|done|done]).
  destruct (py_mapM_total (decode_row argsort ci top)
              (rows 1000 (length (data preds)) (data preds))) as [results Hr].
  { intros row Hrow. eapply Forall_forall in Hu; [|exact Hrow].
    destruct (decode_row_topk argsort Hargsort ci top row) as (res & -> & _);
      [rewrite Hu; intros i Hi; by apply Hci|done|eauto]. }
  exists results. split; [done|]. apply py_mapM_ok in Hr. split.
  - by rewrite <- (Forall2_length _ _ _ Hr).
  - intros b res Hb.
    destruct (Forall2_lookup_r _ _ _ _ _ Hr Hb) as (row & Hrow & Hdec).
    assert (Hlen : length row = 1000).
    { eapply Forall_lookup_1 in Hu; [exact Hu|exact Hrow]. }
    rewrite (lookup_rows [n] 1000 preds Hsh' ltac:(lia) Hwf) in Hrow.
    + injection Hrow as <-.
      destruct (decode_row_topk argsort Hargsort ci top (row_at 1000 b preds))
        as (res' & Hres' & Hspec); [rewrite Hlen; intros i Hi; by apply Hci|done|].
      rewrite Hdec in Hres'. injection Hres' as ->. by rewrite Hlen in Hspec.
    + apply lookup_lt_Some in Hb. rewrite <- (Forall2_length _ _ _ Hr), Hnr in Hb.
      simpl. lia.
Qed.

(** the loop of [decode_predictions] terminates having visited every
    sample: the fuel of the row iteration (the buffer's length) is
    enough, any more gives the same rows, and they are the rows
    [0 .. n-1] of the (n, 1000) array, in order. *)
Theorem decode_rows_rows ci preds top n fuel :
  shape preds = [n; 1000] -> wf preds -> length (data preds) <= fuel ->
  rows 1000 fuel (data preds) = rows 1000 (length (data preds)) (data preds) /\
  decode_rows argsort ci preds top =
    py_mapM (decode_row argsort ci top) (map (fun b => row_at 1000 b preds) (seq 0 n)).
Proof.
  intros Hsh Hwf Hf. split; [apply rows_fuel; lia|].
  unfold decode_rows. f_equal.
  assert (Hsh' : shape preds = [n] ++ [1000]) by done.
  apply list_eq. intros b. rewrite list_lookup_fmap.
  destruct (decide (b < n)) as [Hb|Hb].
  - rewrite lookup_seq_lt by done. simpl.
    apply (lookup_rows [n] 1000 preds Hsh' ltac:(lia) Hwf). simpl. lia.
  - rewrite lookup_seq_ge by lia. apply lookup_ge_None_2.
    rewrite (length_rows 1000 n); [lia|lia|done|].
    rewrite (data_length_rows [n] 1000 preds Hsh' ltac:(lia) Hwf). simpl. lia.
Qed.

(** C21: on a well-formed (samples, 1000) array and a
    complete class index, [decode_predictions] with [top > 0] returns one
    list per sample, each meeting the top-k specification for that
    sample's row with [k = min(top, 1000)]. *)
Theorem decode_predictions_ok ci preds top n :
  shape preds = [n; 1000] -> wf preds -> class_index_covers ci 1000 -> top <> 0 ->
  exists results, decode_predictions argsort ci preds top = inr results /\
    length results = n /\
    forall b res, results !! b = Some res ->
      topk_spec ci (Nat.min top 1000) (row_at 1000 b preds) res.
Proof. apply decode_predictions_topk. Qed.

End Batch.

(** ** Consequences of the top-k specification *)

Lemma topk_spec_length ci k pred result : topk_spec ci k pred result -> length result = k.
Proof.
  intros (idxs & entries & Hl & _ & Hf2 & Hp & _). rewrite Hp.
  by rewrite <- (Forall2_length _ _ _ Hf2).
Qed.

(** Every listed score is a value of the row, so a property of all values
    (being a probability, say) holds of every listed score. *)
Lemma topk_spec_scores ci k pred result (P : Q -> Prop) :
  topk_spec ci k pred result -> Forall P pred -> Forall (fun p => P (score p)) result.
Proof.
  intros (idxs & entries & _ & _ & Hf2 & Hp & _) HP. rewrite Hp.
  apply Forall_lookup_2. intros n p Hn.
  destruct (Forall2_lookup_r _ _ _ _ _ Hf2 Hn) as (i & _ & _ & Hsc).
  by eapply Forall_lookup_1.
Qed.

(** ** Examples *)

Module Example.

(** A class index naming the 1000 ImageNet classes ["n<i>"], ["class <i>"]. *)
Definition class_index : ClassIndex :=
  list_to_map (map (fun i => (pretty i, ("n" +:+ pretty i, "class " +:+ pretty i))) (seq 0 1000)).

Lemma class_index_complete : class_index_covers class_index 1000.
Proof.
  assert (Hc : forallb (fun i => bool_decide (is_Some (class_index !! pretty i))) (seq 0 1000) = true)
    by (vm_compute; reflexivity).
  intros i Hi. rewrite forallb_forall in Hc.
  assert (Hin : In i (seq 0 1000)) by (apply list_elem_of_In, elem_of_seq; lia).
  specialize (Hc i Hin). by apply bool_decide_eq_true_1 in Hc.
Qed.

(** A row of three classes and an index for them. *)
Definition small_index : ClassIndex :=
  list_to_map [("0", ("n01440764", "tench")); ("1", ("n01443537", "goldfish"));
               ("2", ("n01484850", "great_white_shark"))].

Definition small_row : list Q := [1 # 10; 7 # 10; 2 # 10].

(** A batch of one (1, 1000) row. *)
Definition batch : ndarray :=
  {| shape := [1; 1000]; data := map (fun i => Qmake (Z.of_nat i) 499500) (seq 0 1000) |}.

End Example.

Module Witnesses.
Import Example.

Lemma decode_row_refines_witness :
  argsort_contract np_argsort /\ class_index_covers small_index (length small_row) /\ 2 <> 0 /\
  exists result, decode_row np_argsort small_index 2 small_row = inr result /\
    topk_spec small_index (Nat.min 2 (length small_row)) small_row result.
Proof.
  assert (Hc : class_index_covers small_index (length small_row)).
  { intros i Hi. simpl in Hi. destruct i as [|[|[|i]]]; [by eexists..|lia]. }
  split_and!; [exact np_argsort_contract|exact Hc|lia|].
  apply (decode_row_refines np_argsort np_argsort_contract); [exact Hc|lia].
Defined.

Lemma decode_predictions_ok_witness :
  shape batch = [1; 1000] /\ wf batch /\ class_index_covers class_index 1000 /\ 5 <> 0 /\
  exists results, decode_predictions np_argsort class_index batch 5 = inr results /\
    length results = 1 /\
    forall b res, results !! b = Some res ->
      topk_spec class_index (Nat.min 5 1000) (row_at 1000 b batch) res.
Proof.
  assert (Hwf : wf batch) by (unfold wf, batch; cbn [shape data]; by rewrite length_map, length_seq).
  split_and!; [reflexivity|exact Hwf|exact class_index_complete|lia|].
  apply (decode_predictions_ok np_argsort np_argsort_contract);
    [reflexivity|exact Hwf|exact class_index_complete|lia].
Defined.

Lemma decode_predictions_shape_error_witness :
  (forall n, shape {| shape := [1; 10]; data := [] |} <> [n; 1000]) /\
  exists msg, decode_predictions np_argsort class_index {| shape := [1; 10]; data := [] |} 5
              = inl (ValueError msg).
Proof.
  assert (Hs : forall n, shape {| shape := [1; 10]; data := [] |} <> [n; 1000]).
  { intros n. simpl. by intros [=]. }
  split; [exact Hs|]. apply (decode_predictions_shape_error np_argsort). exact Hs.
Defined.

Lemma decode_rows_rows_witness :
  shape batch = [1; 1000] /\ wf batch /\ length (data batch) <= 2000 /\
  rows 1000 2000 (data batch) = rows 1000 (length (data batch)) (data batch) /\
  decode_rows np_argsort class_index batch 5 =
    py_mapM (decode_row np_argsort class_index 5) (map (fun b => row_at 1000 b batch) (seq 0 1)).
Proof.
  assert (Hl : length (data batch) = 1000) by (unfold batch; cbn [data]; by rewrite length_map, length_seq).
  assert (Hwf : wf batch) by (unfold wf; rewrite Hl; reflexivity).
  assert (Hf : length (data batch) <= 2000) by lia.
  split_and!; [reflexivity|exact Hwf|exact Hf|..];
    apply (decode_rows_rows np_argsort class_index batch 5 1 2000 eq_refl Hwf Hf).
Defined.

End Witnesses.
