(* ===== verification/ClassIndex.v ===== *)
(** * The class index of [decode_predictions] and the state Keras keeps

    [decode_predictions] (keras/applications/imagenet_utils.py) reads the
    ImageNet class index from a module global, loading it on first use:
<<
    CLASS_INDEX = None
    ...
    if len(preds.shape) != 2 or preds.shape[1] != 1000:
        raise ValueError(...)
    if CLASS_INDEX is None:
        fpath = data_utils.get_file("imagenet_class_index.json", CLASS_INDEX_PATH,
                                    cache_subdir="models",
                                    file_hash="c2c37ea517e94d9795004a39431a14cb")
        with open(fpath) as f:
            CLASS_INDEX = json.load(f)
>>
    and [get_file] (keras/utils/data_utils.py) keeps the downloaded file in
    [~/.keras/models/]: a file already there whose md5 matches is used as
    is; otherwise the file is fetched from [CLASS_INDEX_PATH], removed
    again when the fetch fails, and rejected with [ValueError] when the
    downloaded bytes do not match the hash.  So the process serving the
    view is not stateless: the first request that reaches the decoding
    step fills [CLASS_INDEX], and may write the cached file.

    This file models that state ([KerasState]), [get_file] and the loading
    of [CLASS_INDEX] in the state-and-exception monad [pyst], and
    [decode_predictions_global], the whole of [decode_predictions]
    including the cache.  MD5 and JSON parsing are the interface
    [ClassIndexCodec]. *)

From S2P Require Import Prelude Tensor Decode.
From stdpp Require Import gmap.
From Stdlib Require Import Init.Byte.
Local Open Scope nat_scope.

(** What the loading of the class index needs of [hashlib] and [json]. *)
Class ClassIndexCodec := {
  (** [validate_file(fpath, "c2c37ea517e94d9795004a39431a14cb")]: the md5
      digest of the file's bytes is the expected one. *)
  file_hash_ok : list byte -> bool;
  (** [json.load(f)], read as the [CLASS_INDEX] dictionary; [ValueError]
      ([JSONDecodeError]) when the bytes are not JSON. *)
  json_load : list byte -> py ClassIndex;
}.

(** The state of the Keras library in the process serving the view: the
    global [CLASS_INDEX] of imagenet_utils and the contents of
    [~/.keras/models/imagenet_class_index.json] ([None]: no such file). *)
Record KerasState := {
  CLASS_INDEX : option ClassIndex;
  class_index_file : option (list byte);
}.

(** A process that has not decoded anything yet, with or without a file
    left by an earlier run. *)
Definition fresh_process (file : option (list byte)) : KerasState :=
  {| CLASS_INDEX := None; class_index_file := file |}.

Definition set_CLASS_INDEX (ci : ClassIndex) (s : KerasState) : KerasState :=
  {| CLASS_INDEX := Some ci; class_index_file := class_index_file s |}.

Definition set_class_index_file (f : option (list byte)) (s : KerasState) : KerasState :=
  {| CLASS_INDEX := CLASS_INDEX s; class_index_file := f |}.

Definition CLASS_INDEX_PATH : string :=
  "https://storage.googleapis.com/download.tensorflow.org/data/imagenet_class_index.json".

(** What [urlretrieve(CLASS_INDEX_PATH, fpath)] gets: the file's bytes, or
    the [HTTPError]/[URLError] it raises, as its ["code -- reason"] text. *)
Abbreviation Fetch := (string + list byte)%type.

Definition hash_mismatch : PyExc :=
  ValueError ("Incomplete or corrupted file detected. The md5 file hash does not match " +:+
              "the provided value of c2c37ea517e94d9795004a39431a14cb.").

Section Loading.
Context `{ClassIndexCodec}.

(** The [if download:] block of [get_file]: a failed fetch removes the
    partial file and raises [Exception("URL fetch failure on ...")]; a
    fetched file is kept and then checked against the hash. *)
Definition download (origin : Fetch) : pyst KerasState (list byte) :=
  s ← st_get;
  match origin with
  | inl reason =>
      st_put (set_class_index_file None s);;
      mthrow (Exception ("URL fetch failure on " +:+ CLASS_INDEX_PATH +:+ ": " +:+ reason))
  | inr b =>
      st_put (set_class_index_file (Some b) s);;
      if file_hash_ok b then mret b else mthrow hash_mismatch
  end.

(** [get_file("imagenet_class_index.json", ...)] followed by [open(fpath)]
    and its read: download when there is no file or its hash does not
    match. *)
Definition get_file (origin : Fetch) : pyst KerasState (list byte) :=
  s ← st_get;
  match class_index_file s with
  | Some b => if file_hash_ok b then mret b else download origin
  | None => download origin
  end.

(** [if CLASS_INDEX is None: ... CLASS_INDEX = json.load(f)]. *)
Definition load_class_index (origin : Fetch) : pyst KerasState ClassIndex :=
  s ← st_get;
  match CLASS_INDEX s with
  | Some ci => mret ci
  | None =>
      b ← get_file origin;
      ci ← lift (json_load b);
      s ← st_get;
      st_put (set_CLASS_INDEX ci s);;
      mret ci
  end.

(** [decode_predictions(preds, top)]: the shape check, the loading of
    [CLASS_INDEX], the loop. *)
Definition decode_predictions_global (origin : Fetch) (preds : ndarray) (top : nat)
    : pyst KerasState (list (list Prediction)) :=
  if preds_shape_ok preds then
    ci ← load_class_index origin;
    lift (decode_rows np_argsort ci preds top)
  else mthrow decode_shape_error.

End Loading.

(** ** The file [get_file] accepts without downloading *)

Definition valid_file `{ClassIndexCodec} (s : KerasState) : option (list byte) :=
  match class_index_file s with
  | Some b => if file_hash_ok b then Some b else None
  | None => None
  end.

(** The invariant of the cache: a filled [CLASS_INDEX] is the parse of
    the file on disk, whose hash matches. *)
Definition cache_consistent `{ClassIndexCodec} (s : KerasState) : Prop :=
  forall ci, CLASS_INDEX s = Some ci ->
    exists b, class_index_file s = Some b /\ file_hash_ok b = true /\ json_load b = inr ci.

(** What the md5 check guarantees: a file whose hash matches is the
    published index, so it parses, and always to the same dictionary. *)
Class ClassIndexCodecLaws `{ClassIndexCodec} := {
  hash_ok_parses : forall b, file_hash_ok b = true -> exists ci, json_load b = inr ci;
  hash_ok_same : forall b1 b2, file_hash_ok b1 = true -> file_hash_ok b2 = true ->
    json_load b1 = json_load b2;
}.

(** ** Lemmas *)

Section LoadingLaws.
Context `{ClassIndexCodec}.

Lemma get_file_run origin s :
  get_file origin s = match valid_file s with Some b => (s, inr b) | None => download origin s end.
Proof. unfold get_file, valid_file. st_unfold. destruct (class_index_file s) as [b|]; [|done]. by destruct (file_hash_ok b). Qed.

Lemma download_run origin s :
  download origin s =
    match origin with
    | inl reason => (set_class_index_file None s,
        inl (Exception ("URL fetch failure on " +:+ CLASS_INDEX_PATH +:+ ": " +:+ reason)))
    | inr b => (set_class_index_file (Some b) s, if file_hash_ok b then inr b else inl hash_mismatch)
    end.
Proof. unfold download. st_unfold. destruct origin as [r|b]; [done|]. by destruct (file_hash_ok b). Qed.

Lemma load_class_index_cached origin s ci :
  CLASS_INDEX s = Some ci -> load_class_index origin s = (s, inr ci).
Proof. intros Hc. unfold load_class_index. st_unfold. by rewrite Hc. Qed.

(** Loading from an empty cache: fetch the file, parse it, fill the
    global. *)
Lemma load_class_index_empty origin s :
  CLASS_INDEX s = None ->
  load_class_index origin s =
    match get_file origin s with
    | (s', inl e) => (s', inl e)
    | (s', inr b) =>
        match json_load b with
        | inl e => (s', inl e)
        | inr ci => (set_CLASS_INDEX ci s', inr ci)
        end
    end.
Proof.
  intros Hc. unfold load_class_index. st_unfold. rewrite Hc.
  destruct (get_file origin s) as [s' [e|b]]; [done|]. by destruct (json_load b).
Qed.

Lemma download_CLASS_INDEX origin s : CLASS_INDEX (download origin s).1 = CLASS_INDEX s.
Proof. rewrite download_run. by destruct origin. Qed.

Lemma get_file_CLASS_INDEX origin s : CLASS_INDEX (get_file origin s).1 = CLASS_INDEX s.
Proof. rewrite get_file_run. destruct (valid_file s); [done|]. apply download_CLASS_INDEX. Qed.

(** What [get_file] returns is the file it leaves on disk, with a
    matching hash. *)
Lemma get_file_ok origin s s' b :
  get_file origin s = (s', inr b) -> class_index_file s' = Some b /\ file_hash_ok b = true.
Proof.
  rewrite get_file_run. unfold valid_file.
  destruct (class_index_file s) as [b0|] eqn:Ef; [destruct (file_hash_ok b0) eqn:Eh|].
  - intros [= <- <-]. done.
  - rewrite download_run. destruct origin as [r|b1]; [done|]. simpl.
    destruct (file_hash_ok b1) eqn:E1; [intros [= <- <-]; done|done].
  - rewrite download_run. destruct origin as [r|b1]; [done|]. simpl.
    destruct (file_hash_ok b1) eqn:E1; [intros [= <- <-]; done|done].
Qed.

End LoadingLaws.

(** With a fetch that returns a file with the right hash, loading the
    class index succeeds from any state. *)
Lemma load_class_index_succeeds `{ClassIndexCodecLaws} b s :
  file_hash_ok b = true -> exists s' ci, load_class_index (inr b) s = (s', inr ci).
Proof.
  intros Hb. destruct (CLASS_INDEX s) as [ci|] eqn:Hc.
  { exists s, ci. by apply load_class_index_cached. }
  rewrite (load_class_index_empty _ _ Hc), get_file_run.
  destruct (valid_file s) as [b'|] eqn:Hv.
  - assert (Hb' : file_hash_ok b' = true).
    { unfold valid_file in Hv. destruct (class_index_file s) as [b0|]; [|done].
      destruct (file_hash_ok b0) eqn:E; [by injection Hv as <-|done]. }
    destruct (hash_ok_parses b' Hb') as [ci Hci]. rewrite Hci. eauto.
  - rewrite download_run, Hb. destruct (hash_ok_parses b Hb) as [ci Hci]. rewrite Hci. eauto.
Qed.

Section Claims.
Context `{ClassIndexCodec}.

(** A successful load leaves the index it returns in [CLASS_INDEX]. *)
Lemma load_class_index_sets origin s s' ci :
  load_class_index origin s = (s', inr ci) -> CLASS_INDEX s' = Some ci.
Proof.
  destruct (CLASS_INDEX s) as [ci0|] eqn:Ec.
  { rewrite (load_class_index_cached _ _ ci0 Ec). by intros [= <- <-]. }
  rewrite (load_class_index_empty _ _ Ec).
  destruct (get_file origin s) as [s1 [e|b]]; [done|].
  destruct (json_load b); [done|]. by intros [= <- <-].
Qed.

(** Cache invariant: loading the class index keeps [cache_consistent],
    and a successful load leaves the returned index in [CLASS_INDEX]. *)
Lemma load_class_index_preserves origin s :
  cache_consistent s ->
  cache_consistent (load_class_index origin s).1 /\
  forall s' ci, load_class_index origin s = (s', inr ci) -> CLASS_INDEX s' = Some ci.
Proof.
  intros Hinv. destruct (CLASS_INDEX s) as [ci0|] eqn:Ec.
  { rewrite (load_class_index_cached _ _ ci0 Ec). split; [done|]. intros s' ci [= <- <-]. done. }
  rewrite (load_class_index_empty _ _ Ec).
  destruct (get_file origin s) as [s1 [e|b]] eqn:Eg.
  - split; [|done]. intros ci Hci.
    pose proof (get_file_CLASS_INDEX origin s) as Hc. rewrite Eg in Hc. simpl in *. congruence.
  - destruct (get_file_ok _ _ _ _ Eg) as [Hf Hh].
    destruct (json_load b) as [e|ci] eqn:Ej.
    + split; [|done]. intros ci Hci.
      pose proof (get_file_CLASS_INDEX origin s) as Hc. rewrite Eg in Hc. simpl in *. congruence.
    + split; [|by intros s' ci' [= <- <-]].
      intros ci' [= <-]. exists b. done.
Qed.

Lemma decode_predictions_global_run origin preds top s :
  decode_predictions_global origin preds top s =
    if preds_shape_ok preds then
      match load_class_index origin s with
      | (s', inl e) => (s', inl e)
      | (s', inr ci) => (s', decode_predictions np_argsort ci preds top)
      end
    else (s, inl decode_shape_error).
Proof.
  unfold decode_predictions_global, decode_predictions.
  destruct (preds_shape_ok preds); [|done].
  rewrite pyst_bind_run. by destruct (load_class_index origin s) as [s' [e|ci]].
Qed.

(** [decode_predictions] checks the shape of its argument before it
    touches [CLASS_INDEX]: on a well-shaped array it loads the index and
    then computes exactly the stateless [decode_predictions] of the
    loaded index; on any other array it raises [ValueError] leaving the
    state as it was, without fetching anything. *)
Theorem decode_predictions_global_spec origin preds top s :
  decode_predictions_global origin preds top s =
    if preds_shape_ok preds then
      match load_class_index origin s with
      | (s', inl e) => (s', inl e)
      | (s', inr ci) => (s', decode_predictions np_argsort ci preds top)
      end
    else (s, inl decode_shape_error).
Proof. apply decode_predictions_global_run. Qed.

Lemma load_class_index_offline_eq origin1 origin2 s :
  is_Some (CLASS_INDEX s) \/ is_Some (valid_file s) ->
  load_class_index origin1 s = load_class_index origin2 s.
Proof.
  intros [[ci Hc]|[b Hv]].
  - by rewrite !(load_class_index_cached _ _ ci Hc).
  - destruct (CLASS_INDEX s) as [ci|] eqn:Hc.
    + by rewrite !(load_class_index_cached _ _ ci Hc).
    + by rewrite !(load_class_index_empty _ _ Hc), !get_file_run, Hv.
Qed.

(** C23: once [CLASS_INDEX] is filled, or a file with the right hash is in
    [~/.keras/models], loading the class index does not depend on the
    network: any two fetch outcomes give the same result and state. *)
Theorem load_class_index_offline origin1 origin2 s :
  is_Some (CLASS_INDEX s) \/ is_Some (valid_file s) ->
  load_class_index origin1 s = load_class_index origin2 s.
Proof. apply load_class_index_offline_eq. Qed.

Lemma load_class_index_fetch_failure_eq reason s :
  CLASS_INDEX s = None -> valid_file s = None ->
  load_class_index (inl reason) s =
    ({| CLASS_INDEX := None; class_index_file := None |},
     inl (Exception ("URL fetch failure on " +:+ CLASS_INDEX_PATH +:+ ": " +:+ reason))).
Proof.
  intros Hc Hv. rewrite (load_class_index_empty _ _ Hc), get_file_run, Hv, download_run.
  unfold set_class_index_file. by rewrite Hc.
Qed.

(** C24: with no index loaded, no valid file on disk and the fetch failing,
    loading raises [Exception("URL fetch failure on ...")], removes the
    partial file and leaves [CLASS_INDEX] empty, so that the next call
    tries again. *)
Theorem load_class_index_fetch_failure reason s :
  CLASS_INDEX s = None -> valid_file s = None ->
  load_class_index (inl reason) s =
    ({| CLASS_INDEX := None; class_index_file := None |},
     inl (Exception ("URL fetch failure on " +:+ CLASS_INDEX_PATH +:+ ": " +:+ reason))).
Proof. apply load_class_index_fetch_failure_eq. Qed.

(** C25: a fetched file whose md5 does not match is rejected with
    [ValueError] but stays on disk, and [CLASS_INDEX] stays empty. *)
Theorem load_class_index_hash_mismatch b s :
  CLASS_INDEX s = None -> valid_file s = None -> file_hash_ok b = false ->
  load_class_index (inr b) s =
    ({| CLASS_INDEX := None; class_index_file := Some b |}, inl hash_mismatch).
Proof.
  intros Hc Hv Hh. rewrite (load_class_index_empty _ _ Hc), get_file_run, Hv, download_run, Hh.
  unfold set_class_index_file. by rewrite Hc.
Qed.

End Claims.

(** ** A concrete codec

    The class index file is the bytes [index_json]; its hash is the only
    one that matches and it parses to the 1000-class index of
    [Decode.Example]. *)
Module Example.
Import Decode.Example.

Definition index_json : list byte := [x7b; x22; x30; x22; x3a; x5b; x5d; x7d].

#[export] Instance codec : ClassIndexCodec := {|
  file_hash_ok b := bool_decide (b = index_json);
  json_load b :=
    if bool_decide (b = index_json) then inr class_index
    else inl (ValueError "Expecting value: line 1 column 1 (char 0)");
|}.

#[export] Instance codec_laws : ClassIndexCodecLaws.
Proof.
  split; cbn [file_hash_ok json_load codec]; intros b.
  - intros Hb. rewrite Hb. eauto.
  - intros b2 H1 H2. by rewrite H1, H2.
Qed.

(** A corrupted download: the first bytes of the file only. *)
Definition truncated_json : list byte := [x7b; x22; x30].

(** A fresh process without the file fetches it and parses it.  (The
    index is not normalised: it is the parse of the bytes by rewriting.) *)
Lemma load_fresh :
  load_class_index (inr index_json) (fresh_process None) =
    ({| CLASS_INDEX := Some class_index; class_index_file := Some index_json |}, inr class_index).
Proof.
  rewrite (load_class_index_empty _ (fresh_process None) eq_refl), get_file_run, download_run.
  assert (Hh : file_hash_ok index_json = true) by (vm_compute; reflexivity).
  assert (Hj : json_load index_json = inr class_index).
  { cbn [json_load codec]. by rewrite bool_decide_true. }
  rewrite Hh. cbn -[json_load class_index]. rewrite Hj. reflexivity.
Qed.

End Example.

Module Witnesses.
Import Decode.Example Example.

Lemma load_class_index_offline_witness :
  (is_Some (CLASS_INDEX (fresh_process (Some index_json))) \/
   is_Some (valid_file (fresh_process (Some index_json)))) /\
  load_class_index (inl "404 -- Not Found") (fresh_process (Some index_json)) =
  load_class_index (inr truncated_json) (fresh_process (Some index_json)).
Proof.
  assert (H : is_Some (CLASS_INDEX (fresh_process (Some index_json))) \/
              is_Some (valid_file (fresh_process (Some index_json))))
    by (right; eexists; vm_compute; reflexivity).
  split; [exact H|]. exact (load_class_index_offline _ _ _ H).
Defined.

Lemma load_class_index_fetch_failure_witness :
  CLASS_INDEX (fresh_process (Some truncated_json)) = None /\
  valid_file (fresh_process (Some truncated_json)) = None /\
  load_class_index (inl "None -- [Errno -3] Temporary failure in name resolution")
    (fresh_process (Some truncated_json)) =
    ({| CLASS_INDEX := None; class_index_file := None |},
     inl (Exception ("URL fetch failure on " +:+ CLASS_INDEX_PATH +:+ ": " +:+
                     "None -- [Errno -3] Temporary failure in name resolution"))).
Proof.
  assert (Hv : valid_file (fresh_process (Some truncated_json)) = None) by (vm_compute; reflexivity).
  split_and!; [reflexivity|exact Hv|]. exact (load_class_index_fetch_failure _ (fresh_process (Some truncated_json)) eq_refl Hv).
Defined.

Lemma load_class_index_hash_mismatch_witness :
  CLASS_INDEX (fresh_process None) = None /\ valid_file (fresh_process None) = None /\
  file_hash_ok truncated_json = false /\
  load_class_index (inr truncated_json) (fresh_process None) =
    ({| CLASS_INDEX := None; class_index_file := Some truncated_json |}, inl hash_mismatch).
Proof.
  assert (Hh : file_hash_ok truncated_json = false) by (vm_compute; reflexivity).
  split_and!; [reflexivity|reflexivity|exact Hh|].
  exact (load_class_index_hash_mismatch _ (fresh_process None) eq_refl eq_refl Hh).
Defined.

End Witnesses.
