(* ===== verification/Threads.v ===== *)
(** * Threads loading the class index

    Django's development server ([runserver]) handles each request in a
    thread of one process, so two requests can run [decode_predictions]
    at once and share its [KerasState].  Python runs one thread at a
    time (the GIL) and switches between them; this file cuts the loading
    of [CLASS_INDEX] into the steps between which a switch can happen:
<<
    if CLASS_INDEX is None:                          Start
        fpath = get_file(...)
            if os.path.exists(fpath) and validate:   CheckFile
            urlretrieve(origin, fpath) / os.remove   Download
            if os.path.exists(fpath) and validate:   Validate
        with open(fpath) as f: json.load(f)          Open
        CLASS_INDEX = ...                            Assign
>>
    [validate_file] and [open] read the file from disk again: another
    thread may have replaced or removed it in between.  A thread is its
    phase and the fetch its [urlretrieve] meets; a pool of threads steps
    by letting any one of them take its next step ([pool_step]).

    The file proves that a thread running alone computes exactly the
    sequential [load_class_index] (in at most six steps), that with
    downloads that are either failures or the genuine file every
    interleaving keeps [CLASS_INDEX] genuine and makes all threads
    return the same index, and that one corrupted download is enough for
    an interleaving to install an index that never passed the md5 check:
    the check reads the file, [open] reads it again.  A failed download
    elsewhere can likewise remove the file under a thread that validated
    it. *)

From S2P Require Import Prelude Decode ClassIndex.
From stdpp Require Import gmap relations.
From Stdlib Require Import Init.Byte.
Local Open Scope nat_scope.

(** Where a thread is in the loading of the class index. *)
Inductive Phase :=
| Start
| CheckFile
| Download
| Validate
| Open
| Assign (ci : ClassIndex)
| Done (r : py ClassIndex).

(** A thread: its phase and what [urlretrieve] gives it. *)
Record Thread := { th_origin : Fetch; th_phase : Phase }.

Definition with_phase (th : Thread) (p : Phase) : Thread :=
  {| th_origin := th_origin th; th_phase := p |}.

(** What [open(fpath)] raises once the file is gone. *)
Definition file_not_found : PyExc := OSError "[Errno 2] No such file or directory".

Section Steps.
Context `{ClassIndexCodec}.

(** The next step of a thread, in the shared state; [None] once done. *)
Definition thread_step (th : Thread) (s : KerasState) : option (Thread * KerasState) :=
  match th_phase th with
  | Start =>
      match CLASS_INDEX s with
      | Some ci => Some (with_phase th (Done (inr ci)), s)
      | None => Some (with_phase th CheckFile, s)
      end
  | CheckFile =>
      match valid_file s with
      | Some _ => Some (with_phase th Open, s)
      | None => Some (with_phase th Download, s)
      end
  | Download =>
      match th_origin th with
      | inl reason =>
          Some (with_phase th (Done (inl (Exception ("URL fetch failure on " +:+
                  CLASS_INDEX_PATH +:+ ": " +:+ reason)))),
                set_class_index_file None s)
      | inr b => Some (with_phase th Validate, set_class_index_file (Some b) s)
      end
  | Validate =>
      match class_index_file s with
      | Some b => if file_hash_ok b then Some (with_phase th Open, s)
                  else Some (with_phase th (Done (inl hash_mismatch)), s)
      | None => Some (with_phase th Open, s)
      end
  | Open =>
      match class_index_file s with
      | Some b =>
          match json_load b with
          | inr ci => Some (with_phase th (Assign ci), s)
          | inl e => Some (with_phase th (Done (inl e)), s)
          end
      | None => Some (with_phase th (Done (inl file_not_found)), s)
      end
  | Assign ci => Some (with_phase th (Done (inr ci)), set_CLASS_INDEX ci s)
  | Done _ => None
  end.

(** One thread of the pool takes a step. *)
Inductive pool_step : list Thread * KerasState -> list Thread * KerasState -> Prop :=
| pool_step_thread tp s i th th' s' :
    tp !! i = Some th -> thread_step th s = Some (th', s') ->
    pool_step (tp, s) (<[i := th']> tp, s').

(** A thread running alone, for at most [fuel] steps. *)
Fixpoint run_solo (fuel : nat) (th : Thread) (s : KerasState) : Thread * KerasState :=
  match fuel with
  | O => (th, s)
  | S fuel =>
      match thread_step th s with
      | Some (th', s') => run_solo fuel th' s'
      | None => (th, s)
      end
  end.

(** An interleaving written out: the threads of [sched], by index, each
    take one step; [None] if one of them is missing or done. *)
Fixpoint run_schedule (sched : list nat) (c : list Thread * KerasState)
    : option (list Thread * KerasState) :=
  match sched with
  | [] => Some c
  | i :: sched =>
      match c.1 !! i with
      | Some th =>
          match thread_step th c.2 with
          | Some (th', s') => run_schedule sched (<[i := th']> c.1, s')
          | None => None
          end
      | None => None
      end
  end.

End Steps.

Arguments thread_step {_} !th s /.

(** An index that is the parse of a file whose md5 matches. *)
Definition genuine `{ClassIndexCodec} (ci : ClassIndex) : Prop :=
  exists b, file_hash_ok b = true /\ json_load b = inr ci.

(** A fetch that fails or returns a file whose md5 matches. *)
Definition sound_fetch `{ClassIndexCodec} (o : Fetch) : Prop :=
  match o with inl _ => True | inr b => file_hash_ok b = true end.

(** The file on disk, if any, has the right hash. *)
Definition file_ok `{ClassIndexCodec} (s : KerasState) : Prop :=
  match class_index_file s with Some b => file_hash_ok b = true | None => True end.

(** What holds of a thread in state [s]. *)
Definition thread_inv `{ClassIndexCodec} (s : KerasState) (th : Thread) : Prop :=
  sound_fetch (th_origin th) /\
  match th_phase th with
  | Open => file_ok s
  | Assign ci => genuine ci
  | Done (inr ci) => genuine ci /\ is_Some (CLASS_INDEX s)
  | _ => True
  end.

(** The invariant of a pool: the global is empty or genuine, and every
    thread satisfies [thread_inv]. *)
Definition pool_inv `{ClassIndexCodec} (c : list Thread * KerasState) : Prop :=
  (forall ci, CLASS_INDEX c.2 = Some ci -> genuine ci) /\ Forall (thread_inv c.2) c.1.

(** ** A thread alone *)

Section Solo.
Context `{ClassIndexCodec}.

(** A thread running alone terminates within six steps with exactly
    the result and the state of the sequential [load_class_index]: the
    step-by-step model refines the one the view runs with. *)
Theorem thread_solo_refines origin s :
  run_solo 6 {| th_origin := origin; th_phase := Start |} s =
    ({| th_origin := origin; th_phase := Done (load_class_index origin s).2 |},
     (load_class_index origin s).1).
Proof.
  destruct (CLASS_INDEX s) as [ci|] eqn:Hc.
  { rewrite (load_class_index_cached _ _ ci Hc). simpl. by rewrite Hc. }
  rewrite (load_class_index_empty _ _ Hc), get_file_run. simpl. rewrite Hc. simpl.
  destruct (valid_file s) as [b|] eqn:Hv; simpl.
  - unfold valid_file in Hv. destruct (class_index_file s) as [b0|]; [|done].
    destruct (file_hash_ok b0); simplify_eq/=. by destruct (json_load b); simpl.
  - rewrite download_run. destruct origin as [r|b]; simpl; [done|].
    destruct (file_hash_ok b); simpl; [|done]. by destruct (json_load b); simpl.
Qed.

End Solo.

(** ** Any interleaving, with sound downloads *)

Section Interleaving.
Context `{ClassIndexCodecLaws}.

Lemma genuine_unique ci1 ci2 : genuine ci1 -> genuine ci2 -> ci1 = ci2.
Proof.
  intros (b1 & H1 & E1) (b2 & H2 & E2).
  pose proof (hash_ok_same b1 b2 H1 H2) as E. rewrite E1, E2 in E. by injection E.
Qed.

(** Only [Assign] writes the global. *)
Lemma thread_step_global th s th' s' :
  thread_step th s = Some (th', s') ->
  CLASS_INDEX s' = match th_phase th with Assign ci => Some ci | _ => CLASS_INDEX s end.
Proof. unfold thread_step. intros Hst. by destruct (th_phase th); repeat case_match; simplify_eq. Qed.

Lemma thread_step_is_Some th s th' s' :
  thread_step th s = Some (th', s') -> is_Some (CLASS_INDEX s) -> is_Some (CLASS_INDEX s').
Proof. intros Hst. rewrite (thread_step_global _ _ _ _ Hst). by case_match. Qed.

Lemma run_schedule_rtc sched c c' :
  run_schedule sched c = Some c' -> rtc pool_step c c'.
Proof.
  revert c. induction sched as [|i sched IH]; intros [tp s]; simpl; [by intros [= ->]|].
  destruct (tp !! i) as [th|] eqn:Hi; [|done].
  destruct (thread_step th s) as [[th' s']|] eqn:Hst; [|done].
  intros Hr. eapply rtc_l; [by econstructor|]. by apply IH.
Qed.

(** A step of one thread keeps the invariant of every other thread: only
    [Download] changes the file, to one with the right hash or to none,
    and only [Assign] changes the global, to a filled one. *)
Lemma thread_inv_other th th' s s' th2 :
  thread_inv s th -> thread_step th s = Some (th', s') -> thread_inv s th2 -> thread_inv s' th2.
Proof.
  intros [Hso _] Hst [Hso2 Hp2]. split; [done|].
  pose proof (thread_step_is_Some _ _ _ _ Hst) as Hs.
  destruct th2 as [o2 p2]; simpl in *; destruct p2 as [| | | | | |[]]; try done; [|naive_solver].
  unfold thread_step in Hst.
  by destruct (th_phase th); repeat case_match; simplify_eq.
Qed.

(** A thread keeps its origin. *)
Lemma thread_step_origin th s th' s' :
  thread_step th s = Some (th', s') -> th_origin th' = th_origin th.
Proof. unfold thread_step. intros Hst. by destruct (th_phase th); repeat case_match; simplify_eq. Qed.

(** The stepping thread keeps its own invariant. *)
Lemma thread_inv_self th th' s s' :
  (forall ci, CLASS_INDEX s = Some ci -> genuine ci) ->
  thread_inv s th -> thread_step th s = Some (th', s') -> thread_inv s' th'.
Proof.
  intros Hg [Hso Hp] Hst. split; [by rewrite (thread_step_origin _ _ _ _ Hst)|].
  unfold thread_step in Hst. unfold sound_fetch in Hso.
  destruct (th_phase th) eqn:Ep; repeat case_match; simplify_eq/=; try done;
    unfold file_ok, valid_file, genuine in *; simpl in *; repeat case_match; simplify_eq; eauto.
Qed.

Lemma pool_step_inv c c' : pool_inv c -> pool_step c c' -> pool_inv c'.
Proof.
  intros [Hg Hth] Hst. destruct Hst as [tp s i th th' s' Hi Hst]; simpl in *.
  pose proof (proj1 (Forall_lookup _ _) Hth i th Hi) as Hthi. split; simpl.
  - intros ci. rewrite (thread_step_global _ _ _ _ Hst). destruct (th_phase th) eqn:Ep; auto.
    intros [= <-]. destruct Hthi as [_ Hp]. by rewrite Ep in Hp.
  - apply Forall_insert; [|by eapply thread_inv_self].
    eapply Forall_impl; [done|]. intros th2. by apply (thread_inv_other th th' s s'). 
Qed.

Lemma rtc_pool_inv c c' : pool_inv c -> rtc pool_step c c' -> pool_inv c'.
Proof. intros Hc Hr. induction Hr; eauto using pool_step_inv. Qed.

(** C13: with [urlretrieve] failing or returning the file whose md5 matches,
    whatever the interleaving of threads that start loading together in
    a process whose [CLASS_INDEX] is empty, every thread that returns an
    index returns the same one, the parse of a file that passed the md5
    check, and it is the one left in [CLASS_INDEX]. *)
Theorem threads_agree tp s tp' s' i j ci cj :
  Forall (fun th => th_phase th = Start /\ sound_fetch (th_origin th)) tp ->
  CLASS_INDEX s = None ->
  rtc pool_step (tp, s) (tp', s') ->
  th_phase <$> tp' !! i = Some (Done (inr ci)) ->
  th_phase <$> tp' !! j = Some (Done (inr cj)) ->
  ci = cj /\ genuine ci /\ CLASS_INDEX s' = Some ci.
Proof.
  intros Hinit Hc Hr Hi Hj.
  assert (Hinv : pool_inv (tp', s')).
  { eapply rtc_pool_inv; [|exact Hr]. split; [simpl; by rewrite Hc|].
    eapply Forall_impl; [done|]. intros th [Hp Hs]. split; [done|]. by rewrite Hp. }
  destruct Hinv as [Hg Hth]; simpl in *.
  destruct (tp' !! i) as [thi|] eqn:Ei, (tp' !! j) as [thj|] eqn:Ej; simplify_eq/=.
  destruct (proj1 (Forall_lookup _ _) Hth i thi Ei) as [_ Hpi].
  destruct (proj1 (Forall_lookup _ _) Hth j thj Ej) as [_ Hpj].
  rewrite Hi in Hpi. rewrite Hj in Hpj.
  destruct Hpi as [Gi [c Hcs]], Hpj as [Gj _].
  pose proof (genuine_unique _ _ Gi (Hg c Hcs)) as <-.
  split_and!; [by apply genuine_unique|done|done].
Qed.

End Interleaving.

(** ** Two threads and a corrupted download *)

Module Example.
Import Decode.Example.

(** The published index and what a captive portal or proxy may answer
    in its place: [{}], valid JSON that is not the index. *)
Definition index_json : list byte := ClassIndex.Example.index_json.
Definition proxy_json : list byte := [x7b; x7d].

#[export] Instance codec : ClassIndexCodec := {|
  file_hash_ok b := bool_decide (b = index_json);
  json_load b :=
    if bool_decide (b = index_json) then inr small_index
    else if bool_decide (b = proxy_json) then inr ∅
    else inl (ValueError "Expecting value: line 1 column 1 (char 0)");
|}.

#[export] Instance codec_laws : ClassIndexCodecLaws.
Proof.
  split; cbn [file_hash_ok json_load codec]; intros b.
  - intros Hb. rewrite Hb. eauto.
  - intros b2 H1 H2. by rewrite H1, H2.
Qed.

Definition thread (o : Fetch) : Thread := {| th_origin := o; th_phase := Start |}.

(** Thread 0 downloads the index, thread 1 gets the proxy's answer. *)
Definition race_init : list Thread * KerasState :=
  ([thread (inr index_json); thread (inr proxy_json)], fresh_process None).

(** Thread 1 reaches its download; thread 0 downloads and validates the
    index; thread 1's download overwrites the file; thread 0 opens it. *)
Definition race_schedule : list nat := [1; 1; 0; 0; 0; 0; 1; 0; 0; 1].

(** Thread 0 loads the index alone; a thread whose download would fail
    then finds [CLASS_INDEX] filled. *)
Definition agree_init : list Thread * KerasState :=
  ([thread (inr index_json); thread (inl "timed out")], fresh_process None).

Definition agree_schedule : list nat := [0; 0; 0; 0; 0; 0; 1].

Definition agree_final : list Thread * KerasState :=
  Eval vm_compute in default agree_init (run_schedule agree_schedule agree_init).

Definition race_final : list Thread * KerasState :=
  Eval vm_compute in default race_init (run_schedule race_schedule race_init).

(** [{}] is no index that passed the md5 check. *)
Lemma proxy_not_genuine : ~ genuine ∅.
Proof.
  intros (b & Hb & Hj). cbn [file_hash_ok codec] in Hb.
  apply bool_decide_eq_true_1 in Hb as ->. by vm_compute in Hj.
Qed.

(** C12: the md5 check does not protect [CLASS_INDEX] from a second
    thread: while one thread validates the downloaded index, another
    thread's download of [{}] replaces the file, and the first thread
    opens that file, installs [{}] as [CLASS_INDEX] and returns it
    without error; the second thread raises the hash mismatch, and every
    later [decode_predictions] of the process raises [KeyError]. *)
Theorem threads_race_unverified_index :
  exists tp s, rtc pool_step race_init (tp, s) /\
    th_phase <$> tp !! 0 = Some (Done (inr ∅)) /\
    th_phase <$> tp !! 1 = Some (Done (inl hash_mismatch)) /\
    CLASS_INDEX s = Some ∅ /\ ~ genuine ∅ /\
    decode_predictions np_argsort ∅ batch 5 = inl (KeyError "999").
Proof.
  exists race_final.1, race_final.2. split_and!; [|by vm_compute..|exact proxy_not_genuine|].
  - apply (run_schedule_rtc race_schedule). by vm_compute.
  - by vm_compute.
Qed.


(** Thread 0 downloads the index, thread 1's [urlretrieve] fails. *)
Definition fetch_init : list Thread * KerasState :=
  ([thread (inr index_json); thread (inl "timed out")], fresh_process None).

(** Thread 1 reaches its download; thread 0 downloads and validates the
    index; thread 1's failure removes the file; thread 0 opens it. *)
Definition fetch_schedule : list nat := [1; 1; 0; 0; 0; 0; 1; 0].

Definition fetch_final : list Thread * KerasState :=
  Eval vm_compute in default fetch_init (run_schedule fetch_schedule fetch_init).

(** C14: a failed download in one thread makes another thread fail although
    its own download succeeded and passed the md5 check: the failing
    [get_file] removes the file ([os.remove(fpath)]) between the other
    thread's [validate_file] and its [open], which raises
    [FileNotFoundError]; [CLASS_INDEX] stays empty and the file is gone.
    Run alone, the same thread loads the index. *)
Theorem threads_failed_fetch_removes_file :
  exists tp s, rtc pool_step fetch_init (tp, s) /\
    th_phase <$> tp !! 0 = Some (Done (inl file_not_found)) /\
    CLASS_INDEX s = None /\ class_index_file s = None /\
    th_phase (run_solo 6 (thread (inr index_json)) (fresh_process None)).1 = Done (inr small_index).
Proof.
  exists fetch_final.1, fetch_final.2. split_and!; [|by vm_compute..].
  apply (run_schedule_rtc fetch_schedule). by vm_compute.
Qed.
End Example.

Module Witnesses.
Import Decode.Example Example.

Lemma threads_agree_witness :
  small_index = small_index /\ genuine small_index /\ CLASS_INDEX agree_final.2 = Some small_index.
Proof.
  apply (threads_agree agree_init.1 agree_init.2 agree_final.1 agree_final.2 0 1).
  - repeat constructor.
  - reflexivity.
  - apply (run_schedule_rtc agree_schedule). vm_compute. reflexivity.
  - vm_compute. reflexivity.
  - vm_compute. reflexivity.
Defined.

End Witnesses.
