(* ===== verification/OsPath.v ===== *)
(** * [os.path.join] and the model path

    The view computes
    [model_path = os.path.join(settings.BASE_DIR, 'prediction', 'models', 'vgg16.h5')].
    On POSIX [os.path.join] is [posixpath.join]: a component that starts
    with ["/"] restarts the path, a separator is inserted unless the path so
    far is empty or already ends with one. *)

From S2P Require Import Prelude.
From Stdlib Require Import Ascii.
Local Open Scope string_scope.

(** The last character of a string ([s[-1]]). *)
Definition str_last (s : string) : option ascii := last (String.list_ascii_of_string s).

(** [path.endswith('/')]. *)
Definition ends_with_sep (s : string) : bool := bool_decide (str_last s = Some "/"%char).

(** [b.startswith('/')]. *)
Definition starts_with_sep (s : string) : bool :=
  match s with
  | String c _ => bool_decide (c = "/"%char)
  | EmptyString => false
  end.

(** One iteration of the loop of [posixpath.join]. *)
Definition join_step (path b : string) : string :=
  if starts_with_sep b then b
  else if bool_decide (path = "") || ends_with_sep path then path ++ b
  else path ++ "/" ++ b.

(** [posixpath.join(a, *p)]. *)
Definition join (a : string) (p : list string) : string := foldl join_step a p.

(** The components of the path of the model file. *)
Definition model_path_components : list string := ["prediction"; "models"; "vgg16.h5"].

(** [os.path.join(settings.BASE_DIR, 'prediction', 'models', 'vgg16.h5')]. *)
Definition model_path (base_dir : string) : string := join base_dir model_path_components.

(** ** Lemmas *)

Lemma str_app_assoc (s t u : string) :
  String.append s (String.append t u) = String.append (String.append s t) u.
Proof.
  induction s as [|c s IH]; [reflexivity|].
  change (String c (String.append s (String.append t u)) =
          String c (String.append (String.append s t) u)). by rewrite IH.
Qed.

Lemma list_ascii_of_string_app s t :
  String.list_ascii_of_string (s ++ t) =
    (String.list_ascii_of_string s ++ String.list_ascii_of_string t)%list.
Proof.
  induction s as [|c s IH]; [reflexivity|].
  change (c :: String.list_ascii_of_string (String.append s t) =
          c :: (String.list_ascii_of_string s ++ String.list_ascii_of_string t))%list.
  by rewrite IH.
Qed.

Lemma str_last_app s t :
  str_last (s ++ t) = match str_last t with Some c => Some c | None => str_last s end.
Proof. unfold str_last. by rewrite list_ascii_of_string_app, last_app. Qed.

(** Appending a component that does not start with a separator to a
    non-empty path that does not end with one inserts a separator; the
    result ends with the component's last character. *)
Lemma join_step_sep path b :
  path <> "" -> ends_with_sep path = false -> starts_with_sep b = false ->
  join_step path b = path ++ "/" ++ b.
Proof.
  intros Hp He Hs. unfold join_step. rewrite Hs, He, bool_decide_false by done. done.
Qed.

Lemma ends_with_sep_app path b :
  str_last b <> None -> ends_with_sep (path ++ b) = ends_with_sep b.
Proof.
  intros Hb. unfold ends_with_sep. rewrite str_last_app.
  by destruct (str_last b).
Qed.

(** for a non-empty [BASE_DIR] without a trailing
    separator (a resolved [pathlib.Path]), the model is looked up at
    [BASE_DIR + "/prediction/models/vgg16.h5"]. *)
Theorem model_path_spec base :
  base <> "" -> ends_with_sep base = false ->
  model_path base = base ++ "/prediction/models/vgg16.h5".
Proof.
  intros Hb He. unfold model_path, join, model_path_components. simpl.
  rewrite (join_step_sep base "prediction") by done.
  rewrite (join_step_sep _ "models"); [| by destruct base | by rewrite !ends_with_sep_app | done].
  rewrite (join_step_sep _ "vgg16.h5"); [| by destruct base | by rewrite !ends_with_sep_app | done].
  by rewrite <- !str_app_assoc.
Qed.

Module Witnesses.

Lemma model_path_spec_witness :
  "/srv/photoidentify" <> "" /\ ends_with_sep "/srv/photoidentify" = false /\
  model_path "/srv/photoidentify" = "/srv/photoidentify" +:+ "/prediction/models/vgg16.h5".
Proof.
  assert (H1 : "/srv/photoidentify" <> "") by discriminate.
  assert (H2 : ends_with_sep "/srv/photoidentify" = false) by (vm_compute; reflexivity).
  split_and!; [exact H1|exact H2|exact (model_path_spec _ H1 H2)].
Defined.

End Witnesses.
