(* ===== verification/Views.v ===== *)
(** * [prediction/views.py]: the view [predict]

    [predict(request)] dispatches on [request.method]: ["GET"] renders
    ["home.html"] with an unbound [ImageUploadForm]; ["POST"] binds the
    form to [request.POST] and [request.FILES]; a valid form runs the
    classification pipeline and renders the form with the top-5
    predictions and the echoed hidden field [img_data]; an invalid one is
    replaced by a fresh unbound form.  Any other method reaches the end of
    the function, which returns [None].  Exceptions of the libraries are
    not caught and propagate out of the view.

    The view's environment is explicit: [settings.BASE_DIR], the files on
    disk (where [load_model] finds the model), what the network answers
    for the class index of [decode_predictions], and the libraries'
    interfaces ([Pillow], [Keras], [ClassIndexCodec]).  The view runs in
    the state-and-exception monad over [KerasState], the state Keras keeps
    in the process ([CLASS_INDEX] and its cached file): the result is the
    state after the call and an exception or the value the function
    returns ([Some] response or [None]). *)

From S2P Require Import Prelude Http Tensor Pillow Forms Imaging Preprocess Decode ClassIndex OsPath.
From stdpp Require Import gmap pretty.
From Stdlib Require Import QArith Init.Byte.
Local Open Scope nat_scope.

(** ** The Keras model interface *)

(** A loaded model and what the view does with it: [load_model] parses
    the file's bytes, [model.predict(x)] runs the network. *)
Class Keras := {
  keras_model : Type;
  keras_load : list byte -> py keras_model;
  keras_predict : keras_model -> ndarray -> py ndarray;
}.

(** ** The environment of a request *)

Record Env := {
  BASE_DIR : string;
  disk : gmap string (list byte);
  (** What fetching [CLASS_INDEX_PATH] gives, were the view to fetch it. *)
  network : Fetch;
}.

(** [tensorflow.keras.models.load_model(filepath)]: [OSError] when no file
    is at the path. *)
Definition load_model `{Keras} (env : Env) (filepath : string) : py keras_model :=
  match disk env !! filepath with
  | Some content => keras_load content
  | None => inl (OSError ("No file or directory found at " +:+ filepath))
  end.

(** ** Rendered context *)

Inductive CtxVal :=
| CForm (f : Form)
| CPrediction (p : list Prediction)
| CImgData (d : option string).

Abbreviation Response := (HttpResponse CtxVal).

Definition home_html : string := "home.html".

(** What [home.html] reads from its context: ["form"] a form,
    ["prediction"] a list of predictions, ["img_data"] the optional
    string of the hidden field. *)
Definition ctx_key_ok (k : string) (v : CtxVal) : bool :=
  match v with
  | CForm _ => bool_decide (k = "form")
  | CPrediction _ => bool_decide (k = "prediction")
  | CImgData _ => bool_decide (k = "img_data")
  end.

(** A context [home.html] can render: every key once, each with a value
    of its kind, and the form always there. *)
Definition ctx_well_typed (ctx : list (string * CtxVal)) : Prop :=
  NoDup ctx.*1 /\ Forall (fun kv => ctx_key_ok kv.1 kv.2 = true) ctx /\ "form" ∈ ctx.*1.

#[export] Instance ctx_well_typed_dec ctx : Decision (ctx_well_typed ctx) := _.

Section View.
Context `{Pillow} `{Keras} `{ClassIndexCodec}.

(** Lines 51-61: [BytesIO(img_file.read())], [load_img(..., target_size =
    (224, 224))], [img_to_array], [reshape((1, 224, 224, 3))],
    [preprocess_input]. *)
Definition prepare_image (img_file : UploadedFile) : py ndarray :=
  let img_file := uf_read img_file in
  img <- load_img img_file RGB (Some (224, 224)) ;;
  img_array <- img_to_array img ;;
  img_array <- Tensor.reshape img_array [1; 224; 224; 3] ;;
  preprocess_input img_array.

(** Lines 66-75: the model path, [load_model], [model.predict] and
    [decode_predictions(result, top = 5)[0]]. *)
Definition classify (env : Env) (img_array : ndarray) : pyst KerasState (list Prediction) :=
  let model_path := model_path (BASE_DIR env) in
  model ← lift (load_model env model_path);
  result ← lift (keras_predict model img_array);
  preds ← decode_predictions_global (network env) result 5;
  lift (match preds !! 0 with
        | Some prediction => inr prediction
        | None => inl (IndexError "list index out of range")
        end).

(** Lines 47-84: the branch of a valid form. *)
Definition predict_valid (env : Env) (request : HttpRequest) (form : Form)
    : pyst KerasState Response :=
  img_file ← lift (cleaned_lookup form "image");
  img_file ← lift (match img_file with
                   | Some f => inr f
                   | None => inl (AttributeError "'NoneType' object has no attribute 'read'")
                   end);
  img_array ← lift (prepare_image img_file);
  prediction ← classify env img_array;
  let img_data := MultiValueDict.get (req_POST request) "img_data" in
  mret (render request home_html
         [("form", CForm form); ("prediction", CPrediction prediction);
          ("img_data", CImgData img_data)]).

(** Lines 27-38: the GET branch, [ImageUploadForm()] rendered. *)
Definition predict_get_response (request : HttpRequest) : Response :=
  let form := ImageUploadForm None None in
  render request home_html [("form", CForm form)].

(** Lines 41-89: the POST branch; an invalid form is replaced by a new
    unbound one (lines 87-89). *)
Definition predict_post (env : Env) (request : HttpRequest) : pyst KerasState Response :=
  let form := ImageUploadForm (Some (req_POST request)) (Some (req_FILES request)) in
  valid ← lift (is_valid form);
  if (valid : bool) then predict_valid env request form
  else
    let form := ImageUploadForm None None in
    mret (render request home_html [("form", CForm form)]).

(** [def predict(request)], lines 25-89: the two [if]s on the method;
    past them the function ends and returns [None]. *)
Definition predict (env : Env) (request : HttpRequest) : pyst KerasState (option Response) :=
  if bool_decide (req_method request = "GET") then mret (Some (predict_get_response request))
  else if bool_decide (req_method request = "POST") then
    r ← predict_post env request; mret (Some r)
  else mret None.

End View.

(** ** The image pipeline *)

Section Pipeline.
Context `{PillowLaws}.

Lemma prepare_image_safe f im :
  pil_open (uf_read f) = inr im ->
  exists x, prepare_image f = inr x /\ shape x = [1; 224; 224; 3] /\ wf x.
Proof.
  intros Ho. unfold prepare_image.
  destruct (load_img_rgb (uf_read f) 224 224 im Ho) as (img & Hl & Hm & Hw & Hh & Hwf).
  rewrite Hl. simpl. destruct (img_to_array_rgb img Hm Hwf) as (arr & Ha & Hsh & Hawf).
  rewrite Ha. simpl. rewrite Hw, Hh in Hsh.
  assert (Hsz : Tensor.size [1; 224; 224; 3] = length (data arr))
    by (rewrite Hawf, Hsh, (size_cons 1 [224; 224; 3]), Nat.mul_1_l; reflexivity).
  rewrite reshape_ok by exact Hsz. simpl.
  set (arr' := {| shape := [1; 224; 224; 3]; data := data arr |}).
  assert (Hsh' : shape arr' = [1; 224; 224] ++ [3]) by reflexivity.
  assert (Hwf' : wf arr') by (unfold wf; cbn [shape data arr']; symmetry; exact Hsz).
  destruct (preprocess_caffe_ok [1; 224; 224] 3 _ Hsh' ltac:(lia) Hwf') as (x & Hx & Hxs & Hxw).
  exists x. rewrite Hx. split_and!; [done|by rewrite Hxs|done].
Qed.



Lemma prepare_image_open_error f e :
  pil_open (uf_read f) = inl e -> prepare_image f = inl e.
Proof. intros Ho. unfold prepare_image. by rewrite (load_img_error _ _ _ e Ho). Qed.

End Pipeline.

(** ** The view's behaviour *)

(** The same request with another method. *)
Definition with_method (request : HttpRequest) (m : string) : HttpRequest :=
  {| req_method := m; req_path := req_path request;
     req_POST := req_POST request; req_FILES := req_FILES request |}.

Section Behaviour.
Context `{PillowLaws} `{Keras} `{ClassIndexCodec}.

Lemma predict_GET_eq env request s :
  req_method request = "GET" -> predict env request s = (s, inr (Some (predict_get_response request))).
Proof. intros Hm. unfold predict. by rewrite bool_decide_true. Qed.

Lemma predict_POST_eq env request s :
  req_method request = "POST" ->
  predict env request s = (r ← predict_post env request; mret (Some r)) s.
Proof. intros Hm. unfold predict. rewrite Hm. by rewrite bool_decide_false, bool_decide_true. Qed.

Lemma predict_other_eq env request s :
  req_method request <> "GET" -> req_method request <> "POST" -> predict env request s = (s, inr None).
Proof. intros Hg Hp. unfold predict. by rewrite !bool_decide_false. Qed.

(** C2: a GET request renders ["home.html"] with an unbound,
    hence empty, upload form, and with no prediction and no image data;
    the state of the process is left as it was. *)
Theorem predict_get env request s :
  req_method request = "GET" ->
  exists r form, predict env request s = (s, inr (Some r)) /\
    resp_status r = 200 /\ resp_template r = "home.html" /\
    context_lookup r "form" = Some (CForm form) /\ is_bound form = false /\
    context_lookup r "prediction" = None /\ context_lookup r "img_data" = None.
Proof.
  intros Hm. rewrite predict_GET_eq by done. unfold predict_get_response.
  by eexists _, _; split_and!.
Qed.

(** C3: a POST whose upload is missing or fails
    validation (no file, an empty name or content, bytes Pillow does not
    verify, an unregistered extension) gets exactly the response of a
    GET, in any state: the submission is discarded. *)
Theorem predict_post_invalid env request s :
  req_method request = "POST" ->
  ~ (exists f, image_upload (req_FILES request) = Some f /\ upload_ok f) ->
  predict env request s = predict env (with_method request "GET") s.
Proof.
  intros Hm Hnot. rewrite predict_POST_eq, predict_GET_eq by done. unfold predict_post.
  st_unfold. rewrite is_valid_ImageUploadForm_eq. simpl. by rewrite bool_decide_false.
Qed.

(** C4: any method other than GET and POST (HEAD,
    PUT, DELETE, ...) falls off the end of [predict], which returns
    [None] instead of a response. *)
Theorem predict_other_method env request s :
  req_method request <> "GET" -> req_method request <> "POST" ->
  predict env request s = (s, inr None).
Proof. apply predict_other_eq. Qed.

Lemma predict_valid_upload env request f s :
  req_method request = "POST" ->
  image_upload (req_FILES request) = Some f -> upload_ok f ->
  predict env request s =
    (img_array ← lift (prepare_image f);
     prediction ← classify env img_array;
     mret (Some (render request home_html
       [("form", CForm (ImageUploadForm (Some (req_POST request)) (Some (req_FILES request))));
        ("prediction", CPrediction prediction);
        ("img_data", CImgData (MultiValueDict.get (req_POST request) "img_data"))]))) s.
Proof.
  intros Hm Hf Hok. rewrite predict_POST_eq by done. unfold predict_post, predict_valid.
  st_unfold. rewrite is_valid_ImageUploadForm_eq, bool_decide_true by eauto. simpl.
  destruct (cleaned_image_of_valid_eq (req_POST request) (req_FILES request)) as (g & Hg & _ & ->).
  { rewrite is_valid_ImageUploadForm_eq. f_equal. apply bool_decide_true. eauto. }
  rewrite Hf in Hg. injection Hg as <-. simpl.
  destruct (prepare_image f) as [e|x]; simpl; [done|].
  by destruct (classify env x s) as [s' [e|p]].
Qed.

(** The two pages the view renders. *)
Lemma predict_responses env request s s' r :
  predict env request s = (s', inr (Some r)) ->
  (exists form, r = render request home_html [("form", CForm form)]) \/
  (exists form p d, r = render request home_html
     [("form", CForm form); ("prediction", CPrediction p); ("img_data", CImgData d)]).
Proof.
  unfold predict. case_bool_decide.
  { intros [= _ <-]. left. by eexists. }
  case_bool_decide; [|by intros [=]].
  unfold predict_post, predict_valid. st_run.
  intros Hp. repeat (case_match; simplify_eq/=); eauto 10.
Qed.

(** C5: every page the view renders, in any state and on any request, is
    ["home.html"] with status 200 and a context the template can read:
    distinct keys, the form always present, each key with a value of its
    kind. *)
Theorem predict_response_typed env request s s' r :
  predict env request s = (s', inr (Some r)) ->
  resp_template r = "home.html" /\ resp_status r = 200 /\ ctx_well_typed (resp_context r).
Proof.
  intros Hp. destruct (predict_responses env request s s' r Hp) as [[form ->]|(form & p & d & ->)];
    (split_and!; [done|done|]); decide_by_compute.
Qed.

End Behaviour.

(** ** The valid branch *)

(** What the view needs of the model file: on a well-formed (1, 224, 224,
    3) input, [predict] returns a well-formed (1, 1000) array of
    probabilities (VGG16 ends with a softmax). *)
Definition vgg16_contract `{Keras} (m : keras_model) : Prop :=
  forall x, shape x = [1; 224; 224; 3] -> wf x ->
    exists y, keras_predict m x = inr y /\ shape y = [1; 1000] /\ wf y /\
      Forall (fun q => 0 <= q <= 1)%Q (data y).

Section Valid.
Context `{PillowLaws} `{Keras} `{ClassIndexCodec}.

(** Lines 66-75 once the model has produced a (1, 1000) array: the result
    is that of loading [CLASS_INDEX] followed by the stateless decoding. *)
Lemma classify_run env x content m y s :
  disk env !! model_path (BASE_DIR env) = Some content -> keras_load content = inr m ->
  keras_predict m x = inr y -> shape y = [1; 1000] ->
  classify env x s =
    match load_class_index (network env) s with
    | (s', inl e) => (s', inl e)
    | (s', inr ci) =>
        (s', preds <- decode_predictions np_argsort ci y 5 ;;
             match preds !! 0 with
             | Some p => inr p
             | None => inl (IndexError "list index out of range")
             end)
    end.
Proof.
  intros Hd Hl Hp Hsh. unfold classify, load_model. rewrite Hd, Hl, !lift_bind, Hp.
  rewrite pyst_bind_run, decode_predictions_global_run.
  assert (Hok : preds_shape_ok y = true) by (unfold preds_shape_ok; by rewrite Hsh).
  rewrite Hok. destruct (load_class_index (network env) s) as [s' [e|ci]]; [done|].
  simpl. by destruct (decode_predictions np_argsort ci y 5).
Qed.

Lemma classify_ok env x content m y s s' ci :
  disk env !! model_path (BASE_DIR env) = Some content -> keras_load content = inr m ->
  keras_predict m x = inr y -> shape y = [1; 1000] -> wf y ->
  load_class_index (network env) s = (s', inr ci) -> class_index_covers ci 1000 ->
  exists prediction, classify env x s = (s', inr prediction) /\ topk_spec ci 5 (data y) prediction.
Proof.
  intros Hd Hl Hp Hsh Hwf Hld Hci. rewrite (classify_run env x content m y s), Hld by done.
  destruct (decode_predictions_topk np_argsort np_argsort_contract ci y 5 1)
    as (results & -> & Hlen & Hspec); [done|done|done|done|].
  simpl. destruct results as [|res [|]]; simpl in Hlen; try lia.
  exists res. split; [done|]. specialize (Hspec 0 res eq_refl).
  assert (Hrow : row_at 1000 0 y = data y).
  { unfold row_at. simpl. apply take_ge. rewrite Hwf, Hsh. reflexivity. }
  by rewrite Hrow in Hspec.
Qed.

(** The network's output on the preprocessed upload, for an upload
    Pillow opens and a model meeting [vgg16_contract]. *)
Lemma valid_upload_output f im m :
  pil_open (uf_read f) = inr im -> vgg16_contract m ->
  exists x y, prepare_image f = inr x /\ keras_predict m x = inr y /\
    shape y = [1; 1000] /\ wf y /\ Forall (fun q => 0 <= q <= 1)%Q (data y).
Proof.
  intros Ho Hvgg. destruct (prepare_image_safe f im Ho) as (x & Hx & Hxs & Hxw).
  destruct (Hvgg x Hxs Hxw) as (y & Hy & Hys & Hyw & Hyp). by exists x, y.
Qed.

(** C1: a POST with a valid upload that Pillow can
    open, with the model file present at [BASE_DIR/prediction/models/vgg16.h5]
    and behaving as VGG16, in a state from which the class index [ci]
    loads (cached, on disk or fetched) and is complete, is answered with
    ["home.html"] rendered with the bound form, the echoed last value of
    the hidden field [img_data], and a prediction list that meets the
    top-5 specification for the network's output on the preprocessed
    image: five distinct classes, in descending order of score, each
    score in [0, 1], no class left out scoring higher.  The state after
    the request is the one loading the index leaves. *)
Theorem predict_post_valid env request f content m s s' ci :
  req_method request = "POST" ->
  image_upload (req_FILES request) = Some f -> upload_ok f ->
  (exists im, pil_open (uf_read f) = inr im) ->
  disk env !! model_path (BASE_DIR env) = Some content -> keras_load content = inr m ->
  vgg16_contract m ->
  load_class_index (network env) s = (s', inr ci) -> class_index_covers ci 1000 ->
  exists r x y prediction,
    predict env request s = (s', inr (Some r)) /\
    prepare_image f = inr x /\ keras_predict m x = inr y /\
    resp_template r = "home.html" /\
    context_lookup r "form" =
      Some (CForm (ImageUploadForm (Some (req_POST request)) (Some (req_FILES request)))) /\
    context_lookup r "img_data" = Some (CImgData (MultiValueDict.get (req_POST request) "img_data")) /\
    context_lookup r "prediction" = Some (CPrediction prediction) /\
    topk_spec ci 5 (data y) prediction /\
    length prediction = 5 /\ Sorted score_ge prediction /\
    Forall (fun p => 0 <= score p <= 1)%Q prediction.
Proof.
  intros Hm Hf Hok [im Ho] Hd Hl Hvgg Hld Hci.
  rewrite (predict_valid_upload env request f) by done.
  destruct (valid_upload_output f im m Ho Hvgg) as (x & y & Hx & Hy & Hys & Hyw & Hyp).
  rewrite Hx, lift_bind.
  destruct (classify_ok env x content m y s s' ci) as (prediction & Hc & Hspec); [done..|].
  rewrite (pyst_bind_ok _ _ _ _ _ Hc).
  eexists _, x, y, prediction. split_and!; try done.
  - eapply topk_spec_length, Hspec.
  - destruct Hspec as (? & ? & ? & ? & ? & ? & Hs & _). exact Hs.
  - exact (topk_spec_scores _ _ _ _ (fun q => 0 <= q <= 1)%Q Hspec Hyp).
Qed.

(** C16: when no file is at the model path, a valid
    POST raises [OSError] out of the view (no error page of the
    application's own), before anything is loaded: the state is
    unchanged. *)
Theorem predict_model_missing env request f s :
  req_method request = "POST" ->
  image_upload (req_FILES request) = Some f -> upload_ok f ->
  (exists im, pil_open (uf_read f) = inr im) ->
  disk env !! model_path (BASE_DIR env) = None ->
  predict env request s =
    (s, inl (OSError ("No file or directory found at " +:+ model_path (BASE_DIR env)))).
Proof.
  intros Hm Hf Hok [im Ho] Hd.
  rewrite (predict_valid_upload env request f) by done.
  destruct (prepare_image_safe f im Ho) as (x & -> & _). rewrite lift_bind.
  unfold classify, load_model. rewrite Hd. done.
Qed.

(** C17: Django's check ([verify]) and Keras'
    loading are separate decodings; when the upload passes the first but
    Pillow cannot load it, the loading error propagates out of the view
    and the state is unchanged. *)
Theorem predict_undecodable_image env request f e s :
  req_method request = "POST" ->
  image_upload (req_FILES request) = Some f -> upload_ok f ->
  pil_open (uf_read f) = inl e ->
  predict env request s = (s, inl e).
Proof.
  intros Hm Hf Hok Ho.
  rewrite (predict_valid_upload env request f) by done.
  by rewrite (prepare_image_open_error f e Ho).
Qed.

(** C18: the first valid request of a process that has no class index yet
    and no valid copy of the file, while the class index cannot be
    fetched, fails with the [Exception] of [get_file] after the model has
    run, and leaves [CLASS_INDEX] empty (the next request fetches again). *)
Theorem predict_class_index_unavailable env request f content m s reason :
  req_method request = "POST" ->
  image_upload (req_FILES request) = Some f -> upload_ok f ->
  (exists im, pil_open (uf_read f) = inr im) ->
  disk env !! model_path (BASE_DIR env) = Some content -> keras_load content = inr m ->
  vgg16_contract m ->
  CLASS_INDEX s = None -> valid_file s = None -> network env = inl reason ->
  predict env request s =
    ({| CLASS_INDEX := None; class_index_file := None |},
     inl (Exception ("URL fetch failure on " +:+ CLASS_INDEX_PATH +:+ ": " +:+ reason))).
Proof.
  intros Hm Hf Hok [im Ho] Hd Hl Hvgg Hc Hv Hn.
  rewrite (predict_valid_upload env request f) by done.
  destruct (valid_upload_output f im m Ho Hvgg) as (x & y & Hx & Hy & Hys & _ & _).
  rewrite Hx, lift_bind, pyst_bind_run, (classify_run env x content m y s) by done.
  rewrite Hn, (load_class_index_fetch_failure_eq reason s Hc Hv). done.
Qed.

End Valid.

(** ** A concrete environment

    A model file whose network returns, on any (1, 224, 224, 3) input, the
    probabilities [i / 499500] for the classes [i = 0 .. 999], a class
    index naming the 1000 classes, and requests with a one-pixel image,
    a text file named like a JPEG, and an unsupported method. *)
Module Example.
Import Pillow.Fixture.
Import Decode.Example ClassIndex.Example.

Definition model_file : list byte := [x56; x47; x47; x31; x36].

Definition probs : list Q := map (fun i => Qmake (Z.of_nat i) 499500) (seq 0 1000).

#[export] Instance keras : Keras := {|
  keras_model := unit;
  keras_load b :=
    match b with
    | [x56; x47; x47; x31; x36] => inr tt
    | _ => inl (OSError "Unable to open file (file signature not found)")
    end;
  keras_predict _ x :=
    if bool_decide (shape x = [1; 224; 224; 3])
    then inr {| shape := [1; 1000]; data := probs |}
    else inl (ValueError "Input 0 of layer vgg16 is incompatible with the layer");
|}.

(** The model [load_model] returns for [model_file]. *)
Definition vgg16 : @keras_model keras := tt.

Lemma keras_vgg16 : vgg16_contract vgg16.
Proof.
  intros x Hx _. simpl. rewrite bool_decide_true by done.
  eexists; split_and!; [reflexivity|reflexivity| |].
  - unfold wf. cbn [shape data]. unfold probs. by rewrite length_map, length_seq.
  - apply Forall_map, Forall_forall. intros i Hi%elem_of_seq.
    unfold Qle. simpl. lia.
Qed.

Definition env : Env := {|
  BASE_DIR := "/srv/photoidentify";
  disk := {[ "/srv/photoidentify/prediction/models/vgg16.h5" := model_file ]};
  network := inr index_json;
|}.

Definition env_no_model : Env := {|
  BASE_DIR := "/srv/photoidentify"; disk := ∅; network := inr index_json;
|}.

(** The same server with the network down. *)
Definition env_offline : Env := {|
  BASE_DIR := "/srv/photoidentify";
  disk := {[ "/srv/photoidentify/prediction/models/vgg16.h5" := model_file ]};
  network := inl "None -- [Errno -3] Temporary failure in name resolution";
|}.

(** A process after its first prediction. *)
Definition warm : KerasState := {| CLASS_INDEX := Some class_index; class_index_file := Some index_json |}.

(** A 1x1 RGB image named [dog.JPG] and a text file named [fake.jpg]. *)
Definition photo : UploadedFile := {| uf_name := "dog.JPG"; uf_content := [x49; x01; x01; xc8; x96; x32] |}.
Definition fake : UploadedFile := {| uf_name := "fake.jpg"; uf_content := [x68; x65; x6c; x6c; x6f] |}.

Definition request (m : string) (f : UploadedFile) : HttpRequest := {|
  req_method := m; req_path := "/";
  req_POST := MultiValueDict.of_pairs
    [("csrfmiddlewaretoken", "tok"); ("img_data", "data:image/jpeg;base64,SQEB")];
  req_FILES := MultiValueDict.of_pairs [("image", f)];
|}.

End Example.

Module Witnesses.
Import Pillow.Fixture Decode.Example ClassIndex.Example Example.

Definition truncated : UploadedFile :=
  {| uf_name := "cat.png"; uf_content := [x49; x02; x02; x00] |}.

(** The first request of a fresh process fetches the class index. *)
Lemma predict_post_valid_witness :
  req_method (request "POST" photo) = "POST" /\
  image_upload (req_FILES (request "POST" photo)) = Some photo /\ upload_ok photo /\
  (exists im, pil_open (uf_read photo) = inr im) /\
  disk env !! model_path (BASE_DIR env) = Some model_file /\ keras_load model_file = inr vgg16 /\
  vgg16_contract vgg16 /\
  load_class_index (network env) (fresh_process None) = (warm, inr class_index) /\
  class_index_covers class_index 1000 /\
  exists r x y prediction,
    predict env (request "POST" photo) (fresh_process None) = (warm, inr (Some r)) /\
    prepare_image photo = inr x /\ keras_predict vgg16 x = inr y /\
    resp_template r = "home.html" /\
    context_lookup r "form" =
      Some (CForm (ImageUploadForm (Some (req_POST (request "POST" photo)))
                                   (Some (req_FILES (request "POST" photo))))) /\
    context_lookup r "img_data" =
      Some (CImgData (MultiValueDict.get (req_POST (request "POST" photo)) "img_data")) /\
    context_lookup r "prediction" = Some (CPrediction prediction) /\
    topk_spec class_index 5 (data y) prediction /\
    length prediction = 5 /\ Sorted score_ge prediction /\
    Forall (fun p => 0 <= score p <= 1)%Q prediction.
Proof.
  assert (Hok : upload_ok photo) by decide_by_compute.
  assert (Ho : exists im, pil_open (uf_read photo) = inr im) by (eexists; vm_compute; reflexivity).
  assert (Hld : load_class_index (network env) (fresh_process None) = (warm, inr class_index))
    by exact load_fresh.
  split_and!; [reflexivity|vm_compute; reflexivity|exact Hok|exact Ho|vm_compute; reflexivity
    |reflexivity|exact keras_vgg16|exact Hld|exact class_index_complete|].
  apply (predict_post_valid env (request "POST" photo) photo model_file vgg16 _ _ _);
    [reflexivity|vm_compute; reflexivity|exact Hok|exact Ho|vm_compute; reflexivity
    |reflexivity|exact keras_vgg16|exact Hld|exact class_index_complete].
Defined.

Lemma predict_get_witness :
  req_method (request "GET" photo) = "GET" /\
  exists r form, predict env (request "GET" photo) warm = (warm, inr (Some r)) /\
    resp_status r = 200 /\ resp_template r = "home.html" /\
    context_lookup r "form" = Some (CForm form) /\ is_bound form = false /\
    context_lookup r "prediction" = None /\ context_lookup r "img_data" = None.
Proof. split; [reflexivity|]. apply predict_get. reflexivity. Defined.

(** The scenario of a text file named [fake.jpg]. *)
Lemma predict_post_invalid_witness :
  req_method (request "POST" fake) = "POST" /\
  ~ (exists f, image_upload (req_FILES (request "POST" fake)) = Some f /\ upload_ok f) /\
  predict env (request "POST" fake) (fresh_process None) =
  predict env (with_method (request "POST" fake) "GET") (fresh_process None).
Proof.
  assert (Hn : ~ (exists f, image_upload (req_FILES (request "POST" fake)) = Some f /\ upload_ok f)).
  { decide_by_compute. }
  split_and!; [reflexivity|exact Hn|].
  apply predict_post_invalid; [reflexivity|exact Hn].
Defined.

Lemma predict_response_typed_witness :
  predict env (request "GET" photo) warm =
    (warm, inr (Some (predict_get_response (request "GET" photo)))) /\
  resp_template (predict_get_response (request "GET" photo)) = "home.html" /\
  resp_status (predict_get_response (request "GET" photo)) = 200 /\
  ctx_well_typed (resp_context (predict_get_response (request "GET" photo))).
Proof.
  assert (Hp : predict env (request "GET" photo) warm =
                 (warm, inr (Some (predict_get_response (request "GET" photo))))) by reflexivity.
  split; [exact Hp|]. exact (predict_response_typed _ _ _ _ _ Hp).
Defined.

Lemma predict_other_method_witness :
  req_method (request "PUT" photo) <> "GET" /\ req_method (request "PUT" photo) <> "POST" /\
  predict env (request "PUT" photo) warm = (warm, inr None).
Proof.
  assert (H1 : req_method (request "PUT" photo) <> "GET") by (simpl; discriminate).
  assert (H2 : req_method (request "PUT" photo) <> "POST") by (simpl; discriminate).
  split_and!; [exact H1|exact H2|]. by apply predict_other_method.
Defined.


Lemma predict_model_missing_witness :
  req_method (request "POST" photo) = "POST" /\
  image_upload (req_FILES (request "POST" photo)) = Some photo /\ upload_ok photo /\
  (exists im, pil_open (uf_read photo) = inr im) /\
  disk env_no_model !! model_path (BASE_DIR env_no_model) = None /\
  predict env_no_model (request "POST" photo) (fresh_process None) =
    (fresh_process None,
     inl (OSError ("No file or directory found at " +:+ model_path (BASE_DIR env_no_model)))).
Proof.
  assert (Hok : upload_ok photo) by decide_by_compute.
  assert (Ho : exists im, pil_open (uf_read photo) = inr im) by (eexists; vm_compute; reflexivity).
  split_and!; [reflexivity|vm_compute; reflexivity|exact Hok|exact Ho|reflexivity|].
  apply (predict_model_missing env_no_model (request "POST" photo) photo);
    [reflexivity|vm_compute; reflexivity|exact Hok|exact Ho|reflexivity].
Defined.

Lemma predict_undecodable_image_witness :
  req_method (request "POST" truncated) = "POST" /\
  image_upload (req_FILES (request "POST" truncated)) = Some truncated /\ upload_ok truncated /\
  pil_open (uf_read truncated) = inl (OSError "image file is truncated") /\
  predict env (request "POST" truncated) warm = (warm, inl (OSError "image file is truncated")).
Proof.
  assert (Hok : upload_ok truncated) by decide_by_compute.
  split_and!; [reflexivity|vm_compute; reflexivity|exact Hok|vm_compute; reflexivity|].
  apply (predict_undecodable_image env (request "POST" truncated) truncated);
    [reflexivity|vm_compute; reflexivity|exact Hok|vm_compute; reflexivity].
Defined.

(** A fresh process with no cached file and no network. *)
Lemma predict_class_index_unavailable_witness :
  req_method (request "POST" photo) = "POST" /\
  image_upload (req_FILES (request "POST" photo)) = Some photo /\ upload_ok photo /\
  (exists im, pil_open (uf_read photo) = inr im) /\
  disk env_offline !! model_path (BASE_DIR env_offline) = Some model_file /\
  keras_load model_file = inr vgg16 /\ vgg16_contract vgg16 /\
  CLASS_INDEX (fresh_process None) = None /\ valid_file (fresh_process None) = None /\
  network env_offline = inl "None -- [Errno -3] Temporary failure in name resolution" /\
  predict env_offline (request "POST" photo) (fresh_process None) =
    ({| CLASS_INDEX := None; class_index_file := None |},
     inl (Exception ("URL fetch failure on " +:+ CLASS_INDEX_PATH +:+ ": " +:+
                     "None -- [Errno -3] Temporary failure in name resolution"))).
Proof.
  assert (Hok : upload_ok photo) by decide_by_compute.
  assert (Ho : exists im, pil_open (uf_read photo) = inr im) by (eexists; vm_compute; reflexivity).
  split_and!; [reflexivity|vm_compute; reflexivity|exact Hok|exact Ho|vm_compute; reflexivity
    |reflexivity|exact keras_vgg16|reflexivity|reflexivity|reflexivity|].
  apply (predict_class_index_unavailable env_offline (request "POST" photo) photo model_file vgg16);
    [reflexivity|vm_compute; reflexivity|exact Hok|exact Ho|vm_compute; reflexivity
    |reflexivity|exact keras_vgg16|reflexivity|reflexivity|reflexivity].
Defined.

End Witnesses.
