(* ===== verification/Urls.v ===== *)
(** * [photoidentify/urls.py] and Django's dispatch

    [urlpatterns = [path('admin/', admin.site.urls), path('', predict,
    name = 'predict')]].  Django resolves a request path against the root
    pattern ["^/"] and then against each entry in order: [path(route, view)]
    is an endpoint whose regex is ["^route\Z"], [path(route, include)]
    matches ["^route"] and hands the rest of the path to the included
    URLconf.  A path nothing matches is a 404.  The handler calls the
    view; a view that returns [None] makes Django raise [ValueError]
    ("didn't return an HttpResponse object"), and an uncaught exception
    becomes a 500 response.  [reverse(name)] builds the path of a named
    endpoint. *)

From S2P Require Import Prelude Http Pillow ClassIndex Views.
Local Open Scope string_scope.

(** [s] without the prefix [pre], when [s] starts with it. *)
Fixpoint strip_prefix (pre s : string) : option string :=
  match pre, s with
  | EmptyString, _ => Some s
  | String c pre', String d s' => if bool_decide (c = d) then strip_prefix pre' s' else None
  | String _ _, EmptyString => None
  end.

(** What an entry of [urlpatterns] routes to. *)
Inductive Target := TPredict | TAdminSite.

(** [path(route, view, name=...)] and [path(route, include(...))]. *)
Inductive UrlEntry :=
| Endpoint (route : string) (view : Target) (name : option string)
| Include (route : string) (urlconf : Target).

(** The [view] argument of [path]: a view function, or the triple
    [(urlconf, app_name, namespace)] that [include] and [admin.site.urls]
    return.  (Any other argument makes [path] raise [TypeError]; urls.py
    passes none.) *)
Inductive PathView :=
| ViewFn (v : Target)
| UrlconfTuple (urlconf : Target) (app_name namespace : string).

(** [admin.site.urls]: [(self.get_urls(), "admin", self.name)] with the
    default site named ["admin"]. *)
Definition admin_site_urls : PathView := UrlconfTuple TAdminSite "admin" "admin".

(** [django.urls.path] ([_path] with [RoutePattern]): a list or tuple
    gives a [URLResolver] over the included URLconf (the name is not
    used), a callable a [URLPattern] endpoint with its name. *)
Definition path (route : string) (view : PathView) (name : option string) : UrlEntry :=
  match view with
  | UrlconfTuple urlconf _ _ => Include route urlconf
  | ViewFn v => Endpoint route v name
  end.

(** [urlpatterns], lines 27-34 of urls.py. *)
Definition urlpatterns : list UrlEntry :=
  [path "admin/" admin_site_urls None;
   path "" (ViewFn TPredict) (Some "predict")].

(** A resolved path: the target and the rest of the path it receives. *)
Record ResolverMatch := { rm_target : Target; rm_rest : string }.

Definition match_entry (e : UrlEntry) (path : string) : option ResolverMatch :=
  match e with
  | Endpoint route v _ =>
      match strip_prefix route path with
      | Some "" => Some {| rm_target := v; rm_rest := "" |}
      | _ => None
      end
  | Include route u =>
      rest ← strip_prefix route path; Some {| rm_target := u; rm_rest := rest |}
  end.

Fixpoint resolve_in (ps : list UrlEntry) (path : string) : option ResolverMatch :=
  match ps with
  | [] => None
  | e :: ps' =>
      match match_entry e path with
      | Some m => Some m
      | None => resolve_in ps' path
      end
  end.

(** [django.urls.resolve(path)]: [None] is [Resolver404]. *)
Definition resolve (path : string) : option ResolverMatch :=
  p ← strip_prefix "/" path; resolve_in urlpatterns p.



(** ** The request handler *)

Inductive HandlerResult :=
| Rendered (r : Response)
| ServerError (e : PyExc)
| NotFound
| AdminSite (rest : string).

(** [BaseHandler.check_response] on a view that returned [None]. *)
Definition view_returned_none : PyExc :=
  ValueError "The view prediction.views.predict didn't return an HttpResponse object. It returned None instead.".

(** [BaseHandler._get_response] with the exception middleware: resolve,
    call the view, check that it returned a response.  The process's
    Keras state is threaded through the view. *)
Definition handle `{Pillow} `{Keras} `{ClassIndexCodec} (env : Env) (request : HttpRequest)
    (s : KerasState) : KerasState * HandlerResult :=
  match resolve (req_path request) with
  | None => (s, NotFound)
  | Some m =>
      match rm_target m with
      | TAdminSite => (s, AdminSite (rm_rest m))
      | TPredict =>
          let (s', r) := predict env request s in
          (s', match r with
               | inr (Some r) => Rendered r
               | inr None => ServerError view_returned_none
               | inl e => ServerError e
               end)
      end
  end.

(** ** Lemmas *)

Lemma strip_prefix_Some pre s r : strip_prefix pre s = Some r <-> s = pre +:+ r.
Proof.
  revert s. induction pre as [|c pre IH]; intros s.
  { change ("" +:+ r) with r. simpl. split; congruence. }
  change (String c pre +:+ r) with (String c (pre +:+ r)).
  destruct s as [|d s]; simpl.
  - split; [done|]. intros Heq. discriminate Heq.
  - case_bool_decide as Hcd.
    + subst d. rewrite IH. split; [intros ->; done|].
      intros Heq. by injection Heq.
    + split; [done|]. intros Heq. injection Heq as -> _. done.
Qed.

Lemma resolve_in_urlpatterns p :
  resolve_in urlpatterns p =
    match strip_prefix "admin/" p with
    | Some rest => Some {| rm_target := TAdminSite; rm_rest := rest |}
    | None => match p with "" => Some {| rm_target := TPredict; rm_rest := "" |} | _ => None end
    end.
Proof.
  cbn [resolve_in match_entry urlpatterns path admin_site_urls].
  destruct (strip_prefix "admin/" p); [done|]. by destruct p.
Qed.

Lemma resolve_unfold path :
  resolve path = match strip_prefix "/" path with Some p => resolve_in urlpatterns p | None => None end.
Proof. unfold resolve. by destruct (strip_prefix "/" path). Qed.

(** C30: the URL table sends ["/"] (and only it) to [predict],
    every path under ["/admin/"] to the admin site with the rest of the
    path, and nothing else anywhere (a 404). *)
Theorem resolve_spec path m :
  resolve path = Some m <->
    (path = "/" /\ m = {| rm_target := TPredict; rm_rest := "" |}) \/
    (exists rest, path = "/admin/" +:+ rest /\ m = {| rm_target := TAdminSite; rm_rest := rest |}).
Proof.
  rewrite resolve_unfold. split.
  - destruct (strip_prefix "/" path) as [p|] eqn:E; [|done].
    apply strip_prefix_Some in E as ->. rewrite resolve_in_urlpatterns.
    destruct (strip_prefix "admin/" p) as [rest|] eqn:Ea.
    + intros [= <-]. right. exists rest. apply strip_prefix_Some in Ea as ->. done.
    + destruct p as [|c p']; [intros [= <-]; by left|done].
  - intros [[-> ->]|(rest & -> & ->)]; [done|].
    assert (E1 : strip_prefix "/" ("/admin/" +:+ rest) = Some ("admin/" +:+ rest))
      by by apply strip_prefix_Some.
    assert (E2 : strip_prefix "admin/" ("admin/" +:+ rest) = Some rest)
      by by apply strip_prefix_Some.
    by rewrite E1, resolve_in_urlpatterns, E2.
Qed.


(** C6: a request to ["/"] with a method other than GET
    and POST makes the view return [None], which Django turns into a
    [ValueError] and a server error, not a 405 response. *)
Theorem handle_other_method `{Pillow} `{Keras} `{ClassIndexCodec} env request s :
  req_path request = "/" ->
  req_method request <> "GET" -> req_method request <> "POST" ->
  handle env request s = (s, ServerError view_returned_none).
Proof.
  intros Hp Hg Hpo. unfold handle. rewrite Hp. simpl.
  rewrite (predict_other_eq env request s) by done. done.
Qed.

Module Witnesses.
Import Pillow.Fixture Decode.Example ClassIndex.Example Views.Example.


Lemma handle_other_method_witness :
  req_path (request "PUT" photo) = "/" /\
  req_method (request "PUT" photo) <> "GET" /\ req_method (request "PUT" photo) <> "POST" /\
  handle env (request "PUT" photo) warm = (warm, ServerError view_returned_none).
Proof.
  assert (H1 : req_method (request "PUT" photo) <> "GET") by (simpl; discriminate).
  assert (H2 : req_method (request "PUT" photo) <> "POST") by (simpl; discriminate).
  split_and!; [reflexivity|exact H1|exact H2|].
  exact (handle_other_method env (request "PUT" photo) warm eq_refl H1 H2).
Defined.

End Witnesses.
