(* ===== verification/Server.v ===== *)
(** * The process serving the application

    One Django worker process serves requests one after the other.  The
    only state the code keeps from one request to the next is Keras'
    ([KerasState]: the global [CLASS_INDEX] and the cached class-index
    file); everything else ([settings], the model file, which the view
    reloads on every request) is read afresh.  This file models a run of
    the process as [serve], a list of requests each with the world
    ([Env]) it meets, and as the step relation [step] with its reachable
    states, and proves what holds of every state and every run: the
    cache stays consistent with the file, a filled cache never changes
    and makes the network irrelevant, and a repeated request gets the
    same response. *)

From S2P Require Import Prelude Http Pillow Forms Decode ClassIndex OsPath Views Urls.
From stdpp Require Import gmap.
Local Open Scope nat_scope.

Section Serving.
Context `{Pillow} `{Keras} `{ClassIndexCodec}.

(** Requests served in order by one process. *)
Fixpoint serve (reqs : list (Env * HttpRequest)) (s : KerasState)
    : KerasState * list HandlerResult :=
  match reqs with
  | [] => (s, [])
  | (env, request) :: rest =>
      let (s1, res) := handle env request s in
      let (s2, ress) := serve rest s1 in
      (s2, res :: ress)
  end.

(** One request handled by the process. *)
Inductive step : KerasState -> Env * HttpRequest -> HandlerResult -> KerasState -> Prop :=
| step_handle s env request :
    step s (env, request) (handle env request s).2 (handle env request s).1.

(** The states a process reaches from its start, whatever the requests
    and whatever the world they meet. *)
Inductive reachable : KerasState -> Prop :=
| reachable_fresh file : reachable (fresh_process file)
| reachable_step s er res s' : reachable s -> step s er res s' -> reachable s'.

End Serving.

(** The same world with another network. *)
Definition with_network (env : Env) (n : Fetch) : Env :=
  {| BASE_DIR := BASE_DIR env; disk := disk env; network := n |}.

Section ViewState.
Context `{PillowLaws} `{Keras} `{ClassIndexCodec}.

(** The view touches the process state at one point only: it either
    answers without it, or through [classify]. *)
Lemma predict_cases request :
  (exists res, forall env t, predict env request t = (t, res)) \/
  (exists x k, forall env t, predict env request t =
     match classify env x t with
     | (t', inl e) => (t', inl e)
     | (t', inr p) => (t', inr (Some (k p)))
     end).
Proof.
  unfold predict.
  case_bool_decide; [left; eexists; intros env t; reflexivity|].
  case_bool_decide; [|left; eexists; intros env t; reflexivity].
  unfold predict_post, predict_valid.
  destruct (is_valid _) as [e|[]] eqn:Ev;
    [left; exists (inl e); intros env t; st_run; done| |left; eexists; intros env t; st_run; done].
  destruct (cleaned_lookup _ "image") as [e|[f|]] eqn:Ec;
    [left; exists (inl e); intros env t; st_run; done| |
     left; eexists; intros env t; st_run; done].
  destruct (prepare_image f) as [e|x] eqn:Ep;
    [left; exists (inl e); intros env t; st_run; by rewrite Ep|].
  right. eexists x, _. intros env t. st_run. rewrite Ep.
  destruct (classify env x t) as [t' [e|p]]; reflexivity.
Qed.

End ViewState.

Section Classify.
Context `{PillowLaws} `{Keras} `{ClassIndexCodec}.

(** [classify] either answers without the state, or after loading the
    class index, from which its answer is computed. *)
Lemma classify_cases env x :
  (exists res, forall t, classify env x t = (t, res)) \/
  (exists k, forall t, classify env x t =
     match load_class_index (network env) t with
     | (t', inl e) => (t', inl e)
     | (t', inr ci) => (t', k ci)
     end).
Proof.
  unfold classify.
  destruct (load_model env _) as [e|m]; [left; exists (inl e); by intros t|].
  destruct (keras_predict m x) as [e|y] eqn:Ep; [left; exists (inl e); intros t; st_run; by rewrite Ep|].
  destruct (preds_shape_ok y) eqn:Es.
  - right. exists (fun ci => preds <- decode_predictions np_argsort ci y 5 ;;
                             match preds !! 0 with
                             | Some p => inr p
                             | None => inl (IndexError "list index out of range")
                             end).
    intros t. st_run. rewrite Ep, decode_predictions_global_run, Es.
    destruct (load_class_index (network env) t) as [t' [e|ci]]; [done|].
    by destruct (decode_predictions np_argsort ci y 5).
  - left. eexists. intros t. st_run. rewrite Ep, decode_predictions_global_run, Es.
    reflexivity.
Qed.

End Classify.

Section Handler.
Context `{PillowLaws} `{Keras} `{ClassIndexCodec}.

(** The handler touches the process state at one point only: the loading
    of the class index, or not at all. *)
Lemma handle_cases env request :
  (exists res, forall t, handle env request t = (t, res)) \/
  (exists k, forall t, handle env request t =
     match load_class_index (network env) t with
     | (t', inl e) => (t', ServerError e)
     | (t', inr ci) => (t', k ci)
     end).
Proof.
  unfold handle. destruct (resolve (req_path request)) as [m|]; [|left; by eexists].
  destruct (rm_target m); [|left; by eexists].
  destruct (predict_cases request) as [[res Hres]|(x & k & Hk)].
  { left. eexists. intros t. rewrite Hres. reflexivity. }
  destruct (classify_cases env x) as [[res Hres]|[k' Hk']].
  { left. exists (match res with inl e => ServerError e | inr p => Rendered (k p) end).
    intros t. rewrite Hk, Hres. by destruct res. }
  right. exists (fun ci => match k' ci with
                          | inl e => ServerError e
                          | inr p => Rendered (k p)
                          end).
  intros t. rewrite Hk, Hk'.
  destruct (load_class_index (network env) t) as [t' [e|ci]]; [done|]. by destruct (k' ci).
Qed.

Lemma handle_state env request s :
  (handle env request s).1 = s \/
  (handle env request s).1 = (load_class_index (network env) s).1.
Proof.
  destruct (handle_cases env request) as [[res Hres]|[k Hk]]; [left; by rewrite Hres|].
  right. rewrite Hk. by destruct (load_class_index (network env) s) as [s' [e|ci]].
Qed.

(** A process whose [CLASS_INDEX] is filled answers every request without
    changing its state. *)
Lemma handle_warm env request s ci :
  CLASS_INDEX s = Some ci -> (handle env request s).1 = s.
Proof.
  intros Hc. destruct (handle_state env request s) as [E|E]; [done|].
  by rewrite E, (load_class_index_cached _ _ ci Hc).
Qed.

Lemma classify_network env n x s :
  load_class_index n s = load_class_index (network env) s ->
  classify (with_network env n) x s = classify env x s.
Proof.
  intros Hl. unfold classify.
  change (load_model (with_network env n)) with (load_model env).
  change (BASE_DIR (with_network env n)) with (BASE_DIR env).
  destruct (load_model env _) as [e|m]; [done|]. st_run.
  destruct (keras_predict m x) as [e|y]; [done|].
  rewrite !decode_predictions_global_run. cbn [network with_network]. by rewrite Hl.
Qed.

Lemma handle_network env n request s :
  load_class_index n s = load_class_index (network env) s ->
  handle (with_network env n) request s = handle env request s.
Proof.
  intros Hl. unfold handle. destruct (resolve (req_path request)) as [m|]; [|done].
  destruct (rm_target m); [|done].
  destruct (predict_cases request) as [[res Hres]|(x & k & Hk)]; [by rewrite !Hres|].
  by rewrite !Hk, classify_network.
Qed.

End Handler.

Section Claims.
Context `{PillowLaws} `{Keras} `{ClassIndexCodec}.

Lemma handle_preserves env request s :
  cache_consistent s -> cache_consistent (handle env request s).1.
Proof.
  intros Hs. destruct (handle_state env request s) as [E|E]; rewrite E; [done|].
  by apply load_class_index_preserves.
Qed.

(** C8: in every state a process reaches, whatever requests it served
    and whatever the network answered, a filled [CLASS_INDEX] is the
    parse of the file in [~/.keras/models], whose md5 matches. *)
Theorem reachable_cache_consistent s : reachable s -> cache_consistent s.
Proof.
  induction 1 as [file|s er res s' _ IH Hst].
  - intros ci Hc. discriminate.
  - inversion Hst; subst. by apply handle_preserves.
Qed.

Lemma serve_warm_eq reqs s ci : CLASS_INDEX s = Some ci -> (serve reqs s).1 = s.
Proof.
  intros Hc. induction reqs as [|[env request] reqs IH]; [done|]. simpl.
  pose proof (handle_warm env request s ci Hc) as Hw.
  destruct (handle env request s) as [s1 res]. simpl in Hw. subst s1.
  destruct (serve reqs s) as [s2 ress]. by simpl in *.
Qed.

(** C9: once [CLASS_INDEX] is filled the process state never changes
    again: any run of requests leaves it as it was. *)
Theorem serve_warm_state reqs s ci : CLASS_INDEX s = Some ci -> (serve reqs s).1 = s.
Proof. apply serve_warm_eq. Qed.

(** C10: once [CLASS_INDEX] is filled, what the network answers is
    irrelevant: a run of requests gets the same responses and leaves the
    same state whatever the fetch of the class index would give. *)
Theorem serve_warm_offline reqs nets s ci :
  length nets = length reqs -> CLASS_INDEX s = Some ci ->
  serve (zip_with (fun er n => (with_network er.1 n, er.2)) reqs nets) s = serve reqs s.
Proof.
  intros Hl Hc. revert nets Hl.
  induction reqs as [|[env request] reqs IH]; intros [|n nets] Hl; simpl in *; try done.
  rewrite handle_network by (by rewrite !(load_class_index_cached _ _ ci Hc)).
  pose proof (handle_warm env request s ci Hc) as Hw.
  destruct (handle env request s) as [s1 res]. simpl in Hw. subst s1.
  rewrite IH by lia. done.
Qed.

(** C7: a request answered with a page, repeated at once in the same
    world, gets the same page again, and the state the first left is
    kept (the idempotence the design asks for, although the first
    request may have filled the cache). *)
Theorem handle_idempotent env request s r :
  (handle env request s).2 = Rendered r ->
  handle env request (handle env request s).1 = ((handle env request s).1, Rendered r).
Proof.
  destruct (handle_cases env request) as [[res Hres]|[k Hk]].
  { rewrite !Hres. simpl. by intros ->. }
  rewrite (Hk s). destruct (load_class_index (network env) s) as [s' [e|ci]] eqn:E; simpl; [done|].
  intros <-. rewrite (Hk s'), (load_class_index_cached _ s' ci); [done|].
  by eapply load_class_index_sets.
Qed.

End Claims.

(** ** Liveness: the cache gets filled *)

(** A request the view answers by decoding: a valid upload Pillow opens,
    posted to ["/"], with a VGG16 model file in place. *)
Definition decodes `{Pillow} `{Keras} (env : Env) (request : HttpRequest) : Prop :=
  req_path request = "/" /\ req_method request = "POST" /\
  exists f content m, image_upload (req_FILES request) = Some f /\ upload_ok f /\
    (exists im, pil_open (uf_read f) = inr im) /\
    disk env !! model_path (BASE_DIR env) = Some content /\ keras_load content = inr m /\
    vgg16_contract m.

(** A world in which fetching the class index returns the published file. *)
Definition index_fetchable `{ClassIndexCodec} (env : Env) : Prop :=
  exists b, network env = inr b /\ file_hash_ok b = true.

(** [P] holds after some prefix of a run of requests. *)
Inductive eventually `{Pillow} `{Keras} `{ClassIndexCodec} (P : KerasState -> Prop)
    : list (Env * HttpRequest) -> KerasState -> Prop :=
| eventually_now reqs s : P s -> eventually P reqs s
| eventually_later env request reqs s :
    eventually P reqs (handle env request s).1 -> eventually P ((env, request) :: reqs) s.

Section Liveness.
Context `{PillowLaws} `{Keras} `{ClassIndexCodecLaws}.

Lemma handle_fills_cache env request s :
  decodes env request -> index_fetchable env -> is_Some (CLASS_INDEX (handle env request s).1).
Proof.
  intros (Hp & Hm & f & content & m & Hf & Hok & [im Ho] & Hd & Hl & Hvgg) (b & Hn & Hh).
  destruct (CLASS_INDEX s) as [ci|] eqn:Hc.
  { rewrite (handle_warm env request s ci Hc), Hc. by eexists. }
  destruct (load_class_index_succeeds b s Hh) as (s' & ci & Hld). rewrite <- Hn in Hld.
  unfold handle. rewrite Hp. simpl.
  rewrite (predict_valid_upload env request f s) by done.
  destruct (valid_upload_output f im m Ho Hvgg) as (x & y & Hx & Hy & Hys & _ & _).
  rewrite Hx, lift_bind, pyst_bind_run, (classify_run env x content m y s), Hld by done.
  pose proof (load_class_index_sets _ _ _ _ Hld) as Hs'.
  destruct (decode_predictions np_argsort ci y 5) as [e|preds]; simpl; [rewrite Hs'; by eexists|].
  destruct (preds !! 0); simpl; rewrite Hs'; by eexists.
Qed.

Lemma eventually_warm_serve reqs s :
  eventually (fun s => is_Some (CLASS_INDEX s)) reqs s -> is_Some (CLASS_INDEX (serve reqs s).1).
Proof.
  induction 1 as [reqs s [ci Hc]|env request reqs s _ IH].
  - by rewrite (serve_warm_eq reqs s ci Hc), Hc.
  - simpl. destruct (handle env request s) as [s1 res]. simpl in IH.
    destruct (serve reqs s1) as [s2 ress]. exact IH.
Qed.

Lemma serve_eventually_warm_aux reqs s :
  (exists env request, (env, request) ∈ reqs /\ decodes env request /\ index_fetchable env) ->
  eventually (fun s => is_Some (CLASS_INDEX s)) reqs s.
Proof.
  revert s. induction reqs as [|[env request] reqs IH]; intros s (env' & request' & Hin & Hdec & Hfe).
  { by apply elem_of_nil in Hin. }
  apply eventually_later. apply elem_of_cons in Hin as [[= <- <-]|Hin].
  - apply eventually_now. by apply handle_fills_cache.
  - apply IH. eauto.
Qed.

(** C11: liveness of the cache: in any run that contains a request the
    view answers by decoding, in a world where the class index can be
    fetched, [CLASS_INDEX] is eventually filled (at the latest by that
    request), and so it is at the end of the run. *)
Theorem serve_eventually_warm reqs s :
  (exists env request, (env, request) ∈ reqs /\ decodes env request /\ index_fetchable env) ->
  eventually (fun s => is_Some (CLASS_INDEX s)) reqs s /\ is_Some (CLASS_INDEX (serve reqs s).1).
Proof.
  intros Hex. pose proof (serve_eventually_warm_aux reqs s Hex) as Hev.
  split; [exact Hev|]. by apply eventually_warm_serve.
Qed.

End Liveness.

Module Witnesses.
Import Pillow.Fixture Decode.Example ClassIndex.Example Views.Example.

(** The page a fresh process renders for the photograph. *)
Definition photo_page : Response :=
  Eval vm_compute in
    match (handle env (request "POST" photo) (fresh_process None)).2 with
    | Rendered r => r
    | _ => predict_get_response (request "GET" photo)
    end.

Lemma reachable_cache_consistent_witness :
  reachable (handle env (request "POST" photo) (fresh_process None)).1 /\
  cache_consistent (handle env (request "POST" photo) (fresh_process None)).1.
Proof.
  assert (Hr : reachable (handle env (request "POST" photo) (fresh_process None)).1).
  { eapply reachable_step; [apply (reachable_fresh None)|constructor]. }
  split; [exact Hr|]. exact (reachable_cache_consistent _ Hr).
Defined.

Lemma serve_warm_state_witness :
  CLASS_INDEX warm = Some class_index /\
  (serve [(env, request "POST" photo); (env_offline, request "POST" fake);
          (env_no_model, request "PUT" photo)] warm).1 = warm.
Proof.
  assert (Hc : CLASS_INDEX warm = Some class_index) by reflexivity.
  split; [exact Hc|]. exact (serve_warm_state _ warm class_index Hc).
Defined.

Lemma serve_warm_offline_witness :
  length [inl "None -- timed out"; inr truncated_json] =
    length [(env, request "POST" photo); (env, request "GET" photo)] /\
  CLASS_INDEX warm = Some class_index /\
  serve (zip_with (fun er n => (with_network er.1 n, er.2))
           [(env, request "POST" photo); (env, request "GET" photo)]
           [inl "None -- timed out"; inr truncated_json]) warm =
  serve [(env, request "POST" photo); (env, request "GET" photo)] warm.
Proof.
  assert (Hc : CLASS_INDEX warm = Some class_index) by reflexivity.
  assert (Hl : length [inl "None -- timed out"; inr truncated_json] =
                length [(env, request "POST" photo); (env, request "GET" photo)]) by reflexivity.
  split_and!; [exact Hl|exact Hc|]. exact (serve_warm_offline _ _ warm class_index Hl Hc).
Defined.

Lemma handle_idempotent_witness :
  (handle env (request "POST" photo) (fresh_process None)).2 = Rendered photo_page /\
  handle env (request "POST" photo) (handle env (request "POST" photo) (fresh_process None)).1 =
    ((handle env (request "POST" photo) (fresh_process None)).1, Rendered photo_page).
Proof.
  assert (H1 : (handle env (request "POST" photo) (fresh_process None)).2 = Rendered photo_page)
    by (vm_compute; reflexivity).
  split; [exact H1|]. exact (handle_idempotent _ _ _ _ H1).
Defined.

Lemma serve_eventually_warm_witness :
  (exists env' request', (env', request') ∈ [(env, request "GET" photo); (env, request "POST" photo)] /\
     decodes env' request' /\ index_fetchable env') /\
  eventually (fun s => is_Some (CLASS_INDEX s))
    [(env, request "GET" photo); (env, request "POST" photo)] (fresh_process None) /\
  is_Some (CLASS_INDEX (serve [(env, request "GET" photo); (env, request "POST" photo)]
                              (fresh_process None)).1).
Proof.
  assert (Hd : decodes env (request "POST" photo)).
  { split_and!; [reflexivity|reflexivity|]. exists photo, model_file, vgg16.
    split_and!; [vm_compute; reflexivity|decide_by_compute|eexists; vm_compute; reflexivity
      |vm_compute; reflexivity|reflexivity|exact keras_vgg16]. }
  assert (Hf : index_fetchable env) by (exists index_json; split; [reflexivity|vm_compute; reflexivity]).
  assert (Hex : exists env' request',
            (env', request') ∈ [(env, request "GET" photo); (env, request "POST" photo)] /\
            decodes env' request' /\ index_fetchable env').
  { exists env, (request "POST" photo). split_and!; [right; left|exact Hd|exact Hf]. }
  split; [exact Hex|]. exact (serve_eventually_warm _ _ Hex).
Defined.

End Witnesses.
